(** * Mealio service layer: households, recipe access grants, ingredient
      parsing and shopping-list aggregation.

    A shallow embedding of [backend/app/services.py],
    [backend/app/ingredient_parser_service.py] and the tables of
    [backend/app/models.py].  The relational store is a record of tables
    (lists of rows, in storage order); a service call is a function of the
    session state that either returns a value or raises a Python exception.
    The storage constraints of [models.py] (primary keys, [UNIQUE] columns,
    foreign keys, [CHECK] constraints) are checked when a row is written,
    as the database does at flush time, after the column types: a
    [String(n)] value too long for its column and a [DECIMAL(10, 2)]
    value of [10^8] or more raise [DataError].  Strings are UTF-8 byte
    sequences.  Under [AsyncSession] an attribute that is not loaded raises
    [MissingGreenlet] instead of being lazy-loaded.  UUIDs are natural
    numbers; a fresh one is drawn from a counter.  Decimal quantities are
    integers counting hundredths. *)

From Stdlib Require Import List Bool Arith Lia ZArith QArith String Ascii.
Import ListNotations.
Open Scope nat_scope.
Open Scope string_scope.

(* ------------------------------------------------------------------ *)
(** ** Rows of the tables of [models.py] *)

Record User := mkUser {
  user_id : nat;
  current_household_id : option nat
}.

Record Household := mkHousehold {
  household_id : nat;
  household_name : string;
  created_by : nat;
  invite_code : string
}.

Record HouseholdMembership := mkMembership {
  membership_id : nat;
  m_household_id : nat;
  m_user_id : nat;
  role : string
}.

(** A [RecipeIngredient] row; [ingredient_id] is [NOT NULL] (a foreign
    key into [ingredients]), [quantity] is a nullable [DECIMAL(10, 2)] and
    [unit] a nullable [String(50)]. *)
Record RecipeIngredient := mkRecipeIngredient {
  ri_ingredient_id : nat;
  ri_quantity : option Z;
  ri_unit : option string
}.

(** A [Recipe] row with its [recipe_ingredients] lines; [title] is a
    [NOT NULL String(255)]. *)
Record Recipe := mkRecipe {
  recipe_id : nat;
  recipe_user_id : nat;
  shared_with_household : bool;
  recipe_ingredients : list RecipeIngredient;
  title : string
}.

Record RecipeHouseholdAccess := mkAccess {
  access_id : nat;
  ac_recipe_id : nat;
  ac_household_id : nat;
  granted_by : nat
}.

Record Ingredient := mkIngredient {
  ingredient_id : nat;
  ing_name : string;
  category : option string
}.

Record PlannedMeal := mkPlannedMeal {
  pm_recipe_id : nat;
  completed : bool
}.

Record MealPlan := mkMealPlan {
  meal_plan_id : nat;
  mp_household_id : nat;
  mp_name : option string;
  planned_meals : list PlannedMeal
}.

Record ShoppingListItem := mkShoppingListItem {
  sli_ingredient_id : nat;
  sli_quantity : Z;
  sli_unit : option string;
  sli_category : option string
}.

Record DB := mkDB {
  users : list User;
  households : list Household;
  memberships : list HouseholdMembership;
  recipes : list Recipe;
  accesses : list RecipeHouseholdAccess;
  ingredients : list Ingredient;
  meal_plans : list MealPlan;
  next_id : nat
}.

Definition set_users (db : DB) l :=
  mkDB l (households db) (memberships db) (recipes db) (accesses db)
    (ingredients db) (meal_plans db) (next_id db).
Definition set_households (db : DB) l :=
  mkDB (users db) l (memberships db) (recipes db) (accesses db)
    (ingredients db) (meal_plans db) (next_id db).
Definition set_memberships (db : DB) l :=
  mkDB (users db) (households db) l (recipes db) (accesses db)
    (ingredients db) (meal_plans db) (next_id db).
Definition set_accesses (db : DB) l :=
  mkDB (users db) (households db) (memberships db) (recipes db) l
    (ingredients db) (meal_plans db) (next_id db).
Definition set_ingredients (db : DB) l :=
  mkDB (users db) (households db) (memberships db) (recipes db)
    (accesses db) l (meal_plans db) (next_id db).
Definition set_next_id (db : DB) n :=
  mkDB (users db) (households db) (memberships db) (recipes db)
    (accesses db) (ingredients db) (meal_plans db) n.
Definition set_recipes (db : DB) l :=
  mkDB (users db) (households db) (memberships db) l (accesses db)
    (ingredients db) (meal_plans db) (next_id db).
Definition set_meal_plans (db : DB) l :=
  mkDB (users db) (households db) (memberships db) (recipes db)
    (accesses db) (ingredients db) l (next_id db).

(* ------------------------------------------------------------------ *)
(** ** Sessions: state and Python exceptions *)

Inductive exn :=
| MultipleResultsFound          (* [scalar_one_or_none] on several rows *)
| ValueError (msg : string)
| TypeError (msg : string)
| IntegrityError                (* a storage constraint rejected a write *)
| DataError                     (* a value does not fit its column type *)
| MissingGreenlet.              (* a lazy load under [AsyncSession] *)

Inductive res (A : Type) :=
| Ok (a : A)
| Raise (e : exn).
Arguments Ok {A} a.
Arguments Raise {A} e.

Definition Session (A : Type) := DB -> res A * DB.

Definition ret {A} (a : A) : Session A := fun db => (Ok a, db).
Definition raise {A} (e : exn) : Session A := fun db => (Raise e, db).
Definition bind {A B} (c : Session A) (k : A -> Session B) : Session B :=
  fun db => match c db with
            | (Ok a, db') => k a db'
            | (Raise e, db') => (Raise e, db')
            end.

Notation "x <- c ;; k" := (bind c (fun x => k))
  (at level 61, c at next level, right associativity).
Notation "c ;;; k" := (bind c (fun _ => k))
  (at level 61, right associativity).

Definition get : Session DB := fun db => (Ok db, db).
Definition put (db : DB) : Session unit := fun _ => (Ok tt, db).

(** [await db.execute(select ...)]: a query is a function of the state. *)
Definition execute {A} (q : DB -> list A) : Session (list A) :=
  fun db => (Ok (q db), db).

(** [Result.scalar_one_or_none()]. *)
Definition scalar_one_or_none {A} (rows : list A) : Session (option A) :=
  match rows with
  | [] => ret None
  | [x] => ret (Some x)
  | _ => raise MultipleResultsFound
  end.

(** [uuid.uuid4()] as a fresh identifier. *)
Definition fresh_id : Session nat :=
  fun db => (Ok (next_id db), set_next_id db (S (next_id db))).

Definition option_nat_eqb (a b : option nat) : bool :=
  match a, b with
  | Some x, Some y => Nat.eqb x y
  | None, None => true
  | _, _ => false
  end.

(* ------------------------------------------------------------------ *)
(** ** Storage constraints *)

(** Strings are UTF-8 byte sequences; a byte [10xxxxxx] continues the
    character before it, so characters are counted as Python and
    PostgreSQL count them. *)
Definition continuation_byte (c : ascii) : bool :=
  Nat.eqb (Nat.div (nat_of_ascii c) 64) 2.

(** Whether PostgreSQL accepts [s] for a [VARCHAR(n)] column: a value of at
    most [n] characters is stored as is, a longer one is truncated to [n]
    characters when all the excess characters are spaces, and any other
    value is refused ("value too long", a [DataError]). *)
Fixpoint varchar_fits (n : nat) (s : string) : bool :=
  match s with
  | EmptyString => true
  | String c rest =>
      if continuation_byte c then varchar_fits n rest
      else match n with
           | 0 => Ascii.eqb c " " && varchar_fits 0 rest
           | S n' => varchar_fits n' rest
           end
  end.

(** Whether a quantity (in hundredths) fits a [DECIMAL(10, 2)] column:
    PostgreSQL refuses an absolute value of [10^8] or more ("numeric field
    overflow", a [DataError]). *)
Definition decimal_10_2_fits (q : Z) : bool := Z.ltb (Z.abs q) (10 ^ 10).

(** The constraints of [models.py] that the service code relies on. *)
Record wf (db : DB) : Prop := {
  wf_user_pk : NoDup (map user_id (users db));
  wf_household_pk : NoDup (map household_id (households db));
  wf_recipe_pk : NoDup (map recipe_id (recipes db));
  wf_invite_unique : NoDup (map invite_code (households db));
  wf_membership_pk : NoDup (map membership_id (memberships db));
  wf_membership_user_unique : NoDup (map m_user_id (memberships db));
  wf_access_unique :
    NoDup (map (fun a => (ac_recipe_id a, ac_household_id a)) (accesses db));
  wf_membership_household_fk : forall m, In m (memberships db) ->
    In (m_household_id m) (map household_id (households db));
  wf_membership_user_fk : forall m, In m (memberships db) ->
    In (m_user_id m) (map user_id (users db));
  wf_household_fresh : forall h, In h (households db) ->
    household_id h < next_id db
}.

(** [db.add(row)] followed by a flush, with the constraint checks of the
    table. *)
Definition db_add_household (h : Household) : Session unit :=
  db <- get ;;
  if existsb (fun x => Nat.eqb (household_id x) (household_id h))
       (households db)
     || existsb (fun x => String.eqb (invite_code x) (invite_code h))
          (households db)
     || negb (existsb (fun u => Nat.eqb (user_id u) (created_by h)) (users db))
  then raise IntegrityError
  else put (set_households db (households db ++ [h])).

Definition db_add_membership (m : HouseholdMembership) : Session unit :=
  db <- get ;;
  if existsb (fun x => Nat.eqb (m_user_id x) (m_user_id m)) (memberships db)
     || negb (existsb (fun h => Nat.eqb (household_id h) (m_household_id m))
                (households db))
     || negb (existsb (fun u => Nat.eqb (user_id u) (m_user_id m)) (users db))
  then raise IntegrityError
  else put (set_memberships db (memberships db ++ [m])).

Definition db_add_access (a : RecipeHouseholdAccess) : Session unit :=
  db <- get ;;
  if existsb (fun x => Nat.eqb (ac_recipe_id x) (ac_recipe_id a)
                       && Nat.eqb (ac_household_id x) (ac_household_id a))
       (accesses db)
     || negb (existsb (fun r => Nat.eqb (recipe_id r) (ac_recipe_id a))
                (recipes db))
     || negb (existsb (fun h => Nat.eqb (household_id h) (ac_household_id a))
                (households db))
  then raise IntegrityError
  else put (set_accesses db (accesses db ++ [a])).

Definition db_add_ingredient (i : Ingredient) : Session unit :=
  db <- get ;;
  if existsb (fun x => String.eqb (ing_name x) (ing_name i))
       (ingredients db)
  then raise IntegrityError
  else put (set_ingredients db (ingredients db ++ [i])).

(** [await db.delete(membership)]. *)
Definition db_delete_membership (m : HouseholdMembership) : Session unit :=
  db <- get ;;
  put (set_memberships db
         (filter (fun x => negb (Nat.eqb (membership_id x) (membership_id m)))
            (memberships db))).

(** [await db.delete(access_grant)]. *)
Definition db_delete_access (a : RecipeHouseholdAccess) : Session unit :=
  db <- get ;;
  put (set_accesses db
         (filter (fun x => negb (Nat.eqb (access_id x) (access_id a)))
            (accesses db))).

(** [membership.role = role] on the loaded object, then a commit: the
    [String(20)] column refuses a longer role, and the [check_role]
    constraint, [role IN ('admin', 'member')], refuses any other value (a
    role truncated to 20 characters is neither). *)
Definition set_membership_role (m : HouseholdMembership) (r : string)
  : Session unit :=
  db <- get ;;
  if negb (varchar_fits 20 r) then raise DataError else
  if negb (String.eqb r "admin" || String.eqb r "member") then raise IntegrityError else
  put (set_memberships db
         (map (fun x => if Nat.eqb (membership_id x) (membership_id m)
                        then mkMembership (membership_id x) (m_household_id x)
                               (m_user_id x) r
                        else x) (memberships db))).

(** [db.add(recipe)] with its flush: the [String(255)] title is checked
    when the row is built, then the primary key and the [user_id] foreign
    key. *)
Definition db_add_recipe (r : Recipe) : Session unit :=
  db <- get ;;
  if negb (varchar_fits 255 (title r)) then raise DataError else
  if existsb (fun x => Nat.eqb (recipe_id x) (recipe_id r)) (recipes db)
     || negb (existsb (fun u => Nat.eqb (user_id u) (recipe_user_id r)) (users db))
  then raise IntegrityError
  else put (set_recipes db (recipes db ++ [r])).

(** [db.add(meal_plan)] with its flush: the primary key and the
    [household_id] and [user_id] foreign keys are checked. *)
Definition db_add_meal_plan (mp : MealPlan) (owner : nat) : Session unit :=
  db <- get ;;
  if existsb (fun x => Nat.eqb (meal_plan_id x) (meal_plan_id mp)) (meal_plans db)
     || negb (existsb (fun h => Nat.eqb (household_id h) (mp_household_id mp))
                (households db))
     || negb (existsb (fun u => Nat.eqb (user_id u) owner) (users db))
  then raise IntegrityError
  else put (set_meal_plans db (meal_plans db ++ [mp])).

(** [user.current_household_id = v] on the loaded [User] object. *)
Definition set_current_household (uid : nat) (v : option nat) : Session unit :=
  db <- get ;;
  put (set_users db
         (map (fun u => if Nat.eqb (user_id u) uid
                        then mkUser (user_id u) v else u) (users db))).

(* ------------------------------------------------------------------ *)
(** ** Queries *)

(** [UserService.get_user]. *)
Definition get_user (uid : nat) : Session (option User) :=
  rows <- execute (fun db => filter (fun u => Nat.eqb (user_id u) uid) (users db)) ;;
  scalar_one_or_none rows.

(** [HouseholdService.get_household_by_invite_code]. *)
Definition get_household_by_invite_code (code : string)
  : Session (option Household) :=
  rows <- execute (fun db =>
            filter (fun h => String.eqb (invite_code h) code) (households db)) ;;
  scalar_one_or_none rows.

(** [select(Household).join(HouseholdMembership)
      .where(HouseholdMembership.user_id == user_id)]. *)
Definition user_household_rows (db : DB) (uid : nat) : list Household :=
  flat_map (fun m => filter (fun h => Nat.eqb (household_id h) (m_household_id m))
                       (households db))
    (filter (fun m => Nat.eqb (m_user_id m) uid) (memberships db)).

(** [HouseholdService.get_user_household]. *)
Definition get_user_household (uid : nat) : Session (option Household) :=
  rows <- execute (fun db => user_household_rows db uid) ;;
  scalar_one_or_none rows.

(** [select(HouseholdMembership).where(HouseholdMembership.user_id == user_id)]. *)
Definition membership_of (uid : nat) : Session (option HouseholdMembership) :=
  rows <- execute (fun db =>
            filter (fun m => Nat.eqb (m_user_id m) uid) (memberships db)) ;;
  scalar_one_or_none rows.

(** [select(HouseholdMembership).where(and_(household_id == .., user_id == ..))]. *)
Definition household_member_rows (db : DB) (hid uid : nat)
  : list HouseholdMembership :=
  filter (fun m => Nat.eqb (m_household_id m) hid && Nat.eqb (m_user_id m) uid)
    (memberships db).

(** [select(RecipeHouseholdAccess).where(recipe_id == .., household_id == ..)]. *)
Definition access_rows (db : DB) (rid hid : nat) : list RecipeHouseholdAccess :=
  filter (fun a => Nat.eqb (ac_recipe_id a) rid && Nat.eqb (ac_household_id a) hid)
    (accesses db).

(** [select(Recipe.user_id).where(Recipe.id == recipe_id)]. *)
Definition recipe_owner_rows (db : DB) (rid : nat) : list nat :=
  map recipe_user_id (filter (fun r => Nat.eqb (recipe_id r) rid) (recipes db)).

(* ------------------------------------------------------------------ *)
(** ** [RecipeService]: access checks *)

Module RecipeService.

(** [RecipeService.can_user_edit_recipe]. *)
Definition can_user_edit_recipe (rid uid : nat) : Session bool :=
  rows <- execute (fun db => recipe_owner_rows db rid) ;;
  recipe_owner <- scalar_one_or_none rows ;;
  ret (option_nat_eqb recipe_owner (Some uid)).

(** [RecipeService.can_user_access_recipe]. *)
Definition can_user_access_recipe (rid uid : nat) : Session bool :=
  rows <- execute (fun db => recipe_owner_rows db rid) ;;
  recipe_owner <- scalar_one_or_none rows ;;
  if option_nat_eqb recipe_owner (Some uid) then ret true else
  user_household <- get_user_household uid ;;
  match user_household with
  | None => ret false
  | Some h =>
      acc <- execute (fun db => access_rows db rid (household_id h)) ;;
      access_check <- scalar_one_or_none acc ;;
      ret (match access_check with Some _ => true | None => false end)
  end.

(** [RecipeService.grant_household_access]. *)
Definition grant_household_access (rid hid grantor : nat)
  : Session (option RecipeHouseholdAccess) :=
  existing <- execute (fun db => access_rows db rid hid) ;;
  existing_access <- scalar_one_or_none existing ;;
  match existing_access with
  | Some _ => ret None
  | None =>
      aid <- fresh_id ;;
      let access_grant := mkAccess aid rid hid grantor in
      db_add_access access_grant ;;;
      ret (Some access_grant)
  end.

(** [RecipeService.revoke_household_access]. *)
Definition revoke_household_access (rid hid : nat) : Session bool :=
  rows <- execute (fun db => access_rows db rid hid) ;;
  access_grant <- scalar_one_or_none rows ;;
  match access_grant with
  | None => ret false
  | Some a => db_delete_access a ;;; ret true
  end.

(** [RecipeService.get_recipe]. *)
Definition get_recipe (rid : nat) : Session (option Recipe) :=
  rows <- execute (fun db => filter (fun r => Nat.eqb (recipe_id r) rid) (recipes db)) ;;
  scalar_one_or_none rows.

(** [RecipeService.copy_recipe]: the copy, titled [f"{title} (Copy)"],
    belongs to [uid], is marked [shared_with_household = True] and is
    flushed before its lines are built.  Each line of the original is
    rebuilt as [RecipeIngredient(..., raw_ingredient_text=...,
    parsing_confidence=...)]; neither keyword is a column of the model, so
    the declarative constructor raises [TypeError] at the first line and
    nothing is committed (the state returned with an exception is the
    session's, before the rollback). *)
Definition copy_recipe (rid uid : nat) : Session (option Recipe) :=
  original_recipe <- get_recipe rid ;;
  match original_recipe with
  | None => ret None
  | Some orig =>
      new_id <- fresh_id ;;
      let new_recipe := mkRecipe new_id uid true [] (title orig ++ " (Copy)") in
      db_add_recipe new_recipe ;;;
      match recipe_ingredients orig with
      | [] => ret (Some new_recipe)
      | _ :: _ =>
          raise (TypeError
            "'raw_ingredient_text' is an invalid keyword argument for RecipeIngredient")
      end
  end.

(** [.limit(limit).offset(offset)]: SQL skips [offset] rows, then keeps at
    most [limit]. *)
Definition limit_offset {A} (limit offset : nat) (rows : list A) : list A :=
  firstn limit (skipn offset rows).

(** An item of the list returned by [get_accessible_recipes]. *)
Record AccessEntry := mkAccessEntry {
  entry_recipe : Recipe;
  can_edit : bool;
  access_type : string
}.

(** The rows of
    [select(Recipe).outerjoin(RecipeHouseholdAccess, Recipe.id == RecipeHouseholdAccess.recipe_id)
       .join(HouseholdMembership, RecipeHouseholdAccess.household_id == HouseholdMembership.household_id)]:
    one row per recipe, grant of the recipe (or a row of NULLs when it has
    none) and membership whose household equals the grant's household; a
    NULL household joins no membership. *)
Definition recipe_join_rows (db : DB)
  : list (Recipe * option RecipeHouseholdAccess * HouseholdMembership) :=
  flat_map (fun r =>
    let grants := filter (fun a => Nat.eqb (ac_recipe_id a) (recipe_id r))
                    (accesses db) in
    let outer := match grants with
                 | [] => [None]
                 | _ => map Some grants
                 end in
    flat_map (fun oa =>
      flat_map (fun m =>
        match oa with
        | Some a => if Nat.eqb (ac_household_id a) (m_household_id m)
                    then [(r, oa, m)] else []
        | None => []
        end) (memberships db)) outer) (recipes db).

(** The [where(or_(Recipe.user_id == user_id, HouseholdMembership.user_id == user_id))]
    filter, projected on the [Recipe] column. *)
Definition accessible_rows (db : DB) (uid : nat) : list Recipe :=
  map (fun '(r, _, _) => r)
    (filter (fun '(r, _, m) => Nat.eqb (recipe_user_id r) uid
                               || Nat.eqb (m_user_id m) uid)
       (recipe_join_rows db)).

Section Listing.

(** [.order_by(Recipe.created_at.desc())]: the order in which the database
    returns the selected rows ([created_at] is not a column of the model). *)
Variable order_by_created_at_desc : list Recipe -> list Recipe.

(** [RecipeService.get_user_recipes]. *)
Definition get_user_recipes (uid limit offset : nat) : Session (list Recipe) :=
  execute (fun db =>
    limit_offset limit offset
      (order_by_created_at_desc
         (filter (fun r => Nat.eqb (recipe_user_id r) uid) (recipes db)))).

(** [RecipeService.get_accessible_recipes]. *)
Definition get_accessible_recipes (uid limit offset : nat)
  : Session (list AccessEntry) :=
  user_household <- get_user_household uid ;;
  match user_household with
  | None =>
      rs <- get_user_recipes uid limit offset ;;
      ret (map (fun r => mkAccessEntry r true "owner") rs)
  | Some _ =>
      rows <- execute (fun db =>
                limit_offset limit offset
                  (order_by_created_at_desc (accessible_rows db uid))) ;;
      ret (map (fun r => if Nat.eqb (recipe_user_id r) uid
                         then mkAccessEntry r true "owner"
                         else mkAccessEntry r false "household_shared") rows)
  end.

(** [RecipeService.get_household_recipes]. *)
Definition get_household_recipes (uid limit offset : nat) : Session (list Recipe) :=
  accessible <- get_accessible_recipes uid limit offset ;;
  ret (map entry_recipe accessible).

End Listing.

(** [str.isdigit] on one ASCII character: the class [\d] on ASCII text. *)
Definition is_digit (c : ascii) : bool :=
  let n := nat_of_ascii c in ((48 <=? n) && (n <=? 57))%nat.

Fixpoint take_while (p : ascii -> bool) (l : list ascii) : list ascii :=
  match l with
  | c :: rest => if p c then c :: take_while p rest else []
  | [] => []
  end.

(** [re.search("(C+)", s).group(1)] for a character class [C]: the leftmost
    run of class characters, as long as possible; [None] when no character
    of [s] is in the class. *)
Fixpoint search_run (p : ascii -> bool) (l : list ascii) : option (list ascii) :=
  match l with
  | [] => None
  | c :: rest => if p c then Some (c :: take_while p rest) else search_run p rest
  end.

(** [int()] of a run of ASCII digits. *)
Definition int_of_digits (l : list ascii) : nat :=
  fold_left (fun acc c => acc * 10 + (nat_of_ascii c - 48)) l 0.

(** The class [[0-9.]]. *)
Definition is_num_char (c : ascii) : bool := is_digit c || Ascii.eqb c ".".

(** [float()] of a run of digits and points: [None] where [float()] raises
    [ValueError] (a second point, or no digit at all); otherwise the value of
    the decimal literal (the double [float()] returns is the nearest one). *)
Definition float_of_run (l : list ascii) : option Q :=
  let ip := take_while is_digit l in
  match skipn (List.length ip) l with
  | [] => if Nat.eqb (List.length ip) 0 then None
          else Some (inject_Z (Z.of_nat (int_of_digits ip)))
  | _ :: fp =>
      if existsb (fun c => negb (is_digit c)) fp then None
      else if Nat.eqb (List.length ip + List.length fp) 0 then None
      else Some (inject_Z (Z.of_nat (int_of_digits ip)) +
                 inject_Z (Z.of_nat (int_of_digits fp)) /
                 inject_Z (10 ^ Z.of_nat (List.length fp)))%Q
  end.

(** [RecipeService._parse_numeric_value] on a string. *)
Definition _parse_numeric_value (value : string) : option Q :=
  if String.eqb value "" then None else
  match search_run is_num_char (list_ascii_of_string value) with
  | Some run => float_of_run run
  | None => None
  end.

End RecipeService.

(* ------------------------------------------------------------------ *)
(** ** [HouseholdService] *)

(** [for x in xs: await f(x)]. *)
Fixpoint for_each {A} (f : A -> Session unit) (xs : list A) : Session unit :=
  match xs with
  | [] => ret tt
  | x :: rest => f x ;;; for_each f rest
  end.

Module HouseholdService.

(** [string.ascii_uppercase + string.digits]. *)
Definition characters : string :=
  "ABCDEFGHIJKLMNOPQRSTUVWXYZ0123456789".

(** [generate_invite_code]: one [secrets.choice(characters)] per position;
    [picks] are the random indices drawn ([length] of them, 8 by default). *)
Definition generate_invite_code (picks : list nat) : string :=
  string_of_list_ascii
    (map (fun i => nth (i mod String.length characters)
                     (list_ascii_of_string characters) "A"%char) picks).

(** The retry loop of [create_household]:
    [while await get_household_by_invite_code(db, invite_code): regenerate].
    [draws] are the successive outputs of the random generator; [None] means
    every draw of the list collided, so the loop has not returned yet. *)
Fixpoint unique_invite_code (draws : list (list nat)) : Session (option string) :=
  match draws with
  | [] => ret None
  | picks :: rest =>
      let invite_code := generate_invite_code picks in
      found <- get_household_by_invite_code invite_code ;;
      match found with
      | Some _ => unique_invite_code rest
      | None => ret (Some invite_code)
      end
  end.

(** [_grant_user_recipes_to_household]. *)
Definition shared_recipe_ids (db : DB) (uid : nat) : list nat :=
  map recipe_id
    (filter (fun r => Nat.eqb (recipe_user_id r) uid && shared_with_household r)
       (recipes db)).

Definition _grant_user_recipes_to_household (uid hid : nat) : Session unit :=
  rids <- execute (fun db => shared_recipe_ids db uid) ;;
  for_each (fun rid =>
              _ <- RecipeService.grant_household_access rid hid uid ;;
              ret tt) rids.

(** [if user: user.current_household_id = v]. *)
Definition update_current_household (uid : nat) (v : option nat) : Session unit :=
  user <- get_user uid ;;
  match user with
  | Some _ => set_current_household uid v
  | None => ret tt
  end.

(** [create_household]; [None] when the invite-code loop has not finished
    on the given draws. *)
Definition create_household (uid : nat) (name : string)
  (draws : list (list nat)) : Session (option Household) :=
  code <- unique_invite_code draws ;;
  match code with
  | None => ret None
  | Some invite_code =>
      hid <- fresh_id ;;
      let household := mkHousehold hid name uid invite_code in
      db_add_household household ;;;
      mid <- fresh_id ;;
      db_add_membership (mkMembership mid hid uid "admin") ;;;
      update_current_household uid (Some hid) ;;;
      _grant_user_recipes_to_household uid hid ;;;
      ret (Some household)
  end.

(** [join_household]: [None] when no household has the code. *)
Definition join_household (uid : nat) (code : string)
  : Session (option HouseholdMembership) :=
  household <- get_household_by_invite_code code ;;
  match household with
  | None => ret None
  | Some h =>
      existing_membership <- membership_of uid ;;
      match existing_membership with
      | Some _ => raise (ValueError "User is already in a household")
      | None =>
          mid <- fresh_id ;;
          let membership := mkMembership mid (household_id h) uid "member" in
          db_add_membership membership ;;;
          update_current_household uid (Some (household_id h)) ;;;
          _grant_user_recipes_to_household uid (household_id h) ;;;
          ret (Some membership)
      end
  end.

(** [leave_household]. *)
Definition leave_household (uid : nat) : Session bool :=
  membership <- membership_of uid ;;
  match membership with
  | None => ret false
  | Some m =>
      update_current_household uid None ;;;
      db_delete_membership m ;;;
      ret true
  end.

(** [update_member_role]. *)
Definition update_member_role (hid uid : nat) (r : string)
  : Session (option HouseholdMembership) :=
  rows <- execute (fun db => household_member_rows db hid uid) ;;
  membership <- scalar_one_or_none rows ;;
  match membership with
  | None => ret None
  | Some m =>
      set_membership_role m r ;;;
      ret (Some (mkMembership (membership_id m) (m_household_id m) (m_user_id m) r))
  end.

(** [remove_member]. *)
Definition remove_member (hid uid : nat) : Session bool :=
  rows <- execute (fun db => household_member_rows db hid uid) ;;
  membership <- scalar_one_or_none rows ;;
  match membership with
  | None => ret false
  | Some m =>
      user <- get_user uid ;;
      (match user with
       | Some u => if option_nat_eqb (current_household_id u) (Some hid)
                   then set_current_household uid None
                   else ret tt
       | None => ret tt
       end) ;;;
      db_delete_membership m ;;;
      ret true
  end.

(** [get_household_members]. *)
Definition get_household_members (hid : nat) : Session (list nat) :=
  execute (fun db =>
    map m_user_id (filter (fun m => Nat.eqb (m_household_id m) hid) (memberships db))).

End HouseholdService.

(* ------------------------------------------------------------------ *)
(** ** Python string helpers on ASCII text *)

(** [str.isspace] on ASCII: tab, newline, vertical tab, form feed,
    carriage return, the separators 0x1c-0x1f, and space. *)
Definition is_space (c : ascii) : bool :=
  let n := nat_of_ascii c in
  (((9 <=? n) && (n <=? 13)) || ((28 <=? n) && (n <=? 32)))%nat.

Fixpoint lstrip_list (l : list ascii) : list ascii :=
  match l with
  | c :: rest => if is_space c then lstrip_list rest else l
  | [] => []
  end.

(** [str.strip()]. *)
Definition strip (s : string) : string :=
  string_of_list_ascii
    (rev (lstrip_list (rev (lstrip_list (list_ascii_of_string s))))).

Definition lower_char (c : ascii) : ascii :=
  let n := nat_of_ascii c in
  if ((65 <=? n) && (n <=? 90))%nat then ascii_of_nat (n + 32)%nat else c.

(** [str.lower()]. *)
Definition lower (s : string) : string :=
  string_of_list_ascii (map lower_char (list_ascii_of_string s)).

(* ------------------------------------------------------------------ *)
(** ** [IngredientParsingService] *)

Module IngredientParsingService.

(** The result shape of the external [ingredient_parser.parse_ingredient]
    as far as the service reads it. *)
Record IngredientText := mkIngredientText {
  it_text : string;
  it_confidence : Q
}.

(** [amount.quantity]: a number, or text that [float()] may reject. *)
Inductive AmountQuantity :=
| AQNum (q : Q)
| AQText (s : string).

Record IngredientAmount := mkIngredientAmount {
  am_quantity : AmountQuantity;
  am_unit : string;
  am_confidence : Q
}.

Record ParsedIngredient := mkParsedIngredient {
  p_name : list IngredientText;
  p_amount : list IngredientAmount;
  p_preparation : option IngredientText;
  p_comment : option IngredientText
}.

(** The dictionary returned by [parse_ingredient_string]. *)
Record ParseResult := mkParseResult {
  quantity : option Q;
  unit : option string;
  ingredient_name : option string;
  notes : option string;
  raw_text : string;
  parsing_confidence : Q;
  parsed_successfully : bool
}.

Section Parsing.

(** The external parser; [None] when it raises. *)
Variable parse_ingredient : string -> option ParsedIngredient.

(** [float(q) if q else None]; [None] (outer) when [float()] raises. *)
Definition float_of_quantity (q : AmountQuantity) : option (option Q) :=
  match q with
  | AQNum x => if Qeq_bool x 0 then Some None else Some (Some x)
  | AQText s =>
      if String.eqb s "" then Some None else
      (* [float()] of a non-numeric string (e.g. a range "1-2") raises *)
      None
  end.

(** The body of the [try] block; [None] when it raises. *)
Definition parse_body (ingredient_text : string) : option ParseResult :=
  match parse_ingredient ingredient_text with
  | None => None
  | Some parsed =>
      let amount_part :=
        match p_amount parsed with
        | amount :: _ =>
            match float_of_quantity (am_quantity amount) with
            | None => None
            | Some quantity =>
                Some (quantity,
                      (if String.eqb (am_unit amount) "" then None
                       else Some (am_unit amount)),
                      am_confidence amount)
            end
        | [] => Some (None, None, 4 # 5)
        end in
      match amount_part with
      | None => None
      | Some (quantity, unit, amount_confidence) =>
          let '(ingredient_name, name_confidence) :=
            match p_name parsed with
            | name :: _ =>
                ((if String.eqb (it_text name) "" then None
                  else Some (it_text name)), it_confidence name)
            | [] => (None, 4 # 5)
            end in
          let notes :=
            match p_comment parsed, p_preparation parsed with
            | Some c, _ => Some (it_text c)
            | None, Some p => Some (it_text p)
            | None, None => None
            end in
          let overall_confidence := ((amount_confidence + name_confidence) / 2)%Q in
          Some (mkParseResult quantity unit
                  (match ingredient_name with
                   | Some n => Some (lower (strip n))
                   | None => None
                   end)
                  notes ingredient_text overall_confidence true)
      end
  end.

(** The [except] branch. *)
Definition fallback (ingredient_text : string) : ParseResult :=
  mkParseResult None None (Some (lower (strip ingredient_text))) None
    ingredient_text (1 # 10) false.

(** [IngredientParsingService.parse_ingredient_string]. *)
Definition parse_ingredient_string (ingredient_text : string) : ParseResult :=
  match parse_body ingredient_text with
  | Some result => result
  | None => fallback ingredient_text
  end.

(** [parse_ingredients_batch]: texts that are empty or only whitespace are
    skipped. *)
Definition parse_ingredients_batch (ingredient_texts : list string)
  : list ParseResult :=
  fold_left (fun parsed_ingredients ingredient_text =>
               if negb (String.eqb ingredient_text "")
                  && negb (String.eqb (strip ingredient_text) "")
               then (parsed_ingredients ++ [parse_ingredient_string ingredient_text])%list
               else parsed_ingredients)
    ingredient_texts [].

End Parsing.

(** The dictionary returned by [get_parsing_stats]; [average_confidence] is
    [None] where the dictionary has no such key. *)
Record ParsingStats := mkParsingStats {
  total : nat;
  stats_parsed_successfully : nat;
  success_rate : Q;
  average_confidence : option Q
}.

(** [get_parsing_stats] (Python floats as rationals). *)
Definition get_parsing_stats (parsed_ingredients : list ParseResult) : ParsingStats :=
  let total_count := List.length parsed_ingredients in
  if Nat.eqb total_count 0 then mkParsingStats 0 0 0 None else
  let successful_count :=
    List.length (filter parsed_successfully parsed_ingredients) in
  let avg_confidence :=
    (fold_left Qplus (map parsing_confidence parsed_ingredients) 0
     / inject_Z (Z.of_nat total_count))%Q in
  mkParsingStats total_count successful_count
    (inject_Z (Z.of_nat successful_count) / inject_Z (Z.of_nat total_count))%Q
    (Some avg_confidence).

(** [try: ... except Exception: ...] on a session. *)
Definition catch {A} (c : Session A) (handler : exn -> Session A) : Session A :=
  fun db => match c db with
            | (Ok a, db') => (Ok a, db')
            | (Raise e, db') => handler e db'
            end.

(** [IngredientParsingService.find_or_create_ingredient].  [concurrent] is
    what other sessions commit between this session's lookup and its insert
    (the identity when nothing interleaves). *)
Definition find_or_create_ingredient (concurrent : DB -> DB)
  (name : string) : Session (option Ingredient) :=
  if String.eqb name "" then ret None else
  let normalized_name := lower (strip name) in
  rows <- execute (fun db =>
            filter (fun i => String.eqb (ing_name i) normalized_name)
              (ingredients db)) ;;
  match hd_error rows with
  | Some existing_ingredient => ret (Some existing_ingredient)
  | None =>
      db <- get ;;
      put (concurrent db) ;;;
      catch
        (iid <- fresh_id ;;
         let new_ingredient := mkIngredient iid normalized_name None in
         db_add_ingredient new_ingredient ;;;
         ret (Some new_ingredient))
        (fun _ => ret None)
  end.

End IngredientParsingService.

(* ------------------------------------------------------------------ *)
(** ** [ShoppingListService.generate_shopping_list_from_meal_plan] *)

Module ShoppingListService.

(** An entry of the [ingredient_quantities] dict. *)
Record Acc := mkAcc {
  acc_quantity : Z;
  acc_unit : option string;
  acc_ingredient : option Ingredient
}.

(** [ingredient_quantities]: a Python dict keyed by [ingredient_id], in
    insertion order. *)
Definition Dict := list (nat * Acc).

Fixpoint dict_get (k : nat) (d : Dict) : option Acc :=
  match d with
  | [] => None
  | (k', a) :: rest => if Nat.eqb k' k then Some a else dict_get k rest
  end.

Fixpoint dict_set (k : nat) (a : Acc) (d : Dict) : Dict :=
  match d with
  | [] => [(k, a)]
  | (k', a') :: rest =>
      if Nat.eqb k' k then (k', a) :: rest else (k', a') :: dict_set k a rest
  end.

(** [recipe_ingredient.quantity or 0]. *)
Definition quantity_or_zero (q : option Z) : Z :=
  match q with Some x => x | None => 0%Z end.

(** The part of the session's identity map that the loop can read without
    a query: the recipes whose [recipe_ingredients] collection is loaded,
    and the ingredients present.  [get_meal_plan] loads the planned meals
    and their recipes, not the recipes' lines; a session that has run
    nothing else holds none of these. *)
Record IdentityMap := mkIdentityMap {
  loaded_recipe_ingredients : list nat;
  loaded_ingredients : list nat
}.

(** An attribute that is not loaded is lazy-loaded; under [AsyncSession]
    the load runs outside the greenlet and raises [MissingGreenlet]. *)
Definition lazy_load {A} (loaded : bool) (a : A) : res A :=
  if loaded then Ok a else Raise MissingGreenlet.

(** The [ingredient] relationship of a [RecipeIngredient] row (many-to-one:
    no query when the ingredient is in the identity map). *)
Definition load_ingredient (im : IdentityMap) (catalog : list Ingredient)
  (k : nat) : res (option Ingredient) :=
  lazy_load (existsb (Nat.eqb k) (loaded_ingredients im))
    (find (fun i => Nat.eqb (ingredient_id i) k) catalog).

(** One iteration of the inner loop. *)
Definition add_line (im : IdentityMap) (catalog : list Ingredient) (d : Dict)
  (recipe_ingredient : RecipeIngredient) : res Dict :=
  let ingredient_id := ri_ingredient_id recipe_ingredient in
  match dict_get ingredient_id d with
  | None =>
      match load_ingredient im catalog ingredient_id with
      | Ok ingredient =>
          Ok (dict_set ingredient_id
                (mkAcc (quantity_or_zero (ri_quantity recipe_ingredient))
                       (ri_unit recipe_ingredient) ingredient) d)
      | Raise e => Raise e
      end
  | Some a =>
      (* Simple addition - could be enhanced with unit conversion *)
      match ri_quantity recipe_ingredient with
      | Some q =>
          if Z.eqb q 0 then Ok d
          else Ok (dict_set ingredient_id
                     (mkAcc (acc_quantity a + q) (acc_unit a) (acc_ingredient a)) d)
      | None => Ok d
      end
  end.

(** A [for] loop whose body may raise. *)
Fixpoint fold_res {A B} (f : A -> B -> res A) (l : list B) (a : A) : res A :=
  match l with
  | [] => Ok a
  | x :: rest => match f a x with
                 | Ok a' => fold_res f rest a'
                 | Raise e => Raise e
                 end
  end.

(** The [planned_meal.recipe] relationship, loaded by [get_meal_plan]. *)
Definition load_recipe (db : DB) (pm : PlannedMeal) : option Recipe :=
  find (fun r => Nat.eqb (recipe_id r) (pm_recipe_id pm)) (recipes db).

(** [planned_meal.recipe.recipe_ingredients]: a lazy-loaded collection. *)
Definition load_recipe_ingredients (im : IdentityMap) (r : Recipe)
  : res (list RecipeIngredient) :=
  lazy_load (existsb (Nat.eqb (recipe_id r)) (loaded_recipe_ingredients im))
    (recipe_ingredients r).

(** The aggregation loop over the planned meals. *)
Definition aggregate (im : IdentityMap) (db : DB) (pms : list PlannedMeal)
  : res Dict :=
  fold_res
    (fun d planned_meal =>
       match load_recipe db planned_meal with
       | Some r =>
           match load_recipe_ingredients im r with
           | Ok lines => fold_res (add_line im (ingredients db)) lines d
           | Raise e => Raise e
           end
       | None => Ok d
       end) pms [].

(** The [ShoppingListItem] built from one dict entry. *)
Definition make_item (entry : nat * Acc) : ShoppingListItem :=
  let '(ingredient_id, data) := entry in
  mkShoppingListItem ingredient_id (acc_quantity data) (acc_unit data)
    (match acc_ingredient data with
     | Some i => category i
     | None => None
     end).

(** A [shopping_lists] row with its [shopping_list_items] rows. *)
Record ShoppingList := mkShoppingList {
  sl_id : nat;
  sl_user_id : nat;
  sl_household_id : nat;
  sl_meal_plan_id : option nat;
  shopping_list_items : list ShoppingListItem
}.

(** [MealPlanService.get_meal_plan]. *)
Definition get_meal_plan (mpid : nat) : Session (option MealPlan) :=
  rows <- execute (fun db =>
            filter (fun mp => Nat.eqb (meal_plan_id mp) mpid) (meal_plans db)) ;;
  scalar_one_or_none rows.

(** [f"Shopping List for {meal_plan.name or 'Meal Plan'}"]. *)
Definition shopping_list_name (mp : MealPlan) : string :=
  "Shopping List for " ++
  match mp_name mp with
  | Some n => if String.eqb n "" then "Meal Plan" else n
  | None => "Meal Plan"
  end.

(** [db.add(shopping_list)] with its flush: the [String(255)] name is
    checked when the row is built, then the [user_id], [household_id] and
    [meal_plan_id] foreign keys.  No modelled function reads the
    [shopping_lists] or [shopping_list_items] tables, so the store keeps no
    copy of their rows: an insert is its checks. *)
Definition db_add_shopping_list (name : string) (sl : ShoppingList) : Session unit :=
  db <- get ;;
  if negb (varchar_fits 255 name) then raise DataError else
  if negb (existsb (fun u => Nat.eqb (user_id u) (sl_user_id sl)) (users db))
     || negb (existsb (fun h => Nat.eqb (household_id h) (sl_household_id sl))
                (households db))
     || negb (match sl_meal_plan_id sl with
              | Some id => existsb (fun mp => Nat.eqb (meal_plan_id mp) id) (meal_plans db)
              | None => true
              end)
  then raise IntegrityError
  else ret tt.

(** The item inserts of [await db.commit()], in the order the items were
    added: the [DECIMAL(10, 2)] quantity is checked when the row is built,
    then the [ingredient_id] foreign key.  The [unit] and [category] values
    come from columns of the same types, so they fit. *)
Fixpoint db_add_items (items : list ShoppingListItem) : Session unit :=
  match items with
  | [] => ret tt
  | item :: rest =>
      db <- get ;;
      if negb (decimal_10_2_fits (sli_quantity item)) then raise DataError else
      if negb (existsb (fun i => Nat.eqb (ingredient_id i) (sli_ingredient_id item))
                 (ingredients db))
      then raise IntegrityError
      else db_add_items rest
  end.

(** [generate_shopping_list_from_meal_plan], run in a session whose
    identity map is [im]: the list row and its items. *)
Definition generate_shopping_list_from_meal_plan (im : IdentityMap) (uid mpid : nat)
  : Session ShoppingList :=
  meal_plan <- get_meal_plan mpid ;;
  match meal_plan with
  | None => raise (ValueError "Meal plan not found")
  | Some mp =>
      sid <- fresh_id ;;
      let shopping_list := mkShoppingList sid uid (mp_household_id mp) (Some mpid) [] in
      db_add_shopping_list (shopping_list_name mp) shopping_list ;;;
      db <- get ;;
      match aggregate im db (planned_meals mp) with
      | Raise e => raise e
      | Ok ingredient_quantities =>
          let items := map make_item ingredient_quantities in
          db_add_items items ;;;
          ret (mkShoppingList sid uid (mp_household_id mp) (Some mpid) items)
      end
  end.

(** [ShoppingListService.create_shopping_list]; the [meal_plan_id]
    foreign key is checked when the list is stored. *)
Definition create_shopping_list (uid : nat) (mpid : option nat)
  : Session ShoppingList :=
  user_household <- get_user_household uid ;;
  match user_household with
  | None => raise (ValueError "User must be in a household to create shopping lists")
  | Some h =>
      sid <- fresh_id ;;
      db <- get ;;
      match mpid with
      | Some id =>
          if existsb (fun mp => Nat.eqb (meal_plan_id mp) id) (meal_plans db)
          then ret (mkShoppingList sid uid (household_id h) mpid [])
          else raise IntegrityError
      | None => ret (mkShoppingList sid uid (household_id h) mpid [])
      end
  end.

End ShoppingListService.

(* ------------------------------------------------------------------ *)
(** ** [MealPlanService.create_meal_plan] *)

Module MealPlanService.

(** [create_meal_plan]; [name] is the [name] field of [MealPlanCreate] (its
    [week_start] is not a column of the model). *)
Definition create_meal_plan (uid : nat) (name : option string) : Session MealPlan :=
  user_household <- get_user_household uid ;;
  match user_household with
  | None => raise (ValueError "User must be in a household to create meal plans")
  | Some h =>
      mid <- fresh_id ;;
      let meal_plan := mkMealPlan mid (household_id h) name [] in
      db_add_meal_plan meal_plan uid ;;;
      ret meal_plan
  end.

End MealPlanService.

(* ------------------------------------------------------------------ *)
(** ** [RecipeUsageService.get_recipe_usage_stats] *)

Module RecipeUsageService.

(** A [recipe_usage] row; [rating] and [cooking_time_actual] are nullable
    [Integer] columns. *)
Record RecipeUsage := mkRecipeUsage {
  ru_user_id : nat;
  ru_recipe_id : nat;
  rating : option Z;
  cooking_time_actual : option Z
}.

(** The dictionary returned by [get_recipe_usage_stats]. *)
Record UsageStats := mkUsageStats {
  usage_count : nat;
  average_rating : option Q;
  average_cooking_time : option Q
}.

(** [[x for x in xs if x]]: [None] and [0] are dropped. *)
Definition truthy (xs : list (option Z)) : list Z :=
  flat_map (fun o => match o with
                     | Some n => if Z.eqb n 0 then [] else [n]
                     | None => []
                     end) xs.

(** [sum(xs) / len(xs) if xs else None]. *)
Definition mean (xs : list Z) : option Q :=
  match xs with
  | [] => None
  | _ => Some (inject_Z (fold_left Z.add xs 0%Z)
               / inject_Z (Z.of_nat (List.length xs)))%Q
  end.

(** [get_recipe_usage_stats] on the [recipe_usage] table. *)
Definition get_recipe_usage_stats (usage_table : list RecipeUsage) (rid : nat)
  : UsageStats :=
  let usages := filter (fun u => Nat.eqb (ru_recipe_id u) rid) usage_table in
  match usages with
  | [] => mkUsageStats 0 None None
  | _ => mkUsageStats (List.length usages)
           (mean (truthy (map rating usages)))
           (mean (truthy (map cooking_time_actual usages)))
  end.

End RecipeUsageService.

(* ================================================================== *)
(** * Properties *)

Open Scope list_scope.

(** ** Generic facts on sessions and query results *)

Lemma bind_Ok {A B} (c : Session A) (k : A -> Session B) db a db' :
  c db = (Ok a, db') -> bind c k db = k a db'.
Proof. intro H. unfold bind. now rewrite H. Qed.


Lemma scalar_one_or_none_le1 {A} (rows : list A) db :
  List.length rows <= 1 -> scalar_one_or_none rows db = (Ok (hd_error rows), db).
Proof.
  destruct rows as [|x [|y rows]]; simpl; intros; try reflexivity; lia.
Qed.

Lemma filter_key_le1 {A K} (f : A -> K) (q : A -> bool) (l : list A) :
  NoDup (map f l) ->
  (forall x y, q x = true -> q y = true -> f x = f y) ->
  List.length (filter q l) <= 1.
Proof.
  intros Hnd Hq. induction l as [|a l IH]; simpl; [lia|].
  inversion Hnd as [|? ? Hnin Hnd']; subst.
  destruct (q a) eqn:Ea; simpl.
  - assert (filter q l = []) as ->; [|simpl; lia].
    destruct (filter q l) as [|b rest] eqn:Ef; [reflexivity|].
    exfalso. assert (In b (filter q l)) as Hb by (rewrite Ef; left; auto).
    apply filter_In in Hb as [Hb Hqb]. apply Hnin.
    rewrite (Hq a b Ea Hqb). now apply in_map.
  - now apply IH.
Qed.

Lemma hd_error_In {A} (l : list A) x : hd_error l = Some x -> In x l.
Proof. destruct l; simpl; intros H; inversion H; auto. Qed.

Lemma hd_error_None {A} (l : list A) : hd_error l = None -> l = [].
Proof. destruct l; simpl; intros H; [reflexivity|discriminate]. Qed.

Lemma length_le1_In {A} (l : list A) x y :
  List.length l <= 1 -> In x l -> In y l -> x = y.
Proof.
  destruct l as [|a [|b l]]; simpl; intros Hl Hx Hy; try lia; try contradiction.
  destruct Hx as [<-|[]]; destruct Hy as [<-|[]]; reflexivity.
Qed.

(** Discharges [wf] on a concrete database. *)
Ltac solve_nodup :=
  repeat (apply NoDup_cons; [simpl; intuition (try discriminate; try lia)|]);
  apply NoDup_nil.
Ltac solve_forall_in :=
  let x := fresh "x" in let H := fresh "H" in
  intros x H; simpl in H;
  repeat (destruct H as [<-|H]; [simpl; first [lia | tauto] |]);
  contradiction.
Ltac solve_wf := constructor; simpl; first [solve_nodup | solve_forall_in].

(** ** Relations read off the tables *)

Definition owns_recipe (db : DB) (rid uid : nat) : Prop :=
  exists r, In r (recipes db) /\ recipe_id r = rid /\ recipe_user_id r = uid.

Definition member_of (db : DB) (uid hid : nat) : Prop :=
  exists m, In m (memberships db) /\ m_user_id m = uid /\ m_household_id m = hid.

Definition has_grant (db : DB) (rid hid : nat) : Prop :=
  exists a, In a (accesses db) /\ ac_recipe_id a = rid /\ ac_household_id a = hid.

Lemma recipe_owner_rows_le1 db rid :
  wf db -> List.length (recipe_owner_rows db rid) <= 1.
Proof.
  intros Hwf. unfold recipe_owner_rows. rewrite length_map.
  apply (filter_key_le1 recipe_id); [apply Hwf|].
  intros x y Hx Hy. apply Nat.eqb_eq in Hx, Hy. congruence.
Qed.

Lemma recipe_owner_rows_In db rid o :
  In o (recipe_owner_rows db rid) <->
  exists r, In r (recipes db) /\ recipe_id r = rid /\ recipe_user_id r = o.
Proof.
  unfold recipe_owner_rows. rewrite in_map_iff. split.
  - intros (r & <- & Hr). apply filter_In in Hr as [Hr Heq].
    apply Nat.eqb_eq in Heq. eauto.
  - intros (r & Hr & Hid & Ho). exists r. split; [auto|].
    apply filter_In. split; [auto|]. now apply Nat.eqb_eq.
Qed.

Lemma recipe_owner_eq db rid uid :
  wf db ->
  option_nat_eqb (hd_error (recipe_owner_rows db rid)) (Some uid) = true <->
  owns_recipe db rid uid.
Proof.
  intros Hwf. pose proof (recipe_owner_rows_le1 db rid Hwf) as Hle.
  destruct (recipe_owner_rows db rid) as [|o rest] eqn:Hrows; simpl.
  - split; [discriminate|]. intros Hown.
    apply recipe_owner_rows_In in Hown. now rewrite Hrows in Hown.
  - rewrite Nat.eqb_eq. split.
    + intros ->. apply recipe_owner_rows_In. rewrite Hrows. now left.
    + intros Hown. apply recipe_owner_rows_In in Hown. rewrite Hrows in Hown.
      eapply length_le1_In; eauto. now left.
Qed.

Lemma user_household_rows_le1 db uid :
  wf db -> List.length (user_household_rows db uid) <= 1.
Proof.
  intros Hwf. unfold user_household_rows.
  pose proof (filter_key_le1 m_user_id (fun m => Nat.eqb (m_user_id m) uid)
                (memberships db) (wf_membership_user_unique _ Hwf)) as Hm.
  destruct (filter (fun m => Nat.eqb (m_user_id m) uid) (memberships db))
    as [|m [|m2 ms]]; simpl in *.
  - lia.
  - rewrite app_nil_r. apply (filter_key_le1 household_id); [apply Hwf|].
    intros x y Hx Hy. apply Nat.eqb_eq in Hx, Hy. congruence.
  - exfalso. assert (S (S (List.length ms)) <= 1) by (apply Hm; intros x y Hx Hy;
      apply Nat.eqb_eq in Hx, Hy; congruence). lia.
Qed.

Lemma user_household_rows_In db uid h :
  In h (user_household_rows db uid) <->
  In h (households db) /\ member_of db uid (household_id h).
Proof.
  unfold user_household_rows, member_of. rewrite in_flat_map. split.
  - intros (m & Hm & Hh). apply filter_In in Hm as [Hm Hu].
    apply filter_In in Hh as [Hh Hid]. apply Nat.eqb_eq in Hu, Hid.
    split; [auto|]. exists m. auto.
  - intros [Hh (m & Hm & Hu & Hid)]. exists m. split.
    + apply filter_In. split; [auto|]. now apply Nat.eqb_eq.
    + apply filter_In. split; [auto|]. now apply Nat.eqb_eq.
Qed.

Lemma member_of_user_household db uid hid :
  wf db -> member_of db uid hid ->
  exists h, hd_error (user_household_rows db uid) = Some h /\ household_id h = hid.
Proof.
  intros Hwf Hmem. pose proof Hmem as (m & Hm & Hu & Hid).
  apply (wf_membership_household_fk _ Hwf) in Hm.
  apply in_map_iff in Hm as (h & Hh & Hhin).
  assert (In h (user_household_rows db uid)) as Hrow.
  { apply user_household_rows_In. split; [auto|]. congruence. }
  pose proof (user_household_rows_le1 db uid Hwf) as Hle.
  destruct (user_household_rows db uid) as [|h' rest] eqn:Hrows; [contradiction|].
  exists h'. split; [reflexivity|].
  assert (h' = h) as -> by (eapply length_le1_In; eauto; now left). congruence.
Qed.

Lemma access_rows_le1 db rid hid :
  wf db -> List.length (access_rows db rid hid) <= 1.
Proof.
  intros Hwf. unfold access_rows.
  apply (filter_key_le1 (fun a => (ac_recipe_id a, ac_household_id a)));
    [apply Hwf|].
  intros x y Hx Hy. apply andb_true_iff in Hx as [Hx1 Hx2].
  apply andb_true_iff in Hy as [Hy1 Hy2].
  apply Nat.eqb_eq in Hx1, Hx2, Hy1, Hy2. congruence.
Qed.

Lemma access_rows_In db rid hid a :
  In a (access_rows db rid hid) <->
  In a (accesses db) /\ ac_recipe_id a = rid /\ ac_household_id a = hid.
Proof.
  unfold access_rows. rewrite filter_In, andb_true_iff, !Nat.eqb_eq. tauto.
Qed.

Lemma access_rows_nil db rid hid :
  access_rows db rid hid = [] <-> ~ has_grant db rid hid.
Proof.
  split.
  - intros Hnil (a & Ha & Hr & Hh).
    assert (In a (access_rows db rid hid)) as Hin by (apply access_rows_In; auto).
    now rewrite Hnil in Hin.
  - intros Hno. destruct (access_rows db rid hid) as [|a rest] eqn:Hrows;
      [reflexivity|].
    exfalso. apply Hno. exists a. apply access_rows_In. rewrite Hrows. now left.
Qed.

(** ** C9: only the owner may edit a recipe *)

(** Claim C9: [can_user_edit_recipe(recipe, user)] is true exactly when the
    user owns the recipe; it reads no access grant, so a non-owner gets
    false whatever grants exist (the result is unchanged by replacing the
    grant table). *)
Theorem can_user_edit_recipe_iff_owner (db : DB) (rid uid : nat) :
  wf db ->
  exists b, RecipeService.can_user_edit_recipe rid uid db = (Ok b, db) /\
    (b = true <-> owns_recipe db rid uid) /\
    (forall grants, RecipeService.can_user_edit_recipe rid uid
                      (set_accesses db grants) = (Ok b, set_accesses db grants)).
Proof.
  intros Hwf. exists (option_nat_eqb (hd_error (recipe_owner_rows db rid)) (Some uid)).
  unfold RecipeService.can_user_edit_recipe. split; [|split].
  - erewrite bind_Ok by reflexivity.
    erewrite bind_Ok by (apply scalar_one_or_none_le1, recipe_owner_rows_le1, Hwf).
    reflexivity.
  - now apply recipe_owner_eq.
  - intros grants. erewrite bind_Ok by reflexivity.
    erewrite bind_Ok by (apply scalar_one_or_none_le1;
                         exact (recipe_owner_rows_le1 db rid Hwf)).
    reflexivity.
Qed.

Lemma can_user_edit_recipe_iff_owner_witness :
  let db := mkDB [mkUser 1 None; mkUser 2 None] [] []
              [mkRecipe 10 1 true [] "Soup"] [] [] [] 20 in
  wf db /\
  exists b, RecipeService.can_user_edit_recipe 10 2 db = (Ok b, db) /\
    (b = true <-> owns_recipe db 10 2) /\
    (forall grants, RecipeService.can_user_edit_recipe 10 2
                      (set_accesses db grants) = (Ok b, set_accesses db grants)).
Proof.
  intros db.
  assert (Hwf : wf db) by solve_wf.
  split; [exact Hwf|]. apply (can_user_edit_recipe_iff_owner db 10 2 Hwf).
Defined.

(** ** C1: who may read a recipe *)

(** Claim C1: [can_user_access_recipe(recipe, user)] returns true iff the
    user owns the recipe, or the user belongs to a household (has a
    membership) and a grant exists for (recipe, that household).  The
    call leaves the state unchanged and never raises on a database that
    satisfies the storage constraints. *)
Theorem can_user_access_recipe_iff (db : DB) (rid uid : nat) :
  wf db ->
  exists b, RecipeService.can_user_access_recipe rid uid db = (Ok b, db) /\
    (b = true <->
     owns_recipe db rid uid \/
     exists hid, member_of db uid hid /\ has_grant db rid hid).
Proof.
  intros Hwf. unfold RecipeService.can_user_access_recipe.
  erewrite bind_Ok by reflexivity.
  erewrite bind_Ok by (apply scalar_one_or_none_le1, recipe_owner_rows_le1, Hwf).
  destruct (option_nat_eqb (hd_error (recipe_owner_rows db rid)) (Some uid))
    eqn:Hown.
  { exists true. split; [reflexivity|]. split; [|auto].
    intros _. left. now apply recipe_owner_eq. }
  assert (Hnown : ~ owns_recipe db rid uid).
  { intros H. apply (recipe_owner_eq db rid uid Hwf) in H. congruence. }
  unfold get_user_household.
  erewrite bind_Ok.
  2:{ erewrite bind_Ok by reflexivity.
      apply scalar_one_or_none_le1, user_household_rows_le1, Hwf. }
  destruct (hd_error (user_household_rows db uid)) as [h|] eqn:Hh.
  - erewrite bind_Ok by reflexivity.
    erewrite bind_Ok by (apply scalar_one_or_none_le1, access_rows_le1, Hwf).
    assert (Hmem : member_of db uid (household_id h)).
    { apply hd_error_In, user_household_rows_In in Hh. tauto. }
    eexists. split; [reflexivity|].
    destruct (hd_error (access_rows db rid (household_id h))) as [a|] eqn:Ha.
    + split; [|auto]. intros _. right. exists (household_id h).
      split; [auto|]. apply hd_error_In, access_rows_In in Ha. exists a. tauto.
    + apply hd_error_None, access_rows_nil in Ha. split; [discriminate|].
      intros [Ho|(hid & Hm & Hg)]; [contradiction|].
      destruct (member_of_user_household db uid hid Hwf Hm) as (h' & Hh' & <-).
      rewrite Hh in Hh'. injection Hh' as ->. contradiction.
  - exists false. split; [reflexivity|]. split; [discriminate|].
    intros [Ho|(hid & Hm & Hg)]; [contradiction|].
    destruct (member_of_user_household db uid hid Hwf Hm) as (h' & Hh' & _).
    congruence.
Qed.

Lemma can_user_access_recipe_iff_witness :
  let db := mkDB [mkUser 1 (Some 5); mkUser 2 (Some 5); mkUser 3 None]
              [mkHousehold 5 "home" 1 "ABCD1234"]
              [mkMembership 6 5 1 "admin"; mkMembership 7 5 2 "member"]
              [mkRecipe 10 1 true [] "Soup"] [mkAccess 8 10 5 1] [] [] 20 in
  wf db /\
  exists b, RecipeService.can_user_access_recipe 10 2 db = (Ok b, db) /\
    (b = true <->
     owns_recipe db 10 2 \/
     exists hid, member_of db 2 hid /\ has_grant db 10 hid).
Proof.
  intros db. assert (Hwf : wf db) by solve_wf.
  split; [exact Hwf|]. apply (can_user_access_recipe_iff db 10 2 Hwf).
Defined.

(** ** C4: granting is idempotent *)

Lemma grant_existing db rid hid g a :
  hd_error (access_rows db rid hid) = Some a ->
  List.length (access_rows db rid hid) <= 1 ->
  RecipeService.grant_household_access rid hid g db = (Ok None, db).
Proof.
  intros Ha Hle. unfold RecipeService.grant_household_access.
  erewrite bind_Ok by reflexivity.
  erewrite bind_Ok by (apply scalar_one_or_none_le1, Hle).
  rewrite Ha. reflexivity.
Qed.

(** The outcome of a grant on a pair that has none yet. *)
Lemma grant_new db rid hid g r db1 :
  access_rows db rid hid = [] ->
  RecipeService.grant_household_access rid hid g db = (Ok r, db1) ->
  r = Some (mkAccess (next_id db) rid hid g) /\
  db1 = set_accesses (set_next_id db (S (next_id db)))
          (accesses db ++ [mkAccess (next_id db) rid hid g]).
Proof.
  intros Hnil Hrun. unfold RecipeService.grant_household_access in Hrun.
  erewrite bind_Ok in Hrun by reflexivity.
  erewrite bind_Ok in Hrun by (apply scalar_one_or_none_le1; rewrite Hnil; simpl; lia).
  rewrite Hnil in Hrun. simpl in Hrun.
  cbv [bind fresh_id db_add_access get put raise ret] in Hrun.
  match type of Hrun with
  | context [if ?c then _ else _] => destruct c
  end; inversion Hrun; subst; auto.
Qed.

(** Claim C4: [grant_household_access] is idempotent.  When a grant for the
    pair already exists the call returns [None] and leaves the state as it
    was; and after any successful first call, a second call for the same
    pair returns [None], leaves the state of the first call unchanged, and
    exactly one grant row exists for the pair. *)
Theorem grant_household_access_idempotent (db : DB) (rid hid g1 g2 : nat) :
  wf db ->
  (has_grant db rid hid ->
   RecipeService.grant_household_access rid hid g1 db = (Ok None, db)) /\
  (forall r1 db1,
     RecipeService.grant_household_access rid hid g1 db = (Ok r1, db1) ->
     RecipeService.grant_household_access rid hid g2 db1 = (Ok None, db1) /\
     List.length (access_rows db1 rid hid) = 1).
Proof.
  intros Hwf. pose proof (access_rows_le1 db rid hid Hwf) as Hle.
  split.
  - intros Hg. destruct (access_rows db rid hid) as [|a rest] eqn:Hrows.
    + apply access_rows_nil in Hrows. contradiction.
    + eapply grant_existing; rewrite ?Hrows; [reflexivity|exact Hle].
  - intros r1 db1 Hrun.
    destruct (access_rows db rid hid) as [|a rest] eqn:Hrows.
    + destruct (grant_new db rid hid g1 r1 db1 Hrows Hrun) as [_ ->].
      assert (access_rows (set_accesses (set_next_id db (S (next_id db)))
                (accesses db ++ [mkAccess (next_id db) rid hid g1])) rid hid
              = [mkAccess (next_id db) rid hid g1]) as Hrows1.
      { unfold access_rows in *. simpl. rewrite filter_app, Hrows. simpl.
        rewrite !Nat.eqb_refl. reflexivity. }
      split; [|now rewrite Hrows1].
      eapply grant_existing; rewrite Hrows1; simpl; [reflexivity|lia].
    + assert (db1 = db /\ r1 = None) as [-> ->].
      { rewrite (grant_existing db rid hid g1 a) in Hrun;
          rewrite ?Hrows; [|reflexivity|exact Hle].
        now inversion Hrun. }
      split; [eapply grant_existing; rewrite ?Hrows; [reflexivity|exact Hle]|].
      rewrite Hrows. simpl in *. lia.
Qed.

Lemma grant_household_access_idempotent_witness :
  let db := mkDB [mkUser 1 (Some 5)] [mkHousehold 5 "home" 1 "ABCD1234"]
              [mkMembership 6 5 1 "admin"] [mkRecipe 10 1 true [] "Soup"] [] [] [] 20 in
  wf db /\
  (has_grant db 10 5 ->
   RecipeService.grant_household_access 10 5 1 db = (Ok None, db)) /\
  (forall r1 db1,
     RecipeService.grant_household_access 10 5 1 db = (Ok r1, db1) ->
     RecipeService.grant_household_access 10 5 1 db1 = (Ok None, db1) /\
     List.length (access_rows db1 10 5) = 1).
Proof.
  intros db. assert (Hwf : wf db) by solve_wf.
  split; [exact Hwf|]. apply (grant_household_access_idempotent db 10 5 1 1 Hwf).
Defined.

(** ** Household mutations *)

Definition user_rows (db : DB) (uid : nat) : list User :=
  filter (fun u => Nat.eqb (user_id u) uid) (users db).

Definition set_current (uid : nat) (v : option nat) (u : User) : User :=
  if Nat.eqb (user_id u) uid then mkUser (user_id u) v else u.

Lemma user_rows_le1 db uid :
  NoDup (map user_id (users db)) -> List.length (user_rows db uid) <= 1.
Proof.
  intros Hnd. apply (filter_key_le1 user_id); [exact Hnd|].
  intros x y Hx Hy. apply Nat.eqb_eq in Hx, Hy. congruence.
Qed.

Lemma update_current_household_run db uid v :
  NoDup (map user_id (users db)) ->
  HouseholdService.update_current_household uid v db =
  (Ok tt, match hd_error (user_rows db uid) with
          | Some _ => set_users db (map (set_current uid v) (users db))
          | None => db
          end).
Proof.
  intros Hnd. unfold HouseholdService.update_current_household, get_user.
  erewrite bind_Ok.
  2:{ erewrite bind_Ok by reflexivity.
      apply scalar_one_or_none_le1, user_rows_le1, Hnd. }
  unfold user_rows. destruct (hd_error _); reflexivity.
Qed.

Lemma user_rows_present db uid :
  In uid (map user_id (users db)) -> exists u, hd_error (user_rows db uid) = Some u.
Proof.
  intros Hin. apply in_map_iff in Hin as (u & Hu & Hin).
  destruct (user_rows db uid) as [|u' rest] eqn:Hrows; [|now exists u'].
  exfalso. assert (In u (user_rows db uid)) as H.
  { apply filter_In. split; [auto|]. now apply Nat.eqb_eq. }
  now rewrite Hrows in H.
Qed.

Lemma set_current_In uid v (l : list User) u :
  In u (map (set_current uid v) l) -> user_id u = uid -> current_household_id u = v.
Proof.
  intros Hin Hid. apply in_map_iff in Hin as (u0 & <- & _).
  unfold set_current in *. destruct (Nat.eqb (user_id u0) uid) eqn:E;
    [reflexivity|]. apply Nat.eqb_neq in E. contradiction.
Qed.

Definition has_membership (db : DB) (uid : nat) : Prop :=
  exists m, In m (memberships db) /\ m_user_id m = uid.

Definition membership_rows (db : DB) (uid : nat) : list HouseholdMembership :=
  filter (fun m => Nat.eqb (m_user_id m) uid) (memberships db).

Lemma membership_rows_le1 db uid :
  wf db -> List.length (membership_rows db uid) <= 1.
Proof.
  intros Hwf. apply (filter_key_le1 m_user_id); [apply Hwf|].
  intros x y Hx Hy. apply Nat.eqb_eq in Hx, Hy. congruence.
Qed.

Lemma membership_of_run db uid :
  wf db -> membership_of uid db = (Ok (hd_error (membership_rows db uid)), db).
Proof.
  intros Hwf. unfold membership_of. erewrite bind_Ok by reflexivity.
  apply scalar_one_or_none_le1, membership_rows_le1, Hwf.
Qed.

Lemma membership_rows_In db uid m :
  In m (membership_rows db uid) <-> In m (memberships db) /\ m_user_id m = uid.
Proof. unfold membership_rows. rewrite filter_In, Nat.eqb_eq. tauto. Qed.

Lemma membership_rows_nil db uid :
  membership_rows db uid = [] <-> ~ has_membership db uid.
Proof.
  split.
  - intros Hnil (m & Hm & Hu).
    assert (In m (membership_rows db uid)) as H by (apply membership_rows_In; auto).
    now rewrite Hnil in H.
  - intros Hno. destruct (membership_rows db uid) as [|m rest] eqn:Hrows;
      [reflexivity|].
    exfalso. apply Hno. exists m. apply membership_rows_In. rewrite Hrows. now left.
Qed.

(** ** C8: leaving a household *)

(** Claim C8: [leave_household(user)] returns false and changes nothing when
    the user has no membership; otherwise it returns true, clears the
    user's [current_household_id], deletes the membership (no membership of
    the user remains), and leaves every access grant (and every household
    and recipe) as it was. *)
Theorem leave_household_spec (db : DB) (uid : nat) :
  wf db ->
  (~ has_membership db uid ->
   HouseholdService.leave_household uid db = (Ok false, db)) /\
  (has_membership db uid ->
   exists db', HouseholdService.leave_household uid db = (Ok true, db') /\
     (exists u, In u (users db') /\ user_id u = uid) /\
     (forall u, In u (users db') -> user_id u = uid -> current_household_id u = None) /\
     ~ has_membership db' uid /\
     accesses db' = accesses db /\
     households db' = households db /\
     recipes db' = recipes db).
Proof.
  intros Hwf. unfold HouseholdService.leave_household. split.
  - intros Hno. erewrite bind_Ok by (apply membership_of_run, Hwf).
    apply membership_rows_nil in Hno. now rewrite Hno.
  - intros Hmem. erewrite bind_Ok by (apply membership_of_run, Hwf).
    destruct (membership_rows db uid) as [|m rest] eqn:Hrows.
    { apply membership_rows_nil in Hrows. contradiction. }
    cbn [hd_error].
    assert (Hm : In m (memberships db) /\ m_user_id m = uid)
      by (apply membership_rows_In; rewrite Hrows; now left).
    destruct Hm as [Hm Hmu].
    destruct (user_rows_present db uid) as [u0 Hu0].
    { rewrite <- Hmu. now apply (wf_membership_user_fk _ Hwf). }
    erewrite bind_Ok by (apply update_current_household_run, Hwf).
    rewrite Hu0. eexists. split; [reflexivity|]. simpl.
    split; [|split; [|split; [|split; [|split]]]]; try reflexivity.
    + apply hd_error_In in Hu0. apply filter_In in Hu0 as [Hu0 Hid].
      apply Nat.eqb_eq in Hid. exists (set_current uid None u0).
      split; [now apply in_map|]. unfold set_current.
      rewrite Hid, Nat.eqb_refl. reflexivity.
    + intros u Hu Hid. eapply set_current_In; eauto.
    + intros (m' & Hm' & Hu'). simpl in Hm'.
      apply filter_In in Hm' as [Hm' Hneq].
      assert (m' = m).
      { apply (length_le1_In (membership_rows db uid)).
        - apply membership_rows_le1, Hwf.
        - now apply membership_rows_In.
        - rewrite Hrows. now left. }
      subst m'. rewrite Nat.eqb_refl in Hneq. discriminate.
Qed.

Lemma leave_household_spec_witness :
  let db := mkDB [mkUser 1 (Some 5); mkUser 2 (Some 5)]
              [mkHousehold 5 "home" 1 "ABCD1234"]
              [mkMembership 6 5 1 "admin"; mkMembership 7 5 2 "member"]
              [mkRecipe 10 2 true [] "Soup"] [mkAccess 8 10 5 2] [] [] 20 in
  wf db /\
  (~ has_membership db 2 ->
   HouseholdService.leave_household 2 db = (Ok false, db)) /\
  (has_membership db 2 ->
   exists db', HouseholdService.leave_household 2 db = (Ok true, db') /\
     (exists u, In u (users db') /\ user_id u = 2) /\
     (forall u, In u (users db') -> user_id u = 2 -> current_household_id u = None) /\
     ~ has_membership db' 2 /\
     accesses db' = accesses db /\
     households db' = households db /\
     recipes db' = recipes db).
Proof.
  intros db. assert (Hwf : wf db) by solve_wf.
  split; [exact Hwf|]. apply (leave_household_spec db 2 Hwf).
Defined.

(** ** Grant propagation *)

Lemma bind_inv {A B} (c : Session A) (k : A -> Session B) db b db' :
  bind c k db = (Ok b, db') ->
  exists a db1, c db = (Ok a, db1) /\ k a db1 = (Ok b, db').
Proof.
  unfold bind. destruct (c db) as [[a|e] db1]; intros H; [eauto|discriminate].
Qed.

(** Only the grant table grows (and the id counter moves). *)
Definition grants_grow (db db' : DB) : Prop :=
  users db' = users db /\ households db' = households db /\
  memberships db' = memberships db /\ recipes db' = recipes db /\
  incl (accesses db) (accesses db').

Lemma grants_grow_refl db : grants_grow db db.
Proof. repeat split; auto using incl_refl. Qed.

Lemma grants_grow_trans a b c : grants_grow a b -> grants_grow b c -> grants_grow a c.
Proof.
  intros (H1 & H2 & H3 & H4 & H5) (G1 & G2 & G3 & G4 & G5).
  repeat split; try congruence. eapply incl_tran; eauto.
Qed.

Lemma has_grant_grow db db' rid hid :
  grants_grow db db' -> has_grant db rid hid -> has_grant db' rid hid.
Proof. intros (_ & _ & _ & _ & Hi) (a & Ha & H). exists a. auto. Qed.

Lemma grant_household_access_ok db rid hid g r db' :
  RecipeService.grant_household_access rid hid g db = (Ok r, db') ->
  grants_grow db db' /\ has_grant db' rid hid.
Proof.
  intros Hrun. destruct (access_rows db rid hid) as [|a [|a2 rest]] eqn:Hrows.
  - destruct (grant_new db rid hid g r db' Hrows Hrun) as [_ ->].
    split.
    + repeat split; simpl; auto. intros x Hx. apply in_or_app. now left.
    + eexists. split; [simpl; apply in_or_app; right; now left|]. simpl. auto.
  - rewrite (grant_existing db rid hid g a) in Hrun;
      rewrite ?Hrows; [|reflexivity|simpl; lia].
    injection Hrun as _ <-. split; [apply grants_grow_refl|].
    exists a. apply access_rows_In. rewrite Hrows. now left.
  - exfalso. unfold RecipeService.grant_household_access in Hrun.
    erewrite bind_Ok in Hrun by reflexivity. rewrite Hrows in Hrun.
    discriminate.
Qed.

Lemma for_each_grants db db' rids hid uid :
  for_each (fun rid => _ <- RecipeService.grant_household_access rid hid uid ;;
                       ret tt) rids db = (Ok tt, db') ->
  grants_grow db db' /\ forall rid, In rid rids -> has_grant db' rid hid.
Proof.
  revert db. induction rids as [|rid rids IH]; intros db Hrun.
  - simpl in Hrun. injection Hrun as <-. split; [apply grants_grow_refl|].
    intros ? [].
  - simpl in Hrun. apply bind_inv in Hrun as ([] & db1 & H1 & H2).
    apply bind_inv in H1 as (r & db0 & H0 & Hret).
    injection Hret as <-.
    apply grant_household_access_ok in H0 as [Hg0 Hhas].
    apply IH in H2 as [Hg1 Hall]. split; [eapply grants_grow_trans; eauto|].
    intros x [<-|Hx]; [|auto]. eapply has_grant_grow; eauto.
Qed.

Lemma grant_user_recipes_ok db db' uid hid :
  HouseholdService._grant_user_recipes_to_household uid hid db = (Ok tt, db') ->
  grants_grow db db' /\
  forall r, In r (recipes db) -> recipe_user_id r = uid ->
    shared_with_household r = true -> has_grant db' (recipe_id r) hid.
Proof.
  intros Hrun. unfold HouseholdService._grant_user_recipes_to_household in Hrun.
  erewrite bind_Ok in Hrun by reflexivity.
  apply for_each_grants in Hrun as [Hg Hall]. split; [auto|].
  intros r Hr Hu Hs. apply Hall. unfold HouseholdService.shared_recipe_ids.
  apply in_map. apply filter_In. split; [auto|].
  now rewrite Hu, Nat.eqb_refl, Hs.
Qed.

Definition invite_rows (db : DB) (code : string) : list Household :=
  filter (fun h => String.eqb (invite_code h) code) (households db).

Lemma get_household_by_invite_code_run db code :
  wf db ->
  get_household_by_invite_code code db = (Ok (hd_error (invite_rows db code)), db).
Proof.
  intros Hwf. unfold get_household_by_invite_code. erewrite bind_Ok by reflexivity.
  apply scalar_one_or_none_le1. apply (filter_key_le1 invite_code); [apply Hwf|].
  intros x y Hx Hy. apply String.eqb_eq in Hx, Hy. congruence.
Qed.

Lemma invite_rows_nil db code :
  invite_rows db code = [] <-> ~ exists h, In h (households db) /\ invite_code h = code.
Proof.
  unfold invite_rows. split.
  - intros Hnil (h & Hh & Hc).
    assert (In h (filter (fun h => String.eqb (invite_code h) code) (households db)))
      as H by (apply filter_In; split; [auto|]; now apply String.eqb_eq).
    now rewrite Hnil in H.
  - intros Hno. destruct (filter _ _) as [|h rest] eqn:Hrows; [reflexivity|].
    exfalso. apply Hno. exists h.
    assert (In h (h :: rest)) as H by now left. rewrite <- Hrows in H.
    apply filter_In in H as [H Hc]. apply String.eqb_eq in Hc. auto.
Qed.

(** The successful insertion of a membership row. *)
Lemma db_add_membership_ok m db db' :
  db_add_membership m db = (Ok tt, db') ->
  db' = set_memberships db (memberships db ++ [m]) /\
  In (m_user_id m) (map user_id (users db)).
Proof.
  unfold db_add_membership, bind, get, put, raise.
  destruct (existsb _ _ || _ || _) eqn:Hc; intros H; inversion H; subst.
  split; [reflexivity|].
  apply orb_false_iff in Hc as [_ Hc]. apply negb_false_iff in Hc.
  apply existsb_exists in Hc as (u & Hu & Heq). apply Nat.eqb_eq in Heq.
  rewrite <- Heq. now apply in_map.
Qed.

(** ** C2: joining a household *)

(** Claim C2, as the code has it: [join_household(user, code)] returns no
    membership and changes nothing when no household has the code (this
    check comes first, also for a user who already has a membership); when
    a household has the code and the user already has a membership it
    raises [ValueError("User is already in a household")] with the state
    unchanged (no membership, no change of [current_household_id], no
    grant); on success it inserts exactly one membership, of role
    "member", for the user in the household holding the code, sets the
    user's [current_household_id] to that household, and grants that
    household every recipe the user owns with [shared_with_household]. *)
Theorem join_household_spec (db : DB) (uid : nat) (code : string) :
  wf db ->
  ((~ exists h, In h (households db) /\ invite_code h = code) ->
   HouseholdService.join_household uid code db = (Ok None, db)) /\
  ((exists h, In h (households db) /\ invite_code h = code) ->
   has_membership db uid ->
   HouseholdService.join_household uid code db =
   (Raise (ValueError "User is already in a household"), db)) /\
  (forall m db',
   HouseholdService.join_household uid code db = (Ok (Some m), db') ->
   role m = "member" /\ m_user_id m = uid /\
   (exists h, In h (households db) /\ invite_code h = code /\
              household_id h = m_household_id m) /\
   memberships db' = (memberships db ++ [m])%list /\
   (exists u, In u (users db') /\ user_id u = uid) /\
   (forall u, In u (users db') -> user_id u = uid ->
              current_household_id u = Some (m_household_id m)) /\
   (forall r, In r (recipes db) -> recipe_user_id r = uid ->
              shared_with_household r = true ->
              has_grant db' (recipe_id r) (m_household_id m))).
Proof.
  intros Hwf. unfold HouseholdService.join_household.
  erewrite bind_Ok by (apply get_household_by_invite_code_run, Hwf).
  split; [|split].
  - intros Hno. apply invite_rows_nil in Hno. now rewrite Hno.
  - intros Hex Hmem.
    destruct (invite_rows db code) as [|h rest] eqn:Hrows.
    { apply invite_rows_nil in Hrows. contradiction. }
    cbn [hd_error]. erewrite bind_Ok by (apply membership_of_run, Hwf).
    destruct (membership_rows db uid) as [|m0 ms] eqn:Hms.
    + apply membership_rows_nil in Hms. contradiction.
    + reflexivity.
  - intros m db' Hrun.
    destruct (invite_rows db code) as [|h rest] eqn:Hrows; [discriminate|].
    assert (Hh : In h (households db) /\ invite_code h = code).
    { assert (In h (invite_rows db code)) as H by (rewrite Hrows; now left).
      apply filter_In in H as [H Hc]. apply String.eqb_eq in Hc. auto. }
    cbn [hd_error] in Hrun. erewrite bind_Ok in Hrun by (apply membership_of_run, Hwf).
    destruct (hd_error (membership_rows db uid)); [discriminate|].
    apply bind_inv in Hrun as (mid & db1 & Hfresh & Hrun).
    injection Hfresh as <- <-. cbv zeta in Hrun.
    apply bind_inv in Hrun as ([] & db2 & Hadd & Hrun).
    apply db_add_membership_ok in Hadd as [-> Hu]. simpl in Hu.
    apply bind_inv in Hrun as ([] & db3 & Hupd & Hrun).
    rewrite update_current_household_run in Hupd by (simpl; apply Hwf).
    destruct (user_rows_present _ uid Hu) as [u0 Hu0].
    change (user_rows _ uid) with (user_rows db uid) in Hupd.
    rewrite Hu0 in Hupd. injection Hupd as <-.
    apply bind_inv in Hrun as ([] & db4 & Hgr & Hret).
    injection Hret as <- <-.
    apply grant_user_recipes_ok in Hgr as [(G1 & G2 & G3 & G4 & G5) Hall].
    simpl in *. split; [reflexivity|]. split; [reflexivity|].
    split; [exists h; tauto|]. split; [exact G3|].
    split; [|split].
    + apply hd_error_In in Hu0. apply filter_In in Hu0 as [Hu0 Hid].
      apply Nat.eqb_eq in Hid. exists (set_current uid (Some (household_id h)) u0).
      rewrite G1. split; [now apply in_map|]. unfold set_current.
      rewrite Hid, Nat.eqb_refl. reflexivity.
    + intros u Hu' Hid. rewrite G1 in Hu'. eapply set_current_In; eauto.
    + intros r Hr Hown Hs. apply Hall; auto.
Qed.

Lemma join_household_spec_witness :
  let db := mkDB [mkUser 1 (Some 5); mkUser 2 None]
              [mkHousehold 5 "home" 1 "ABCD1234"]
              [mkMembership 6 5 1 "admin"]
              [mkRecipe 10 2 true [] "Soup"] [] [] [] 20 in
  wf db /\
  ((~ exists h, In h (households db) /\ invite_code h = "ABCD1234") ->
   HouseholdService.join_household 2 "ABCD1234" db = (Ok None, db)) /\
  ((exists h, In h (households db) /\ invite_code h = "ABCD1234") ->
   has_membership db 2 ->
   HouseholdService.join_household 2 "ABCD1234" db =
   (Raise (ValueError "User is already in a household"), db)) /\
  (forall m db',
   HouseholdService.join_household 2 "ABCD1234" db = (Ok (Some m), db') ->
   role m = "member" /\ m_user_id m = 2 /\
   (exists h, In h (households db) /\ invite_code h = "ABCD1234" /\
              household_id h = m_household_id m) /\
   memberships db' = (memberships db ++ [m])%list /\
   (exists u, In u (users db') /\ user_id u = 2) /\
   (forall u, In u (users db') -> user_id u = 2 ->
              current_household_id u = Some (m_household_id m)) /\
   (forall r, In r (recipes db) -> recipe_user_id r = 2 ->
              shared_with_household r = true ->
              has_grant db' (recipe_id r) (m_household_id m))).
Proof.
  intros db. assert (Hwf : wf db) by solve_wf.
  split; [exact Hwf|]. apply (join_household_spec db 2 "ABCD1234" Hwf).
Defined.

(** Claim C2 as stated promises [AlreadyMember] for every user that already
    has a membership; with an invite code no household holds, such a user
    gets the not-found result instead. *)
Lemma join_household_member_unknown_code :
  let db := mkDB [mkUser 1 (Some 5)] [mkHousehold 5 "home" 1 "ABCD1234"]
              [mkMembership 6 5 1 "admin"] [] [] [] [] 20 in
  has_membership db 1 /\
  HouseholdService.join_household 1 "ZZZZ9999" db = (Ok None, db).
Proof.
  split; [exists (mkMembership 6 5 1 "admin"); simpl; auto|]. reflexivity.
Qed.

(** ** C3: creating a household *)

Lemma filter_false_nil {A} (q : A -> bool) (l : list A) :
  (forall x, In x l -> q x = false) -> filter q l = [].
Proof.
  induction l as [|a l IH]; simpl; intros H; [reflexivity|].
  rewrite (H a (or_introl eq_refl)). apply IH. auto.
Qed.

Lemma unique_invite_code_run db draws r db1 :
  wf db ->
  HouseholdService.unique_invite_code draws db = (Ok r, db1) ->
  db1 = db /\
  forall c, r = Some c -> ~ In c (map invite_code (households db)).
Proof.
  intros Hwf. revert r db1. induction draws as [|picks rest IH]; intros r db1 Hrun.
  - simpl in Hrun. injection Hrun as <- <-. split; [reflexivity|discriminate].
  - simpl in Hrun.
    erewrite bind_Ok in Hrun by (apply get_household_by_invite_code_run, Hwf).
    destruct (hd_error (invite_rows db _)) as [h|] eqn:Hh.
    + now apply IH.
    + injection Hrun as <- <-. split; [reflexivity|].
      intros c Hc. injection Hc as <-. intros Hin.
      apply hd_error_None, invite_rows_nil in Hh. apply Hh.
      apply in_map_iff in Hin as (h & Hc & Hin). eauto.
Qed.

Lemma db_add_household_ok hh db db' :
  db_add_household hh db = (Ok tt, db') ->
  db' = set_households db (households db ++ [hh]).
Proof.
  unfold db_add_household, bind, get, put, raise.
  destruct (existsb _ _ || _ || _); intros H; inversion H; reflexivity.
Qed.

(** Claim C3: once [create_household] has returned a household [h], [h] has
    exactly one membership, of role "admin", belonging to the creator; the
    creator's [current_household_id] is [h]; and [h]'s invite code is held
    by no household that existed before the call. *)
Theorem create_household_spec (db : DB) (uid : nat) (name : string)
  (draws : list (list nat)) (h : Household) (db' : DB) :
  wf db ->
  HouseholdService.create_household uid name draws db = (Ok (Some h), db') ->
  (exists m,
     filter (fun m => Nat.eqb (m_household_id m) (household_id h))
       (memberships db') = [m] /\
     role m = "admin" /\ m_user_id m = uid) /\
  created_by h = uid /\
  (exists u, In u (users db') /\ user_id u = uid) /\
  (forall u, In u (users db') -> user_id u = uid ->
             current_household_id u = Some (household_id h)) /\
  ~ In (invite_code h) (map invite_code (households db)).
Proof.
  intros Hwf Hrun. unfold HouseholdService.create_household in Hrun.
  apply bind_inv in Hrun as (code & db0 & Hcode & Hrun).
  apply unique_invite_code_run in Hcode as [-> Hfree]; [|exact Hwf].
  destruct code as [c|]; [|discriminate].
  apply bind_inv in Hrun as (hid & db1 & Hfresh & Hrun).
  injection Hfresh as <- <-. cbv zeta in Hrun.
  apply bind_inv in Hrun as ([] & db2 & Hadd & Hrun).
  apply db_add_household_ok in Hadd as ->.
  apply bind_inv in Hrun as (mid & db3 & Hfresh & Hrun).
  injection Hfresh as <- <-.
  apply bind_inv in Hrun as ([] & db4 & Hadd & Hrun).
  apply db_add_membership_ok in Hadd as [-> Hu]. simpl in Hu.
  apply bind_inv in Hrun as ([] & db5 & Hupd & Hrun).
  rewrite update_current_household_run in Hupd by (simpl; apply Hwf).
  destruct (user_rows_present _ uid Hu) as [u0 Hu0].
  change (user_rows _ uid) with (user_rows db uid) in Hupd.
  rewrite Hu0 in Hupd. injection Hupd as <-.
  apply bind_inv in Hrun as ([] & db6 & Hgr & Hret).
  injection Hret as <- <-.
  apply grant_user_recipes_ok in Hgr as [(G1 & G2 & G3 & G4 & G5) _].
  simpl in *. rewrite G1, G3. split; [|split; [reflexivity|split; [|split]]].
  - exists (mkMembership (S (next_id db)) (next_id db) uid "admin").
    split; [|split; reflexivity].
    rewrite filter_app. simpl. rewrite Nat.eqb_refl.
    assert (filter (fun m => Nat.eqb (m_household_id m) (next_id db))
              (memberships db) = []) as ->; [|reflexivity].
    apply filter_false_nil. intros m Hm. apply Nat.eqb_neq.
    apply (wf_membership_household_fk _ Hwf) in Hm.
    apply in_map_iff in Hm as (hh & <- & Hhh).
    apply (wf_household_fresh _ Hwf) in Hhh. lia.
  - apply hd_error_In in Hu0. apply filter_In in Hu0 as [Hu0 Hid].
    apply Nat.eqb_eq in Hid. exists (set_current uid (Some (next_id db)) u0).
    split; [now apply in_map|]. unfold set_current.
    rewrite Hid, Nat.eqb_refl. reflexivity.
  - intros u Hu' Hid. eapply set_current_In; eauto.
  - apply Hfree. reflexivity.
Qed.

Lemma create_household_spec_witness :
  let db := mkDB [mkUser 1 (Some 5); mkUser 2 None]
              [mkHousehold 5 "home" 1 "AAAAAAAA"]
              [mkMembership 6 5 1 "admin"]
              [mkRecipe 10 2 true [] "Soup"] [] [] [] 20 in
  let draws := [repeat 0 8; repeat 1 8] in
  wf db /\
  exists h db',
  HouseholdService.create_household 2 "flat" draws db = (Ok (Some h), db') /\
  (exists m,
     filter (fun m => Nat.eqb (m_household_id m) (household_id h))
       (memberships db') = [m] /\
     role m = "admin" /\ m_user_id m = 2) /\
  created_by h = 2 /\
  (exists u, In u (users db') /\ user_id u = 2) /\
  (forall u, In u (users db') -> user_id u = 2 ->
             current_household_id u = Some (household_id h)) /\
  ~ In (invite_code h) (map invite_code (households db)).
Proof.
  intros db draws. assert (Hwf : wf db) by solve_wf.
  split; [exact Hwf|]. eexists; eexists. split.
  { vm_compute. reflexivity. }
  apply (create_household_spec db 2 "flat" draws _ _ Hwf).
  vm_compute. reflexivity.
Defined.

(** ** The aggregation dict *)

Section Aggregation.
Import ShoppingListService.

Lemma dict_get_None k (d : Dict) : dict_get k d = None <-> ~ In k (map fst d).
Proof.
  induction d as [|[k' a'] d IH]; simpl; [tauto|].
  destruct (Nat.eqb k' k) eqn:E.
  - apply Nat.eqb_eq in E. split; [discriminate|]. intros H. now exfalso; auto.
  - rewrite IH. apply Nat.eqb_neq in E. tauto.
Qed.

Lemma dict_get_Some k a (d : Dict) : dict_get k d = Some a -> In (k, a) d.
Proof.
  induction d as [|[k' a'] d IH]; simpl; [discriminate|].
  destruct (Nat.eqb k' k) eqn:E; intros H.
  - apply Nat.eqb_eq in E. injection H as ->. subst. now left.
  - right. auto.
Qed.

Lemma dict_set_new k a (d : Dict) :
  ~ In k (map fst d) -> dict_set k a d = d ++ [(k, a)].
Proof.
  induction d as [|[k' a'] d IH]; simpl; intros Hn; [reflexivity|].
  destruct (Nat.eqb k' k) eqn:E.
  - apply Nat.eqb_eq in E. exfalso. auto.
  - f_equal. apply IH. auto.
Qed.

Lemma dict_set_keys k a (d : Dict) :
  In k (map fst d) -> map fst (dict_set k a d) = map fst d.
Proof.
  induction d as [|[k' a'] d IH]; simpl; intros Hin; [contradiction|].
  destruct (Nat.eqb k' k) eqn:E; simpl; [reflexivity|].
  f_equal. apply IH. destruct Hin as [->|]; [|auto].
  now rewrite Nat.eqb_refl in E.
Qed.

Lemma dict_set_In k a (d : Dict) k' a' :
  NoDup (map fst d) -> In (k', a') (dict_set k a d) ->
  (k' = k /\ a' = a) \/ (k' <> k /\ In (k', a') d).
Proof.
  induction d as [|[k0 a0] d IH]; simpl; intros Hnd Hin.
  - destruct Hin as [H|[]]. injection H as <- <-. auto.
  - inversion Hnd as [|? ? Hn Hnd']; subst.
    destruct (Nat.eqb k0 k) eqn:E.
    + apply Nat.eqb_eq in E. subst k0.
      destruct Hin as [H|H]; [injection H as <- <-; auto|].
      right. split; [|auto]. intros ->. apply Hn. apply in_map_iff. now exists (k, a').
    + destruct Hin as [H|H].
      * injection H as <- <-. right. split; [|auto].
        intros ->. now rewrite Nat.eqb_refl in E.
      * destruct (IH Hnd' H) as [?|[? ?]]; auto.
Qed.

End Aggregation.

(** ** What the aggregation computes, stated over the visited lines *)

Definition line_qty (l : RecipeIngredient) : Z :=
  ShoppingListService.quantity_or_zero (ri_quantity l).

Definition lines_for (k : nat) (ls : list RecipeIngredient) :=
  filter (fun l => Nat.eqb (ri_ingredient_id l) k) ls.

Definition Zsum (xs : list Z) : Z := fold_right Z.add 0%Z xs.

(** The numeric sum of the quantities of the lines of ingredient [k]. *)
Definition key_sum (k : nat) (ls : list RecipeIngredient) : Z :=
  Zsum (map line_qty (lines_for k ls)).

(** The first line of ingredient [k]. *)
Definition first_line (k : nat) (ls : list RecipeIngredient) :=
  find (fun l => Nat.eqb (ri_ingredient_id l) k) ls.

(** Every ingredient line of every planned meal's recipe, in visiting order. *)
Definition meal_lines (db : DB) (pms : list PlannedMeal) : list RecipeIngredient :=
  flat_map (fun pm => match ShoppingListService.load_recipe db pm with
                      | Some r => recipe_ingredients r
                      | None => []
                      end) pms.

(** The catalog entry of ingredient [k]. *)
Definition catalog_entry (catalog : list Ingredient) (k : nat) : option Ingredient :=
  find (fun i => Nat.eqb (ingredient_id i) k) catalog.

(** The loop body when the identity map serves every lazy load. *)
Definition add_line_loaded (catalog : list Ingredient) (d : ShoppingListService.Dict)
  (l : RecipeIngredient) : ShoppingListService.Dict :=
  match ShoppingListService.add_line
          (ShoppingListService.mkIdentityMap [] [ri_ingredient_id l]) catalog d l with
  | Ok d' => d'
  | Raise _ => d
  end.

Section Loading.
Import ShoppingListService.

Lemma add_line_loaded_eq im catalog d l :
  In (ri_ingredient_id l) (loaded_ingredients im) ->
  add_line im catalog d l = Ok (add_line_loaded catalog d l).
Proof.
  intros Hin. unfold add_line_loaded, add_line, load_ingredient, lazy_load. cbn.
  rewrite Nat.eqb_refl.
  replace (existsb (Nat.eqb (ri_ingredient_id l)) (loaded_ingredients im)) with true.
  2:{ symmetry. apply existsb_exists. exists (ri_ingredient_id l).
      split; [exact Hin|apply Nat.eqb_refl]. }
  destruct (dict_get _ d); [|reflexivity].
  destruct (ri_quantity l); [|reflexivity]. destruct (Z.eqb _ 0); reflexivity.
Qed.

Lemma fold_lines_loaded im catalog ls d :
  (forall l, In l ls -> In (ri_ingredient_id l) (loaded_ingredients im)) ->
  fold_res (add_line im catalog) ls d = Ok (fold_left (add_line_loaded catalog) ls d).
Proof.
  revert d. induction ls as [|l ls IH]; intros d Hl; simpl; [reflexivity|].
  rewrite add_line_loaded_eq by (apply Hl; now left).
  apply IH. intros l' H'. apply Hl. now right.
Qed.

Lemma aggregate_loaded im db pms :
  (forall pm r, In pm pms -> load_recipe db pm = Some r ->
     In (recipe_id r) (loaded_recipe_ingredients im)) ->
  (forall l, In l (meal_lines db pms) -> In (ri_ingredient_id l) (loaded_ingredients im)) ->
  aggregate im db pms =
    Ok (fold_left (add_line_loaded (ingredients db)) (meal_lines db pms) []).
Proof.
  unfold aggregate, meal_lines. generalize (@nil (nat * Acc)).
  induction pms as [|pm pms IH]; intros d Hr Hl; simpl; [reflexivity|].
  rewrite fold_left_app.
  destruct (load_recipe db pm) as [r|] eqn:E.
  - unfold load_recipe_ingredients, lazy_load.
    replace (existsb (Nat.eqb (recipe_id r)) (loaded_recipe_ingredients im)) with true.
    2:{ symmetry. apply existsb_exists. exists (recipe_id r).
        split; [exact (Hr pm r (or_introl eq_refl) E)|apply Nat.eqb_refl]. }
    rewrite fold_lines_loaded.
    + apply IH.
      * intros pm' r' H'. apply Hr. now right.
      * intros l' H'. apply Hl. simpl. rewrite E. apply in_app_iff. now right.
    + intros l' H'. apply Hl. simpl. rewrite E. apply in_app_iff. now left.
  - apply IH.
    + intros pm' r' H'. apply Hr. now right.
    + intros l' H'. apply Hl. simpl. rewrite E. exact H'.
Qed.






End Loading.

Section AggregationSpec.
Import ShoppingListService.
Variable catalog : list Ingredient.

Definition agg_inv (d : Dict) (ls : list RecipeIngredient) : Prop :=
  NoDup (map fst d) /\
  (forall k, In k (map fst d) <-> exists l, In l ls /\ ri_ingredient_id l = k) /\
  (forall k a, In (k, a) d ->
     acc_quantity a = key_sum k ls /\
     (exists l0, first_line k ls = Some l0 /\ acc_unit a = ri_unit l0) /\
     acc_ingredient a = catalog_entry catalog k).

Lemma Zsum_app xs ys : Zsum (xs ++ ys) = (Zsum xs + Zsum ys)%Z.
Proof. induction xs; simpl; [reflexivity|]. rewrite IHxs. lia. Qed.

Lemma key_sum_snoc k ls l :
  key_sum k (ls ++ [l]) =
  (key_sum k ls + if Nat.eqb (ri_ingredient_id l) k then line_qty l else 0)%Z.
Proof.
  unfold key_sum, lines_for. rewrite filter_app, map_app, Zsum_app. simpl.
  destruct (Nat.eqb (ri_ingredient_id l) k); simpl; lia.
Qed.

Lemma first_line_snoc k ls l :
  first_line k (ls ++ [l]) =
  match first_line k ls with
  | Some x => Some x
  | None => if Nat.eqb (ri_ingredient_id l) k then Some l else None
  end.
Proof.
  unfold first_line. induction ls as [|x ls IH]; simpl; [reflexivity|].
  destruct (Nat.eqb (ri_ingredient_id x) k); auto.
Qed.

Lemma key_sum_absent k ls :
  ~ (exists l, In l ls /\ ri_ingredient_id l = k) -> key_sum k ls = 0%Z.
Proof.
  intros Hn. unfold key_sum.
  assert (lines_for k ls = []) as ->; [|reflexivity].
  apply filter_false_nil. intros x Hx.
  destruct (Nat.eqb (ri_ingredient_id x) k) eqn:E; [|reflexivity].
  apply Nat.eqb_eq in E. exfalso. eauto.
Qed.

Lemma first_line_absent k ls :
  ~ (exists l, In l ls /\ ri_ingredient_id l = k) -> first_line k ls = None.
Proof.
  intros Hn. unfold first_line. induction ls as [|x ls IH]; simpl; [reflexivity|].
  destruct (Nat.eqb (ri_ingredient_id x) k) eqn:E.
  - apply Nat.eqb_eq in E. exfalso. apply Hn. exists x. simpl. auto.
  - apply IH. intros (y & Hy & Hk). apply Hn. exists y. simpl. auto.
Qed.

Lemma NoDup_snoc {A} (l : list A) x : NoDup l -> ~ In x l -> NoDup (l ++ [x]).
Proof.
  induction l as [|a l IH]; simpl; intros Hnd Hn.
  - repeat constructor. auto.
  - inversion Hnd; subst. constructor; [|apply IH; auto].
    rewrite in_app_iff. simpl. intuition.
Qed.

Lemma agg_keys_snoc (d : Dict) ls l :
  (forall k, In k (map fst d) <-> exists l', In l' ls /\ ri_ingredient_id l' = k) ->
  In (ri_ingredient_id l) (map fst d) ->
  forall k, In k (map fst d) <-> exists l', In l' (ls ++ [l]) /\ ri_ingredient_id l' = k.
Proof.
  intros Hkeys Hkl k. rewrite Hkeys. split.
  - intros (l' & H1 & H2). exists l'. rewrite in_app_iff. auto.
  - intros (l' & H1 & H2). apply in_app_iff in H1 as [H1|[<-|[]]]; [eauto|].
    apply Hkeys. now subst.
Qed.

Lemma agg_other k a (d : Dict) ls l :
  (In (k, a) d -> acc_quantity a = key_sum k ls /\
     (exists l0, first_line k ls = Some l0 /\ acc_unit a = ri_unit l0) /\
     acc_ingredient a = catalog_entry catalog k) ->
  In (k, a) d ->
  (k <> ri_ingredient_id l \/ line_qty l = 0%Z) ->
  acc_quantity a = key_sum k (ls ++ [l]) /\
  (exists l0, first_line k (ls ++ [l]) = Some l0 /\ acc_unit a = ri_unit l0) /\
  acc_ingredient a = catalog_entry catalog k.
Proof.
  intros Hent Hin Hcase. destruct (Hent Hin) as (Hq & (l0 & Hf & Hu) & Hi).
  split; [|split; [|exact Hi]].
  - rewrite key_sum_snoc, Hq.
    destruct (Nat.eqb (ri_ingredient_id l) k) eqn:E; [|lia].
    apply Nat.eqb_eq in E. destruct Hcase as [Hne|H0]; [congruence|lia].
  - exists l0. rewrite first_line_snoc, Hf. auto.
Qed.

Lemma agg_step (d : Dict) ls l :
  agg_inv d ls -> agg_inv (add_line_loaded catalog d l) (ls ++ [l]).
Proof.
  intros (Hnd & Hkeys & Hent).
  unfold add_line_loaded, add_line, load_ingredient, lazy_load. cbn.
  rewrite Nat.eqb_refl. simpl orb. cbv iota.
  fold (catalog_entry catalog (ri_ingredient_id l)).
  destruct (dict_get (ri_ingredient_id l) d) as [a|] eqn:Hg.
  - assert (Hin : In (ri_ingredient_id l, a) d) by now apply dict_get_Some.
    assert (Hkin : In (ri_ingredient_id l) (map fst d))
      by (apply in_map_iff; now exists (ri_ingredient_id l, a)).
    assert (Hsame : line_qty l = 0%Z -> agg_inv d (ls ++ [l])).
    { intros H0. split; [exact Hnd|]. split; [now apply agg_keys_snoc|].
      intros k a' Ha'. apply (agg_other k a' d); auto. }
    destruct (ri_quantity l) as [q|] eqn:Hq.
    + destruct (Z.eqb q 0) eqn:Hq0.
      { apply Hsame. unfold line_qty. rewrite Hq. now apply Z.eqb_eq. }
      unfold agg_inv. split; [rewrite dict_set_keys; auto|].
      split; [rewrite dict_set_keys by auto; now apply agg_keys_snoc|].
      intros k a' Ha'. apply dict_set_In in Ha' as [[-> ->]|[Hne Ha']]; [| |exact Hnd].
      * destruct (Hent _ _ Hin) as (HqA & (l0 & Hf & Hu) & Hi). simpl.
        split; [|split; [|exact Hi]].
        -- rewrite key_sum_snoc, Nat.eqb_refl, HqA. unfold line_qty.
           rewrite Hq. reflexivity.
        -- exists l0. rewrite first_line_snoc, Hf. auto.
      * apply (agg_other k a' d); auto.
    + apply Hsame. unfold line_qty. now rewrite Hq.
  - apply dict_get_None in Hg.
    assert (Habs : ~ exists l', In l' ls /\ ri_ingredient_id l' = ri_ingredient_id l)
      by (now rewrite <- Hkeys).
    rewrite dict_set_new by exact Hg.
    unfold agg_inv. split; [rewrite map_app; now apply NoDup_snoc|].
    split.
    + intros k. rewrite map_app, in_app_iff, Hkeys. simpl. split.
      * intros [(l' & H1 & H2)|[<-|[]]].
        -- exists l'. rewrite in_app_iff. auto.
        -- exists l. rewrite in_app_iff. simpl. auto.
      * intros (l' & H1 & H2). apply in_app_iff in H1 as [H1|[<-|[]]]; eauto.
    + intros k a' Ha'. apply in_app_iff in Ha' as [Ha'|[Ha'|[]]].
      * apply (agg_other k a' d); auto. left. intros ->. apply Hg.
        apply in_map_iff. now exists (ri_ingredient_id l, a').
      * injection Ha' as <- <-. simpl. split; [|split; [|reflexivity]].
        -- rewrite key_sum_snoc, Nat.eqb_refl, key_sum_absent by exact Habs.
           reflexivity.
        -- exists l. rewrite first_line_snoc, first_line_absent by exact Habs.
           now rewrite Nat.eqb_refl.
Qed.

Lemma agg_fold ls : agg_inv (fold_left (add_line_loaded catalog) ls []) ls.
Proof.
  induction ls as [|l ls IH] using rev_ind.
  - split; [constructor|]. split.
    + intros k. simpl. split; [intros []|intros (l & [] & _)].
    + intros k a [].
  - rewrite fold_left_app. simpl. now apply agg_step.
Qed.

End AggregationSpec.

Definition meal_plan_rows (db : DB) (mpid : nat) : list MealPlan :=
  filter (fun mp => Nat.eqb (meal_plan_id mp) mpid) (meal_plans db).

Section Generate.
Import ShoppingListService.

Lemma make_item_keys (d : Dict) :
  map sli_ingredient_id (map make_item d) = map fst d.
Proof. induction d as [|[k a] d IH]; simpl; [reflexivity|]. now rewrite IH. Qed.

Lemma make_item_In (d : Dict) it :
  In it (map make_item d) ->
  exists a, In (sli_ingredient_id it, a) d /\
    sli_quantity it = acc_quantity a /\
    sli_unit it = acc_unit a /\
    sli_category it = match acc_ingredient a with
                      | Some i => category i
                      | None => None
                      end.
Proof.
  intros Hin. apply in_map_iff in Hin as ([k a] & <- & Hin).
  exists a. simpl. auto.
Qed.

Lemma existsb_nat_In {A} (f : A -> nat) (k : nat) (l : list A) :
  existsb (fun x => Nat.eqb (f x) k) l = true <-> In k (map f l).
Proof.
  rewrite existsb_exists, in_map_iff. split.
  - intros (x & Hx & E). apply Nat.eqb_eq in E. eauto.
  - intros (x & E & Hx). exists x. split; [exact Hx|]. now apply Nat.eqb_eq.
Qed.

(** [generate_shopping_list_from_meal_plan] up to the aggregation loop: the
    plan is found, a list id drawn and the list row checked. *)
Lemma generate_run im db uid mpid mp :
  meal_plan_rows db mpid = [mp] ->
  generate_shopping_list_from_meal_plan im uid mpid db =
  (db_add_shopping_list (shopping_list_name mp)
     (mkShoppingList (next_id db) uid (mp_household_id mp) (Some mpid) []) ;;;
   db1 <- get ;;
   match aggregate im db1 (planned_meals mp) with
   | Raise e => raise e
   | Ok ingredient_quantities =>
       db_add_items (map make_item ingredient_quantities) ;;;
       ret (mkShoppingList (next_id db) uid (mp_household_id mp) (Some mpid)
              (map make_item ingredient_quantities))
   end) (set_next_id db (S (next_id db))).
Proof.
  intros Hmp. unfold generate_shopping_list_from_meal_plan.
  erewrite bind_Ok.
  2:{ unfold get_meal_plan. erewrite bind_Ok by reflexivity.
      unfold meal_plan_rows in Hmp. rewrite Hmp. reflexivity. }
  reflexivity.
Qed.

Lemma db_add_shopping_list_ok db name sl :
  varchar_fits 255 name = true ->
  In (sl_user_id sl) (map user_id (users db)) ->
  In (sl_household_id sl) (map household_id (households db)) ->
  (forall id, sl_meal_plan_id sl = Some id -> In id (map meal_plan_id (meal_plans db))) ->
  db_add_shopping_list name sl db = (Ok tt, db).
Proof.
  intros Hn Hu Hh Hm. unfold db_add_shopping_list, bind, get, ret, raise.
  rewrite Hn. simpl.
  rewrite (proj2 (existsb_nat_In user_id _ _) Hu).
  rewrite (proj2 (existsb_nat_In household_id _ _) Hh).
  destruct (sl_meal_plan_id sl) as [id|]; [|reflexivity].
  rewrite (proj2 (existsb_nat_In meal_plan_id _ _) (Hm id eq_refl)). reflexivity.
Qed.

Lemma db_add_items_ok db items :
  (forall it, In it items -> decimal_10_2_fits (sli_quantity it) = true /\
     In (sli_ingredient_id it) (map ingredient_id (ingredients db))) ->
  db_add_items items db = (Ok tt, db).
Proof.
  induction items as [|it items IH]; intros H; [reflexivity|].
  simpl. unfold bind, get, raise.
  destruct (H it (or_introl eq_refl)) as [Hq Hi]. rewrite Hq. simpl.
  rewrite (proj2 (existsb_nat_In ingredient_id _ _) Hi). simpl.
  apply IH. intros it' Hit'. apply H. now right.
Qed.


(** The items built from the aggregated lines, when every lazy load is
    served. *)
Definition loaded_items (db : DB) (lines : list RecipeIngredient) : list ShoppingListItem :=
  map make_item (fold_left (add_line_loaded (ingredients db)) lines []).

Lemma loaded_items_spec db lines :
  let items := loaded_items db lines in
  NoDup (map sli_ingredient_id items) /\
  (forall k, In k (map sli_ingredient_id items) <->
             exists l, In l lines /\ ri_ingredient_id l = k) /\
  (forall it, In it items ->
     sli_quantity it = key_sum (sli_ingredient_id it) lines /\
     (exists l0, first_line (sli_ingredient_id it) lines = Some l0 /\
                 sli_unit it = ri_unit l0) /\
     sli_category it = match catalog_entry (ingredients db) (sli_ingredient_id it) with
                       | Some i => category i
                       | None => None
                       end).
Proof.
  intros items. unfold items, loaded_items.
  destruct (agg_fold (ingredients db) lines) as (Hnd & Hkeys & Hent).
  split; [|split].
  - now rewrite make_item_keys.
  - intros k. rewrite make_item_keys. apply Hkeys.
  - intros it Hit. apply make_item_In in Hit as (a & Ha & Hq & Hu & Hc).
    destruct (Hent _ _ Ha) as (HqA & (l0 & Hf & HuA) & Hi).
    split; [congruence|]. split; [exists l0; split; [exact Hf|congruence]|].
    rewrite Hc, Hi. reflexivity.
Qed.

(** A run in which the list row passes its checks, every lazy load is
    served by the identity map and every item passes its checks. *)
Lemma generate_loaded_run im db uid mpid mp :
  meal_plan_rows db mpid = [mp] ->
  let lines := meal_lines db (planned_meals mp) in
  varchar_fits 255 (shopping_list_name mp) = true ->
  In uid (map user_id (users db)) ->
  In (mp_household_id mp) (map household_id (households db)) ->
  (forall pm r, In pm (planned_meals mp) -> load_recipe db pm = Some r ->
     In (recipe_id r) (loaded_recipe_ingredients im)) ->
  (forall l, In l lines -> In (ri_ingredient_id l) (loaded_ingredients im)) ->
  (forall l, In l lines -> In (ri_ingredient_id l) (map ingredient_id (ingredients db))) ->
  (forall l, In l lines -> decimal_10_2_fits (key_sum (ri_ingredient_id l) lines) = true) ->
  generate_shopping_list_from_meal_plan im uid mpid db =
    (Ok (mkShoppingList (next_id db) uid (mp_household_id mp) (Some mpid)
           (loaded_items db lines)),
     set_next_id db (S (next_id db))).
Proof.
  intros Hmp lines Hn Hu Hh Hr Hl Hfk Hfit. rewrite (generate_run im db uid mpid mp Hmp).
  assert (Hmpin : In mp (meal_plans db)).
  { assert (Hf : In mp (meal_plan_rows db mpid)) by (rewrite Hmp; now left).
    apply filter_In in Hf. apply Hf. }
  assert (Hmpid : meal_plan_id mp = mpid).
  { assert (Hf : In mp (meal_plan_rows db mpid)) by (rewrite Hmp; now left).
    apply filter_In in Hf as [_ Hf]. now apply Nat.eqb_eq. }
  erewrite bind_Ok.
  2:{ apply db_add_shopping_list_ok; simpl; auto.
      intros id Hid. injection Hid as <-. rewrite <- Hmpid. now apply in_map. }
  unfold bind at 1, get at 1.
  rewrite (aggregate_loaded im (set_next_id db (S (next_id db))) (planned_meals mp) Hr Hl).
  erewrite bind_Ok; [reflexivity|].
  apply db_add_items_ok. fold (loaded_items db lines).
  destruct (loaded_items_spec db lines) as (_ & Hkeys & Hent).
  intros it Hit. destruct (Hent it Hit) as (Hq & _ & _).
  assert (Hk : In (sli_ingredient_id it) (map sli_ingredient_id (loaded_items db lines)))
    by now apply in_map.
  apply Hkeys in Hk as (l & Hl' & Hid). rewrite Hq, <- Hid.
  split; [now apply Hfit|now apply Hfk].
Qed.

End Generate.

(** ** C6: the shopping list, as the code builds it *)




(** ** C5: degraded parse results *)

Module ParsingSpec.
Import IngredientParsingService.

(** The [except] branch of [parse_ingredient_string], written out field by field. *)
Lemma fallback_fields (text : string) :
  fallback text = mkParseResult None None (Some (lower (strip text))) None text (1 # 10) false.
Proof. reflexivity. Qed.

(** A parser that finds an amount but no name token in "2 cups". *)
Definition amount_only_parser (_ : string) : option ParsedIngredient :=
  Some (mkParsedIngredient [] [mkIngredientAmount (AQNum 2%Q) "cup" (9 # 10)] None None).

(** Counterexample to Claim C5: when the parser finds no ingredient name token
    but does not raise, no fallback record is produced: the result has a null
    name, [parsed_successfully = true] and a confidence other than 0.1. *)
Lemma parse_ingredient_string_no_name_not_fallback :
  p_name (match amount_only_parser "2 cups" with Some p => p
          | None => mkParsedIngredient [] [] None None end) = [] /\
  ingredient_name (parse_ingredient_string amount_only_parser "2 cups") = None /\
  parsed_successfully (parse_ingredient_string amount_only_parser "2 cups") = true /\
  ~ (parsing_confidence (parse_ingredient_string amount_only_parser "2 cups") == 1 # 10)%Q /\
  parse_ingredient_string amount_only_parser "2 cups" <> fallback "2 cups".
Proof.
  split; [reflexivity|]. split; [reflexivity|]. split; [reflexivity|].
  split.
  - vm_compute. discriminate.
  - vm_compute. discriminate.
Qed.

(** Claim C5 (amended): for every parser and every input, normalization
    returns a record whose raw text is the input.  When parsing raises (the
    parser raises, or [float()] rejects the first amount's quantity) the
    record is the fallback: trimmed, lower-cased name, null quantity, unit
    and notes, confidence 0.1, [parsed_successfully = false].  When the
    parser succeeds without a name token the name is null,
    [parsed_successfully = true] and the confidence is the mean of the
    amount confidence (0.8 without amount) and 0.8. *)
Theorem parse_ingredient_string_spec
  (parser : string -> option ParsedIngredient) (text : string) :
  let r := parse_ingredient_string parser text in
  raw_text r = text /\
  ((parser text = None \/
    exists parsed amount rest, parser text = Some parsed /\
      p_amount parsed = amount :: rest /\
      float_of_quantity (am_quantity amount) = None) ->
   r = mkParseResult None None (Some (lower (strip text))) None text (1 # 10) false) /\
  (forall parsed, parser text = Some parsed -> p_name parsed = [] ->
   (forall amount rest, p_amount parsed = amount :: rest ->
      float_of_quantity (am_quantity amount) <> None) ->
   ingredient_name r = None /\ parsed_successfully r = true /\
   parsing_confidence r =
     ((match p_amount parsed with a :: _ => am_confidence a | [] => 4 # 5 end
       + (4 # 5)) / 2)%Q).
Proof.
  intros r. unfold r, parse_ingredient_string, parse_body. split; [|split].
  - destruct (parser text) as [parsed|]; [|reflexivity].
    destruct (p_amount parsed) as [|amount rest];
      [|destruct (float_of_quantity (am_quantity amount))];
      try reflexivity;
      destruct (p_name parsed) as [|name ?]; reflexivity.
  - intros [Hn | (parsed & amount & rest & Hp & Ha & Hf)].
    + rewrite Hn. reflexivity.
    + rewrite Hp, Ha, Hf. reflexivity.
  - intros parsed Hp Hname Hf. rewrite Hp, Hname.
    destruct (p_amount parsed) as [|amount rest] eqn:Ha; [repeat split|].
    destruct (float_of_quantity (am_quantity amount)) eqn:Hq;
      [repeat split|].
    exfalso. exact (Hf amount rest eq_refl Hq).
Qed.

Lemma parse_ingredient_string_spec_witness :
  (ingredient_name (parse_ingredient_string amount_only_parser "2 cups") = None /\
   parsed_successfully (parse_ingredient_string amount_only_parser "2 cups") = true) /\
  parse_ingredient_string (fun _ => None) "  Fresh Corn " =
    mkParseResult None None (Some "fresh corn") None "  Fresh Corn " (1 # 10) false.
Proof.
  split.
  - destruct (parse_ingredient_string_spec amount_only_parser "2 cups")
      as (_ & _ & H).
    destruct (H (mkParsedIngredient [] [mkIngredientAmount (AQNum 2%Q) "cup" (9 # 10)]
                   None None)) as (H1 & H2 & _);
      [reflexivity|reflexivity| |split; [exact H1|exact H2]].
    intros amount rest Ha. injection Ha as <- _. vm_compute. discriminate.
  - destruct (parse_ingredient_string_spec (fun _ => None) "  Fresh Corn ")
      as (_ & H & _).
    rewrite (H (or_introl eq_refl)). vm_compute. reflexivity.
Defined.

End ParsingSpec.

(** ** C7: a lost creation race *)

Module CatalogSpec.
Import IngredientParsingService.

(** Another session commits "flour" between the lookup and the insert. *)
Definition commit_flour (db : DB) : DB :=
  set_ingredients db (ingredients db ++ [mkIngredient 7 "flour" None]).

Definition empty_catalog : DB := mkDB [] [] [] [] [] [] [] 20.

(** Counterexample to Claim C7: the insert fails on the uniqueness of the
    name, and the caller gets [None], not the entry the other session
    committed, although that entry is in the catalog afterwards. *)
Lemma find_or_create_ingredient_race_returns_None :
  filter (fun i => String.eqb (ing_name i) "flour") (ingredients empty_catalog) = [] /\
  exists db',
    find_or_create_ingredient commit_flour "Flour" empty_catalog = (Ok None, db') /\
    In (mkIngredient 7 "flour" None) (ingredients db').
Proof.
  split; [reflexivity|]. eexists. split; [vm_compute; reflexivity|].
  simpl. auto.
Qed.

(** Claim C7 (amended): when no entry has the normalized name at lookup and
    another creator commits one before the insert, the insert's uniqueness
    violation is not surfaced as an error: the session rolls back and returns
    [None] without re-reading; the other creator's entries stay. *)
Theorem find_or_create_ingredient_race (concurrent : DB -> DB) (name : string) (db : DB) :
  name <> "" ->
  filter (fun i => String.eqb (ing_name i) (lower (strip name))) (ingredients db) = [] ->
  existsb (fun x => String.eqb (ing_name x) (lower (strip name)))
    (ingredients (concurrent db)) = true ->
  find_or_create_ingredient concurrent name db =
    (Ok None, set_next_id (concurrent db) (S (next_id (concurrent db)))).
Proof.
  intros Hne Hlook Hrace. unfold find_or_create_ingredient.
  destruct (String.eqb name "") eqn:E;
    [apply String.eqb_eq in E; contradiction|].
  unfold bind, execute, get, put, catch, fresh_id, db_add_ingredient, ret, raise.
  rewrite Hlook. cbn [hd_error]. unfold bind, get. cbn [ing_name].
  change (ingredients (set_next_id ?d _)) with (ingredients d).
  rewrite Hrace. reflexivity.
Qed.

Lemma find_or_create_ingredient_race_witness :
  find_or_create_ingredient commit_flour " Flour" empty_catalog =
    (Ok None, set_next_id (commit_flour empty_catalog) 21).
Proof.
  apply (find_or_create_ingredient_race commit_flour " Flour" empty_catalog).
  - discriminate.
  - vm_compute. reflexivity.
  - vm_compute. reflexivity.
Defined.

End CatalogSpec.

(* ================================================================== *)
(** * Further properties of the service layer *)

(** ** Batch parsing and its statistics *)

Module BatchSpec.
Import IngredientParsingService.

(** [fold_left Qplus] stays within [length] steps of [1] above its start
    when every summand lies in [[0, 1]]. *)
Lemma Qsum_bounds (xs : list Q) (a : Q) :
  (forall x, In x xs -> 0 <= x <= 1)%Q ->
  (a <= fold_left Qplus xs a <= a + inject_Z (Z.of_nat (List.length xs)))%Q.
Proof.
  revert a. induction xs as [|x xs IH]; intros a Hx; cbn [fold_left List.length].
  - simpl. rewrite Qplus_0_r. split; apply Qle_refl.
  - destruct (Hx x (or_introl eq_refl)) as [H0 H1].
    destruct (IH (a + x)%Q (fun y Hy => Hx y (or_intror Hy))) as [L U].
    split.
    + apply Qle_trans with (a + x)%Q; [|exact L].
      rewrite <- (Qplus_0_r a) at 1. apply Qplus_le_compat; [apply Qle_refl|exact H0].
    + apply Qle_trans with (a + x + inject_Z (Z.of_nat (List.length xs)))%Q; [exact U|].
      rewrite Nat2Z.inj_succ, <- Z.add_1_r, inject_Z_plus.
      setoid_replace (a + (inject_Z (Z.of_nat (List.length xs)) + inject_Z 1))%Q
        with (a + 1 + inject_Z (Z.of_nat (List.length xs)))%Q by ring.
      apply Qplus_le_compat; [|apply Qle_refl].
      apply Qplus_le_compat; [apply Qle_refl|exact H1].
Qed.

Lemma inject_Z_of_nat_pos n : n <> 0 -> (0 < inject_Z (Z.of_nat n))%Q.
Proof.
  intros Hn. unfold Qlt. simpl. lia.
Qed.

Lemma filter_length_le' {A} (f : A -> bool) (l : list A) :
  List.length (filter f l) <= List.length l.
Proof. induction l as [|x l IH]; simpl; [lia|]. destruct (f x); simpl; lia. Qed.

(** [get_parsing_stats] on no record gives zero counts and rate and no
    average; on records it counts them all, counts at most as many
    successes, gives a success rate in [[0, 1]], and an average confidence
    in [[0, 1]] when every confidence is. *)
Theorem get_parsing_stats_bounds (l : list ParseResult) :
  let st := get_parsing_stats l in
  (l = [] -> st = mkParsingStats 0 0 0 None) /\
  (l <> [] ->
   total st = List.length l /\
   stats_parsed_successfully st <= total st /\
   (0 <= success_rate st <= 1)%Q /\
   ((forall r, In r l -> 0 <= parsing_confidence r <= 1)%Q ->
    exists a, average_confidence st = Some a /\ (0 <= a <= 1)%Q)).
Proof.
  intros st. unfold st, get_parsing_stats. split; [intros ->; reflexivity|].
  intros Hne. assert (Hn : List.length l <> 0) by (destruct l; simpl; congruence).
  apply Nat.eqb_neq in Hn as Hb. rewrite Hb. cbn [total stats_parsed_successfully
    success_rate average_confidence].
  pose proof (inject_Z_of_nat_pos _ Hn) as Hpos.
  pose proof (filter_length_le' parsed_successfully l) as Hle.
  split; [reflexivity|]. split; [exact Hle|]. split.
  - split.
    + apply Qle_shift_div_l; [exact Hpos|]. rewrite Qmult_0_l.
      change 0%Q with (inject_Z 0). rewrite <- Zle_Qle. lia.
    + apply Qle_shift_div_r; [exact Hpos|]. rewrite Qmult_1_l.
      rewrite <- Zle_Qle. lia.
  - intros Hc. eexists. split; [reflexivity|].
    assert (Hx : forall x, In x (map parsing_confidence l) -> (0 <= x <= 1)%Q).
    { intros x Hx. apply in_map_iff in Hx as (r & <- & Hr). auto. }
    destruct (Qsum_bounds _ 0 Hx) as [L U]. rewrite length_map, Qplus_0_l in U.
    split.
    + apply Qle_shift_div_l; [exact Hpos|]. now rewrite Qmult_0_l.
    + apply Qle_shift_div_r; [exact Hpos|]. now rewrite Qmult_1_l.
Qed.

Lemma get_parsing_stats_bounds_witness :
  let l := parse_ingredients_batch (fun _ => None) ["2 cups flour"; "  "; "salt"] in
  get_parsing_stats l = mkParsingStats 2 0 (0 # 2) (Some (20 # 200)) /\
  exists a, average_confidence (get_parsing_stats l) = Some a /\ (0 <= a <= 1)%Q.
Proof.
  intros l. split; [vm_compute; reflexivity|].
  destruct (get_parsing_stats_bounds l) as [_ H].
  destruct H as (_ & _ & _ & H); [vm_compute; discriminate|].
  apply H. intros r Hr. vm_compute in Hr.
  destruct Hr as [<-|[<-|[]]]; vm_compute; split; discriminate.
Defined.

End BatchSpec.

(** ** [_parse_numeric_value] *)

Module NumberSpec.
Import RecipeService.

Definition no_char (p : ascii -> bool) (l : list ascii) : bool :=
  forallb (fun c => negb (p c)) l.

(** The number of points in a run. *)
Definition count_points (l : list ascii) : nat :=
  List.length (filter (fun c => Ascii.eqb c ".") l).

Definition starts_outside (p : ascii -> bool) (l : list ascii) : Prop :=
  match l with c :: _ => p c = false | [] => True end.

Lemma take_while_app p d suf :
  forallb p d = true -> starts_outside p suf -> take_while p (d ++ suf) = d.
Proof.
  induction d as [|c d IH]; simpl; intros Hd Hs.
  - destruct suf as [|c suf]; simpl in *; [reflexivity|]. now rewrite Hs.
  - apply andb_true_iff in Hd as [Hc Hd]. rewrite Hc, IH; auto.
Qed.

Lemma search_run_skip p pre l :
  no_char p pre = true -> search_run p (pre ++ l) = search_run p l.
Proof.
  induction pre as [|c pre IH]; simpl; intros H; [reflexivity|].
  apply andb_true_iff in H as [Hc H]. apply negb_true_iff in Hc. rewrite Hc. auto.
Qed.

Lemma search_run_None p l : search_run p l = None <-> no_char p l = true.
Proof.
  induction l as [|c l IH]; simpl; [tauto|].
  destruct (p c); simpl; [split; discriminate|exact IH].
Qed.

Lemma take_while_all p l : forallb p (take_while p l) = true.
Proof.
  induction l as [|c l IH]; simpl; [reflexivity|].
  destruct (p c) eqn:E; simpl; [rewrite E; exact IH|reflexivity].
Qed.

Lemma take_while_incl p l : exists rest,
  l = take_while p l ++ rest /\ starts_outside p rest.
Proof.
  induction l as [|c l IH]; simpl.
  - exists []. split; [reflexivity|exact I].
  - destruct (p c) eqn:E.
    + destruct IH as (rest & Hl & Hr). exists rest. simpl. split; [congruence|exact Hr].
    + exists (c :: l). split; [reflexivity|exact E].
Qed.

Lemma search_run_Some p l run :
  search_run p l = Some run -> run <> [] /\ forallb p run = true.
Proof.
  induction l as [|c l IH]; simpl; [discriminate|].
  destruct (p c) eqn:E; [|exact IH].
  intros H. injection H as <-. split; [discriminate|]. simpl. rewrite E.
  apply take_while_all.
Qed.

Lemma digit_not_point c : is_digit c = true -> Ascii.eqb c "." = false.
Proof.
  intros H. destruct (Ascii.eqb c ".") eqn:E; [|reflexivity].
  apply Ascii.eqb_eq in E. subst. discriminate.
Qed.

Lemma num_not_digit c : is_num_char c = true -> is_digit c = false -> c = "."%char.
Proof.
  unfold is_num_char. intros H Hd. rewrite Hd in H. simpl in H.
  now apply Ascii.eqb_eq.
Qed.

Lemma digits_no_point l : forallb is_digit l = true -> count_points l = 0.
Proof.
  unfold count_points. induction l as [|c l IH]; simpl; [reflexivity|].
  intros H. apply andb_true_iff in H as [Hc H].
  rewrite (digit_not_point c Hc). auto.
Qed.

Lemma digits_no_char l :
  forallb is_digit l = true -> (no_char is_digit l = true <-> l = []).
Proof.
  destruct l as [|c l]; simpl; [tauto|]. intros H.
  apply andb_true_iff in H as [Hc _]. rewrite Hc. simpl. split; discriminate.
Qed.

Lemma nums_points l :
  forallb is_num_char l = true ->
  (existsb (fun c => negb (is_digit c)) l = true <-> 0 < count_points l).
Proof.
  unfold count_points. induction l as [|c l IH]; simpl; intros H.
  - split; [discriminate|lia].
  - apply andb_true_iff in H as [Hc H]. specialize (IH H).
    destruct (is_digit c) eqn:Hd; simpl.
    + rewrite (digit_not_point c Hd). exact IH.
    + rewrite (num_not_digit c Hc Hd). simpl. split; [lia|reflexivity].
Qed.

Lemma nums_no_point l :
  forallb is_num_char l = true -> count_points l = 0 -> forallb is_digit l = true.
Proof.
  unfold count_points. induction l as [|c l IH]; simpl; intros H Hc0; [reflexivity|].
  apply andb_true_iff in H as [Hc H].
  destruct (is_digit c) eqn:Hd; simpl.
  - rewrite (digit_not_point c Hd) in Hc0. auto.
  - rewrite (num_not_digit c Hc Hd) in Hc0. simpl in Hc0. discriminate.
Qed.

Lemma count_points_app a b : count_points (a ++ b) = count_points a + count_points b.
Proof. unfold count_points. now rewrite filter_app, length_app. Qed.

Lemma no_char_app p a b : no_char p (a ++ b) = no_char p a && no_char p b.
Proof. unfold no_char. apply forallb_app. Qed.

Lemma float_of_run_None run :
  run <> [] -> forallb is_num_char run = true ->
  (float_of_run run = None <-> 1 < count_points run \/ no_char is_digit run = true).
Proof.
  intros Hne Hnum. unfold float_of_run.
  destruct (take_while_incl is_digit run) as (rest & Hsplit & Hout).
  set (ip := take_while is_digit run) in *.
  assert (Hip : forallb is_digit ip = true) by apply take_while_all.
  assert (Hskip : skipn (List.length ip) run = rest)
    by (rewrite Hsplit; rewrite skipn_app, skipn_all, Nat.sub_diag; reflexivity).
  rewrite Hskip. rewrite Hsplit in Hnum |- *.
  rewrite forallb_app in Hnum. apply andb_true_iff in Hnum as [_ Hrest].
  rewrite count_points_app, no_char_app, (digits_no_point ip Hip).
  destruct rest as [|c fp].
  - rewrite app_nil_r in Hsplit.
    assert (Hl : List.length ip <> 0) by (destruct ip; simpl; congruence).
    apply Nat.eqb_neq in Hl. rewrite Hl. simpl.
    assert (no_char is_digit ip = false) as ->.
    { destruct (no_char is_digit ip) eqn:E; [|reflexivity].
      apply (digits_no_char ip Hip) in E. subst ip. congruence. }
    unfold count_points. simpl. split; [discriminate|]. intros [H|H]; [lia|discriminate].
  - simpl in Hout, Hrest. apply andb_true_iff in Hrest as [Hc Hfp].
    rewrite (num_not_digit c Hc Hout). cbn [no_char forallb].
    change (no_char is_digit fp) with (forallb (fun c => negb (is_digit c)) fp).
    unfold count_points at 1. simpl. fold (count_points fp).
    destruct (existsb (fun c => negb (is_digit c)) fp) eqn:Ex.
    + apply (nums_points fp Hfp) in Ex. split; [intros _; left; lia|reflexivity].
    + assert (Hc0 : count_points fp = 0).
      { destruct (count_points fp) eqn:E; [reflexivity|].
        assert (0 < count_points fp) as Hp by lia.
        apply (nums_points fp Hfp) in Hp. congruence. }
      pose proof (nums_no_point fp Hfp Hc0) as Hfd.
      rewrite Hc0.
      destruct (Nat.eqb (List.length ip + List.length fp) 0) eqn:El.
      * apply Nat.eqb_eq in El.
        assert (Hi0 : ip = []) by (apply length_zero_iff_nil; lia).
        assert (Hf0 : fp = []) by (apply length_zero_iff_nil; lia).
        rewrite Hi0, Hf0. simpl. split; [intros _; right; reflexivity|reflexivity].
      * split; [discriminate|]. intros [H|H]; [lia|].
        apply andb_true_iff in H as [H1 H2].
        apply (digits_no_char ip Hip) in H1.
        apply (digits_no_char fp Hfd) in H2. rewrite H1, H2 in El.
        simpl in El. discriminate.
Qed.

Lemma string_of_list_ascii_nonempty (l : list ascii) :
  l <> [] -> String.eqb (string_of_list_ascii l) "" = false.
Proof. destruct l; [congruence|reflexivity]. Qed.

(** [_parse_numeric_value] returns [None] exactly when the text is empty,
    has no digit or point, or its leftmost run of digits and points is not a
    float literal: it holds two points or more (["1.2.3 g"]), or no digit
    (["..."]); the [ValueError] of [float()] is caught. *)
Theorem _parse_numeric_value_None (value : string) :
  _parse_numeric_value value = None <->
  value = "" \/
  match search_run is_num_char (list_ascii_of_string value) with
  | None => True
  | Some run => 1 < count_points run \/ no_char is_digit run = true
  end.
Proof.
  unfold _parse_numeric_value. destruct (String.eqb value "") eqn:E.
  - apply String.eqb_eq in E. subst. tauto.
  - apply String.eqb_neq in E.
    destruct (search_run is_num_char (list_ascii_of_string value)) as [run|] eqn:Hr.
    + apply search_run_Some in Hr as [Hne Hnum].
      rewrite (float_of_run_None run Hne Hnum). tauto.
    + tauto.
Qed.

(** On a text made of a prefix without digit or point, a run of digits [d]
    and a rest that does not start with a digit or point,
    [_parse_numeric_value] returns the integer [int(d)]. *)
Theorem _parse_numeric_value_integer (pre d suf : list ascii) :
  no_char is_num_char pre = true -> d <> [] -> forallb is_digit d = true ->
  starts_outside is_num_char suf ->
  _parse_numeric_value (string_of_list_ascii (pre ++ d ++ suf))
  = Some (inject_Z (Z.of_nat (int_of_digits d))).
Proof.
  intros Hpre Hne Hd Hsuf. unfold _parse_numeric_value.
  rewrite string_of_list_ascii_nonempty
    by (destruct pre; [destruct d|]; simpl; congruence).
  rewrite list_ascii_of_string_of_list_ascii, search_run_skip by exact Hpre.
  assert (Hdn : forallb is_num_char d = true).
  { apply forallb_forall. intros c Hc. eapply forallb_forall in Hd; [|exact Hc].
    unfold is_num_char. now rewrite Hd. }
  assert (Ht : take_while is_digit d = d).
  { pose proof (take_while_app is_digit d []) as H. rewrite app_nil_r in H.
    apply H; [exact Hd|exact I]. }
  destruct d as [|c d]; [congruence|]. cbn [app search_run].
  simpl in Hdn. apply andb_true_iff in Hdn as [Hc Hdn]. rewrite Hc.
  rewrite take_while_app by auto.
  unfold float_of_run.
  cbv zeta. rewrite Ht, skipn_all. reflexivity.
Qed.

Lemma _parse_numeric_value_integer_witness :
  _parse_numeric_value "256 calories" = Some 256%Q /\
  _parse_numeric_value "1.2.3 grams" = None /\
  _parse_numeric_value (string_of_list_ascii
     (list_ascii_of_string "about " ++ list_ascii_of_string "19"
      ++ list_ascii_of_string " grams")) = Some 19%Q.
Proof.
  split; [vm_compute; reflexivity|]. split; [vm_compute; reflexivity|].
  apply (_parse_numeric_value_integer (list_ascii_of_string "about ")
           (list_ascii_of_string "19") (list_ascii_of_string " grams")).
  - vm_compute. reflexivity.
  - discriminate.
  - vm_compute. reflexivity.
  - vm_compute. reflexivity.
Defined.

End NumberSpec.

(** ** Revoking grants *)

Module GrantSpec.

(** The answer of [can_user_access_recipe] (shared by the lemmas below). *)
Lemma access_check_run (db : DB) (rid uid : nat) :
  wf db ->
  exists b, RecipeService.can_user_access_recipe rid uid db = (Ok b, db) /\
    (b = true <->
     owns_recipe db rid uid \/
     exists hid, member_of db uid hid /\ has_grant db rid hid).
Proof.
  intros Hwf. unfold RecipeService.can_user_access_recipe.
  erewrite bind_Ok by reflexivity.
  erewrite bind_Ok by (apply scalar_one_or_none_le1, recipe_owner_rows_le1, Hwf).
  destruct (option_nat_eqb (hd_error (recipe_owner_rows db rid)) (Some uid))
    eqn:Hown.
  { exists true. split; [reflexivity|]. split; [|auto].
    intros _. left. now apply recipe_owner_eq. }
  assert (Hnown : ~ owns_recipe db rid uid).
  { intros H. apply (recipe_owner_eq db rid uid Hwf) in H. congruence. }
  unfold get_user_household.
  erewrite bind_Ok.
  2:{ erewrite bind_Ok by reflexivity.
      apply scalar_one_or_none_le1, user_household_rows_le1, Hwf. }
  destruct (hd_error (user_household_rows db uid)) as [h|] eqn:Hh.
  - erewrite bind_Ok by reflexivity.
    erewrite bind_Ok by (apply scalar_one_or_none_le1, access_rows_le1, Hwf).
    assert (Hmem : member_of db uid (household_id h)).
    { apply hd_error_In, user_household_rows_In in Hh. tauto. }
    eexists. split; [reflexivity|].
    destruct (hd_error (access_rows db rid (household_id h))) as [a|] eqn:Ha.
    + split; [|auto]. intros _. right. exists (household_id h).
      split; [auto|]. apply hd_error_In, access_rows_In in Ha. exists a. tauto.
    + apply hd_error_None, access_rows_nil in Ha. split; [discriminate|].
      intros [Ho|(hid & Hm & Hg)]; [contradiction|].
      destruct (member_of_user_household db uid hid Hwf Hm) as (h' & Hh' & <-).
      rewrite Hh in Hh'. injection Hh' as ->. contradiction.
  - exists false. split; [reflexivity|]. split; [discriminate|].
    intros [Ho|(hid & Hm & Hg)]; [contradiction|].
    destruct (member_of_user_household db uid hid Hwf Hm) as (h' & Hh' & _).
    congruence.
Qed.

(** The primary key of [recipe_household_access]. *)
Definition access_pk (db : DB) : Prop := NoDup (map access_id (accesses db)).

Lemma NoDup_map_filter {A K} (f : A -> K) (p : A -> bool) (l : list A) :
  NoDup (map f l) -> NoDup (map f (filter p l)).
Proof.
  induction l as [|x l IH]; simpl; intros H; [constructor|].
  inversion H as [|? ? Hn Hnd]; subst.
  destruct (p x); simpl; [|auto].
  constructor; [|auto]. intros Hin. apply Hn.
  apply in_map_iff in Hin as (y & Hy & Hin). apply filter_In in Hin as [Hin _].
  rewrite <- Hy. now apply in_map.
Qed.

Lemma NoDup_map_inv_eq {A K} (f : A -> K) (l : list A) x y :
  NoDup (map f l) -> In x l -> In y l -> f x = f y -> x = y.
Proof.
  induction l as [|z l IH]; simpl; intros Hnd Hx Hy Hf; [contradiction|].
  inversion Hnd as [|? ? Hn Hnd']; subst.
  destruct Hx as [<-|Hx]; destruct Hy as [<-|Hy]; auto.
  - exfalso. apply Hn. rewrite Hf. now apply in_map.
  - exfalso. apply Hn. rewrite <- Hf. now apply in_map.
Qed.

Definition delete_access_rows (db : DB) (a : RecipeHouseholdAccess) :=
  filter (fun x => negb (Nat.eqb (access_id x) (access_id a))) (accesses db).

Lemma revoke_run_le1 db rid hid :
  List.length (access_rows db rid hid) <= 1 ->
  RecipeService.revoke_household_access rid hid db =
  match hd_error (access_rows db rid hid) with
  | None => (Ok false, db)
  | Some a => (Ok true, set_accesses db (delete_access_rows db a))
  end.
Proof.
  intros Hle. unfold RecipeService.revoke_household_access.
  erewrite bind_Ok by reflexivity.
  erewrite bind_Ok by (apply scalar_one_or_none_le1, Hle).
  destruct (hd_error (access_rows db rid hid)); reflexivity.
Qed.

Lemma revoke_run db rid hid :
  wf db ->
  RecipeService.revoke_household_access rid hid db =
  match hd_error (access_rows db rid hid) with
  | None => (Ok false, db)
  | Some a => (Ok true, set_accesses db (delete_access_rows db a))
  end.
Proof. intros Hwf. apply revoke_run_le1, access_rows_le1, Hwf. Qed.

Lemma member_of_unique db uid h1 h2 :
  wf db -> member_of db uid h1 -> member_of db uid h2 -> h1 = h2.
Proof.
  intros Hwf (m1 & Hm1 & Hu1 & Hh1) (m2 & Hm2 & Hu2 & Hh2).
  assert (m1 = m2) as ->.
  { apply (NoDup_map_inv_eq m_user_id (memberships db)); auto.
    - apply Hwf.
    - congruence. }
  congruence.
Qed.

(** Under the primary key, deleting by [access_id] removes exactly the grant
    of the pair. *)
Lemma delete_access_rows_In db rid hid a x :
  wf db -> access_pk db -> hd_error (access_rows db rid hid) = Some a ->
  In x (delete_access_rows db a) <->
  In x (accesses db) /\ ~ (ac_recipe_id x = rid /\ ac_household_id x = hid).
Proof.
  intros Hwf Hpk Ha. apply hd_error_In, access_rows_In in Ha as (Ha & Hr & Hh).
  unfold delete_access_rows. rewrite filter_In, negb_true_iff, Nat.eqb_neq.
  split.
  - intros [Hx Hne]. split; [exact Hx|]. intros [Hxr Hxh]. apply Hne.
    assert (x = a) as ->; [|reflexivity].
    pose proof (wf_access_unique _ Hwf) as Hu.
    apply (NoDup_map_inv_eq _ _ _ _ Hu); auto. rewrite Hxr, Hxh, Hr, Hh. reflexivity.
  - intros [Hx Hne]. split; [exact Hx|]. intros Hid. apply Hne.
    assert (x = a) as -> by (apply (NoDup_map_inv_eq _ _ _ _ Hpk); auto). auto.
Qed.

Lemma wf_set_accesses_filter db p :
  wf db -> wf (set_accesses db (filter p (accesses db))).
Proof.
  intros Hwf. destruct Hwf. constructor; simpl; auto.
  apply NoDup_map_filter. auto.
Qed.

(** [revoke_household_access(recipe, household)] returns false and changes
    nothing when the pair has no grant; otherwise it returns true, and
    afterwards the pair has no grant, every other grant is still there and no
    other table changes. *)
Theorem revoke_household_access_spec (db : DB) (rid hid : nat) :
  wf db -> access_pk db ->
  (~ has_grant db rid hid ->
   RecipeService.revoke_household_access rid hid db = (Ok false, db)) /\
  (has_grant db rid hid ->
   exists db', RecipeService.revoke_household_access rid hid db = (Ok true, db') /\
     ~ has_grant db' rid hid /\
     (forall x, In x (accesses db') <->
                In x (accesses db) /\ ~ (ac_recipe_id x = rid /\ ac_household_id x = hid)) /\
     users db' = users db /\ households db' = households db /\
     memberships db' = memberships db /\ recipes db' = recipes db).
Proof.
  intros Hwf Hpk. rewrite (revoke_run db rid hid Hwf). split.
  - intros Hno. apply access_rows_nil in Hno. now rewrite Hno.
  - intros Hg. destruct (hd_error (access_rows db rid hid)) as [a|] eqn:Ha.
    2:{ apply hd_error_None, access_rows_nil in Ha. contradiction. }
    eexists. split; [reflexivity|].
    pose proof (fun x => delete_access_rows_In db rid hid a x Hwf Hpk Ha) as Hdel.
    split; [|split; [exact Hdel|repeat split]].
    intros (x & Hx & Hr & Hh). apply (Hdel x) in Hx as [_ Hx]. tauto.
Qed.

Lemma revoke_household_access_spec_witness :
  let db := mkDB [mkUser 1 (Some 5)] [mkHousehold 5 "home" 1 "ABCD1234"]
              [mkMembership 6 5 1 "admin"] [mkRecipe 10 1 true [] "Soup"; mkRecipe 11 1 true [] "Soup"]
              [mkAccess 8 10 5 1; mkAccess 9 11 5 1] [] [] 20 in
  RecipeService.revoke_household_access 10 5 db = (Ok true, set_accesses db [mkAccess 9 11 5 1]) /\
  RecipeService.revoke_household_access 10 5 (set_accesses db [mkAccess 9 11 5 1])
    = (Ok false, set_accesses db [mkAccess 9 11 5 1]).
Proof.
  intros db. assert (Hwf : wf db) by solve_wf.
  split; [vm_compute; reflexivity|].
  apply (revoke_household_access_spec (set_accesses db [mkAccess 9 11 5 1]) 10 5).
  - solve_wf.
  - unfold access_pk. simpl. solve_nodup.
  - intros (x & Hx & Hr & Hh). simpl in Hx. destruct Hx as [<-|[]]. simpl in Hr. lia.
Defined.

(** Revoking right after a successful grant of a new pair restores the
    grant table: the pair's grant is deleted and nothing else, provided the
    existing grant ids are below the next fresh id. *)
Theorem grant_then_revoke (db : DB) (rid hid g : nat) r db1 :
  wf db -> access_pk db ->
  (forall a, In a (accesses db) -> access_id a < next_id db) ->
  ~ has_grant db rid hid ->
  RecipeService.grant_household_access rid hid g db = (Ok r, db1) ->
  RecipeService.revoke_household_access rid hid db1
  = (Ok true, set_next_id db (S (next_id db))).
Proof.
  intros Hwf Hpk Hfresh Hno Hgrant.
  apply access_rows_nil in Hno.
  destruct (grant_new db rid hid g r db1 Hno Hgrant) as [_ ->].
  set (a := mkAccess (next_id db) rid hid g).
  set (db1 := set_accesses (set_next_id db (S (next_id db))) (accesses db ++ [a])).
  assert (Hrows : access_rows db1 rid hid = [a]).
  { unfold access_rows in *. simpl. rewrite filter_app, Hno. simpl.
    rewrite !Nat.eqb_refl. reflexivity. }
  rewrite revoke_run_le1 by (rewrite Hrows; simpl; lia).
  rewrite Hrows. cbn [hd_error].
  assert (Hdel : delete_access_rows db1 a = accesses db).
  { unfold delete_access_rows. simpl. rewrite filter_app. simpl.
    rewrite Nat.eqb_refl. simpl. rewrite app_nil_r.
    apply forallb_filter_id. apply forallb_forall. intros x Hx.
    apply negb_true_iff, Nat.eqb_neq. specialize (Hfresh x Hx). simpl. lia. }
  rewrite Hdel. destruct db. reflexivity.
Qed.

Lemma grant_then_revoke_witness :
  let db := mkDB [mkUser 1 (Some 5)] [mkHousehold 5 "home" 1 "ABCD1234"]
              [mkMembership 6 5 1 "admin"] [mkRecipe 10 1 true [] "Soup"]
              [] [] [] 20 in
  RecipeService.grant_household_access 10 5 1 db
    = (Ok (Some (mkAccess 20 10 5 1)),
       set_accesses (set_next_id db 21) [mkAccess 20 10 5 1]) /\
  RecipeService.revoke_household_access 10 5
    (set_accesses (set_next_id db 21) [mkAccess 20 10 5 1]) = (Ok true, set_next_id db 21).
Proof.
  intros db. split; [vm_compute; reflexivity|].
  apply (grant_then_revoke db 10 5 1 (Some (mkAccess 20 10 5 1))).
  - solve_wf.
  - unfold access_pk. simpl. constructor.
  - intros a [].
  - intros (x & [] & _).
  - vm_compute. reflexivity.
Defined.

(** After the grant of a recipe to a household is revoked, a member of
    that household who does not own the recipe, and who could access it
    before, can no longer access it. *)
Theorem revoke_removes_member_access (db : DB) (rid hid uid : nat) :
  wf db -> access_pk db -> has_grant db rid hid -> member_of db uid hid ->
  ~ owns_recipe db rid uid ->
  RecipeService.can_user_access_recipe rid uid db = (Ok true, db) /\
  exists db', RecipeService.revoke_household_access rid hid db = (Ok true, db') /\
    RecipeService.can_user_access_recipe rid uid db' = (Ok false, db').
Proof.
  intros Hwf Hpk Hg Hm Hno. split.
  - destruct (access_check_run db rid uid Hwf) as (b & Hrun & Hb).
    rewrite Hrun. f_equal. f_equal. apply Hb. right. eauto.
  - rewrite (revoke_run db rid hid Hwf).
    destruct (hd_error (access_rows db rid hid)) as [a|] eqn:Ha.
    2:{ apply hd_error_None, access_rows_nil in Ha. contradiction. }
    eexists. split; [reflexivity|].
    set (db' := set_accesses db (delete_access_rows db a)).
    assert (Hwf' : wf db') by apply wf_set_accesses_filter, Hwf.
    destruct (access_check_run db' rid uid Hwf') as (b & Hrun & Hb).
    rewrite Hrun. destruct b; [|reflexivity]. exfalso.
    destruct (proj1 Hb eq_refl) as [Ho|(hid' & Hm' & Hg')]; [exact (Hno Ho)|].
    assert (hid' = hid) as ->.
    { apply (member_of_unique db uid); [exact Hwf| |exact Hm]. exact Hm'. }
    destruct Hg' as (x & Hx & Hr & Hh).
    apply (delete_access_rows_In db rid hid a x Hwf Hpk Ha) in Hx. tauto.
Qed.

Lemma revoke_removes_member_access_witness :
  let db := mkDB [mkUser 1 (Some 5); mkUser 2 (Some 5)] [mkHousehold 5 "home" 1 "ABCD1234"]
              [mkMembership 6 5 1 "admin"; mkMembership 7 5 2 "member"]
              [mkRecipe 10 1 true [] "Soup"] [mkAccess 8 10 5 1] [] [] 20 in
  RecipeService.can_user_access_recipe 10 2 db = (Ok true, db) /\
  exists db', RecipeService.revoke_household_access 10 5 db = (Ok true, db') /\
    RecipeService.can_user_access_recipe 10 2 db' = (Ok false, db').
Proof.
  intros db. apply (revoke_removes_member_access db 10 5 2).
  - solve_wf.
  - unfold access_pk. simpl. solve_nodup.
  - exists (mkAccess 8 10 5 1). simpl. auto.
  - exists (mkMembership 7 5 2 "member"). simpl. auto.
  - intros (r & Hr & Hid & Hu). simpl in Hr. destruct Hr as [<-|[]]. simpl in Hu. lia.
Defined.

End GrantSpec.

(** ** Household members *)

Module MemberSpec.

Lemma household_member_rows_In db hid uid m :
  In m (household_member_rows db hid uid) <->
  In m (memberships db) /\ m_household_id m = hid /\ m_user_id m = uid.
Proof.
  unfold household_member_rows. rewrite filter_In, andb_true_iff, !Nat.eqb_eq. tauto.
Qed.

Lemma household_member_rows_le1 db hid uid :
  wf db -> List.length (household_member_rows db hid uid) <= 1.
Proof.
  intros Hwf. apply (filter_key_le1 m_user_id); [apply Hwf|].
  intros x y Hx Hy. apply andb_true_iff in Hx as [_ Hx].
  apply andb_true_iff in Hy as [_ Hy]. apply Nat.eqb_eq in Hx, Hy. congruence.
Qed.

Lemma household_member_rows_hd db hid uid :
  wf db ->
  (~ member_of db uid hid -> household_member_rows db hid uid = []) /\
  (member_of db uid hid -> exists m, hd_error (household_member_rows db hid uid) = Some m /\
     In m (memberships db) /\ m_household_id m = hid /\ m_user_id m = uid).
Proof.
  intros Hwf. split.
  - intros Hno. destruct (household_member_rows db hid uid) as [|m rest] eqn:E;
      [reflexivity|].
    exfalso. apply Hno. exists m.
    assert (In m (household_member_rows db hid uid)) as H by (rewrite E; now left).
    apply household_member_rows_In in H. tauto.
  - intros (m & Hm & Hu & Hh). exists m.
    assert (In m (household_member_rows db hid uid)) as H
      by (apply household_member_rows_In; auto).
    pose proof (household_member_rows_le1 db hid uid Hwf) as Hle.
    destruct (household_member_rows db hid uid) as [|m' rest] eqn:E; [contradiction|].
    assert (m' = m) as -> by (eapply length_le1_In; eauto; now left).
    split; [reflexivity|auto].
Qed.

Lemma map_user_id_set_current uid v l :
  map user_id (map (set_current uid v) l) = map user_id l.
Proof.
  induction l as [|u l IH]; simpl; [reflexivity|]. rewrite IH. f_equal.
  unfold set_current. destruct (Nat.eqb (user_id u) uid); reflexivity.
Qed.

(** What a successful [join_household] did. *)
Lemma join_household_ok db uid code m db' :
  wf db ->
  HouseholdService.join_household uid code db = (Ok (Some m), db') ->
  exists h, In h (households db) /\ invite_code h = code /\
    m = mkMembership (next_id db) (household_id h) uid "member" /\
    ~ has_membership db uid /\ In uid (map user_id (users db)) /\
    memberships db' = memberships db ++ [m] /\
    users db' = map (set_current uid (Some (household_id h))) (users db) /\
    households db' = households db /\ recipes db' = recipes db /\
    (forall r, In r (recipes db) -> recipe_user_id r = uid ->
               shared_with_household r = true ->
               has_grant db' (recipe_id r) (household_id h)).
Proof.
  intros Hwf Hrun. unfold HouseholdService.join_household in Hrun.
  erewrite bind_Ok in Hrun by (apply get_household_by_invite_code_run, Hwf).
  destruct (invite_rows db code) as [|h rest] eqn:Hrows; [discriminate|].
  assert (Hh : In h (households db) /\ invite_code h = code).
  { assert (In h (invite_rows db code)) as H by (rewrite Hrows; now left).
    apply filter_In in H as [H Hc]. apply String.eqb_eq in Hc. auto. }
  cbn [hd_error] in Hrun. erewrite bind_Ok in Hrun by (apply membership_of_run, Hwf).
  destruct (hd_error (membership_rows db uid)) eqn:Hmr; [discriminate|].
  apply hd_error_None, membership_rows_nil in Hmr.
  apply bind_inv in Hrun as (mid & db1 & Hfresh & Hrun).
  injection Hfresh as <- <-. cbv zeta in Hrun.
  apply bind_inv in Hrun as ([] & db2 & Hadd & Hrun).
  apply db_add_membership_ok in Hadd as [-> Hu]. simpl in Hu.
  apply bind_inv in Hrun as ([] & db3 & Hupd & Hrun).
  rewrite update_current_household_run in Hupd by (simpl; apply Hwf).
  destruct (user_rows_present _ uid Hu) as [u0 Hu0].
  change (user_rows _ uid) with (user_rows db uid) in Hupd.
  rewrite Hu0 in Hupd. injection Hupd as <-.
  apply bind_inv in Hrun as ([] & db4 & Hgr & Hret).
  injection Hret as <- <-.
  apply grant_user_recipes_ok in Hgr as [(G1 & G2 & G3 & G4 & G5) Hall].
  simpl in *. exists h. destruct Hh as [Hh Hc].
  repeat split; auto.
Qed.

Lemma member_row_unique db hid uid m m0 :
  wf db -> hd_error (household_member_rows db hid uid) = Some m0 ->
  In m (memberships db) -> m_user_id m = uid -> m_household_id m = hid -> m0 = m.
Proof.
  intros Hwf Hhd Hm Hu Hh.
  apply (length_le1_In (household_member_rows db hid uid));
    [apply household_member_rows_le1, Hwf | now apply hd_error_In |].
  apply household_member_rows_In. auto.
Qed.

(** [update_member_role]: a user who is not a member of the household gets
    [None] and nothing changes; for a member, the role ["admin"] or
    ["member"] replaces the role of that one membership row, every other
    row being kept and the other tables untouched; any other role is
    rejected with the state unchanged, by the [String(20)] column
    ([DataError]) when it does not fit and otherwise by the [check_role]
    constraint ([IntegrityError]). *)
Theorem update_member_role_spec db hid uid r :
  wf db ->
  (~ member_of db uid hid ->
   HouseholdService.update_member_role hid uid r db = (Ok None, db)) /\
  (forall m, In m (memberships db) -> m_user_id m = uid -> m_household_id m = hid ->
   (r = "admin" \/ r = "member" ->
    exists db',
      HouseholdService.update_member_role hid uid r db =
        (Ok (Some (mkMembership (membership_id m) hid uid r)), db') /\
      (forall x, In x (memberships db') <->
         x = mkMembership (membership_id m) hid uid r \/
         (In x (memberships db) /\ x <> m)) /\
      users db' = users db /\ households db' = households db /\
      recipes db' = recipes db /\ accesses db' = accesses db) /\
   (varchar_fits 20 r = false ->
    HouseholdService.update_member_role hid uid r db = (Raise DataError, db)) /\
   (varchar_fits 20 r = true -> r <> "admin" -> r <> "member" ->
    HouseholdService.update_member_role hid uid r db = (Raise IntegrityError, db))).
Proof.
  intros Hwf. destruct (household_member_rows_hd db hid uid Hwf) as [Hno Hyes].
  unfold HouseholdService.update_member_role.
  erewrite bind_Ok by reflexivity.
  erewrite bind_Ok by (apply scalar_one_or_none_le1, household_member_rows_le1, Hwf).
  split.
  - intros Hn. rewrite (Hno Hn). reflexivity.
  - intros m Hm Hu Hh.
    destruct (Hyes (ex_intro _ m (conj Hm (conj Hu Hh)))) as (m0 & Hhd & _).
    rewrite Hhd. rewrite (member_row_unique db hid uid m m0 Hwf Hhd Hm Hu Hh).
    unfold set_membership_role, bind, get, put, ret, raise. split; [|split].
    + intros Hr.
      replace (varchar_fits 20 r) with true by (destruct Hr as [->| ->]; reflexivity).
      replace (String.eqb r "admin" || String.eqb r "member") with true
        by (destruct Hr as [->| ->]; reflexivity).
      eexists. split; [simpl; rewrite Hu, Hh; reflexivity|]. simpl.
      split; [|repeat split].
      intros x. rewrite in_map_iff. split.
      * intros (y & <- & Hy).
        destruct (Nat.eqb (membership_id y) (membership_id m)) eqn:E.
        -- apply Nat.eqb_eq in E.
           assert (y = m) as ->
             by exact (GrantSpec.NoDup_map_inv_eq _ _ _ _
                         (wf_membership_pk db Hwf) Hy Hm E).
           left. now rewrite Hu, Hh.
        -- right. split; [exact Hy|]. intros ->. now rewrite Nat.eqb_refl in E.
      * intros [-> | [Hx Hne]].
        -- exists m. rewrite Nat.eqb_refl, Hu, Hh. auto.
        -- exists x. split; [|exact Hx].
           destruct (Nat.eqb (membership_id x) (membership_id m)) eqn:E;
             [|reflexivity].
           apply Nat.eqb_eq in E. exfalso. apply Hne.
           exact (GrantSpec.NoDup_map_inv_eq _ _ _ _
                    (wf_membership_pk db Hwf) Hx Hm E).
    + intros Hlong. rewrite Hlong. reflexivity.
    + intros Hfit Ha Hmb. rewrite Hfit.
      apply String.eqb_neq in Ha, Hmb. rewrite Ha, Hmb. reflexivity.
Qed.

Lemma get_user_run db uid :
  NoDup (map user_id (users db)) ->
  get_user uid db = (Ok (hd_error (user_rows db uid)), db).
Proof.
  intros Hnd. unfold get_user. erewrite bind_Ok by reflexivity.
  apply scalar_one_or_none_le1, user_rows_le1, Hnd.
Qed.

(** [remove_member]: a user who is not a member of the household gets
    [False] and nothing changes; for a member, the call returns [True],
    exactly the user's membership row is deleted, the user's current
    household is cleared only when it was this household, and the
    households, recipes and access grants are untouched. *)
Theorem remove_member_spec db hid uid :
  wf db ->
  (~ member_of db uid hid ->
   HouseholdService.remove_member hid uid db = (Ok false, db)) /\
  (member_of db uid hid ->
   exists db',
     HouseholdService.remove_member hid uid db = (Ok true, db') /\
     (forall x, In x (memberships db') <->
                In x (memberships db) /\ m_user_id x <> uid) /\
     users db' =
       map (fun u => if Nat.eqb (user_id u) uid
                        && option_nat_eqb (current_household_id u) (Some hid)
                     then mkUser (user_id u) None else u) (users db) /\
     households db' = households db /\ recipes db' = recipes db /\
     accesses db' = accesses db).
Proof.
  intros Hwf. destruct (household_member_rows_hd db hid uid Hwf) as [Hno Hyes].
  unfold HouseholdService.remove_member.
  erewrite bind_Ok by reflexivity.
  erewrite bind_Ok by (apply scalar_one_or_none_le1, household_member_rows_le1, Hwf).
  split.
  - intros Hn. rewrite (Hno Hn). reflexivity.
  - intros Hmem. destruct (Hyes Hmem) as (m & Hhd & Hm & Hh & Hu). rewrite Hhd.
    erewrite bind_Ok by (apply get_user_run, Hwf).
    pose proof (wf_membership_user_fk db Hwf m Hm) as Hfk. rewrite Hu in Hfk.
    destruct (user_rows_present db uid Hfk) as [u0 Hu0]. rewrite Hu0.
    apply hd_error_In, filter_In in Hu0 as [Hu0 Hid0]. apply Nat.eqb_eq in Hid0.
    assert (Hsame : forall u, In u (users db) -> Nat.eqb (user_id u) uid = true -> u = u0).
    { intros u Hu' E. apply Nat.eqb_eq in E.
      apply (GrantSpec.NoDup_map_inv_eq _ _ _ _ (wf_user_pk db Hwf) Hu' Hu0). congruence. }
    assert (Hkeep : forall x, In x (filter (fun x => negb (Nat.eqb (membership_id x)
                                                          (membership_id m)))
                                      (memberships db)) <->
                              In x (memberships db) /\ m_user_id x <> uid).
    { intros x. rewrite filter_In. split.
      - intros [Hx Hneg]. split; [exact Hx|]. intros Hux.
        assert (x = m) as -> by
          (apply (GrantSpec.NoDup_map_inv_eq _ _ _ _
                    (wf_membership_user_unique db Hwf) Hx Hm); congruence).
        now rewrite Nat.eqb_refl in Hneg.
      - intros [Hx Hne]. split; [exact Hx|].
        destruct (Nat.eqb (membership_id x) (membership_id m)) eqn:E; [|reflexivity].
        apply Nat.eqb_eq in E. exfalso. apply Hne.
        rewrite (GrantSpec.NoDup_map_inv_eq _ _ _ _ (wf_membership_pk db Hwf) Hx Hm E).
        exact Hu. }
    destruct (option_nat_eqb (current_household_id u0) (Some hid)) eqn:Ec.
    + unfold bind, set_current_household, db_delete_membership, get, put, ret.
      eexists. split; [reflexivity|]. cbn [memberships users households recipes accesses
        set_memberships set_users].
      split; [exact Hkeep|]. split; [|auto].
      apply map_ext_in. intros u Hu'.
      destruct (Nat.eqb (user_id u) uid) eqn:E; [|reflexivity].
      rewrite (Hsame u Hu' E), Ec. reflexivity.
    + unfold bind, db_delete_membership, get, put, ret.
      eexists. split; [reflexivity|]. cbn [memberships users households recipes accesses
        set_memberships].
      split; [exact Hkeep|]. split; [|auto].
      transitivity (map (fun u => u) (users db)); [symmetry; apply map_id|].
      apply map_ext_in. intros u Hu'.
      destruct (Nat.eqb (user_id u) uid) eqn:E; [|reflexivity].
      rewrite (Hsame u Hu' E), Ec. reflexivity.
Qed.

Lemma filter_all_true {A} (f : A -> bool) (l : list A) :
  (forall x, In x l -> f x = true) -> filter f l = l.
Proof.
  induction l as [|a l IH]; simpl; intros H; [reflexivity|].
  rewrite (H a (or_introl eq_refl)), IH; auto.
Qed.

(** After a successful [join_household], [get_household_members] of the
    joined household lists the members it listed before, followed by the
    new member. *)
Theorem join_then_members db uid code m db' :
  wf db ->
  HouseholdService.join_household uid code db = (Ok (Some m), db') ->
  exists before,
    HouseholdService.get_household_members (m_household_id m) db = (Ok before, db) /\
    HouseholdService.get_household_members (m_household_id m) db' =
      (Ok (before ++ [uid]), db').
Proof.
  intros Hwf Hrun.
  destruct (join_household_ok db uid code m db' Hwf Hrun)
    as (h & _ & _ & -> & _ & _ & Hmem & _).
  eexists. split; [reflexivity|].
  unfold HouseholdService.get_household_members, execute.
  rewrite Hmem, filter_app, map_app. simpl. rewrite Nat.eqb_refl. reflexivity.
Qed.

(** [join_household] followed by [leave_household]: the leave finds the
    new membership and returns [True]; the membership table is back to what
    it was before the join, the user has no current household, and the
    access grants the join gave to the user's shared recipes are kept. *)
Theorem join_then_leave db uid code m db1 :
  wf db ->
  (forall x, In x (memberships db) -> membership_id x < next_id db) ->
  HouseholdService.join_household uid code db = (Ok (Some m), db1) ->
  exists db2,
    HouseholdService.leave_household uid db1 = (Ok true, db2) /\
    memberships db2 = memberships db /\
    users db2 = map (set_current uid None) (users db) /\
    accesses db2 = accesses db1 /\
    (forall r, In r (recipes db) -> recipe_user_id r = uid ->
               shared_with_household r = true ->
               has_grant db2 (recipe_id r) (m_household_id m)).
Proof.
  intros Hwf Hfresh Hrun.
  destruct (join_household_ok db uid code m db1 Hwf Hrun)
    as (h & _ & _ & -> & Hnm & Hin & Hmem & Hus & _ & _ & Hgr).
  assert (Hrows : membership_rows db1 uid =
                  [mkMembership (next_id db) (household_id h) uid "member"]).
  { unfold membership_rows. rewrite Hmem, filter_app.
    fold (membership_rows db uid). rewrite (proj2 (membership_rows_nil db uid) Hnm).
    simpl. rewrite Nat.eqb_refl. reflexivity. }
  assert (Hnd : NoDup (map user_id (users db1)))
    by (rewrite Hus, map_user_id_set_current; apply Hwf).
  assert (Hin1 : In uid (map user_id (users db1)))
    by (rewrite Hus, map_user_id_set_current; exact Hin).
  unfold HouseholdService.leave_household.
  erewrite bind_Ok.
  2:{ unfold membership_of. erewrite bind_Ok by reflexivity.
      change (filter _ (memberships db1)) with (membership_rows db1 uid).
      rewrite Hrows. reflexivity. }
  cbv beta iota.
  erewrite bind_Ok by (apply update_current_household_run, Hnd).
  destruct (user_rows_present db1 uid Hin1) as [u1 Hu1]. rewrite Hu1.
  unfold db_delete_membership, bind, get, put, ret.
  eexists. split; [reflexivity|].
  cbn [memberships users accesses set_memberships set_users].
  split; [|split; [|split; [reflexivity|]]].
  - rewrite Hmem, filter_app, filter_all_true.
    + simpl. rewrite Nat.eqb_refl. apply app_nil_r.
    + intros x Hx. apply negb_true_iff, Nat.eqb_neq.
      specialize (Hfresh x Hx). simpl. lia.
  - rewrite Hus, map_map. apply map_ext. intros u. unfold set_current.
    destruct (Nat.eqb (user_id u) uid) eqn:E; simpl; rewrite ?E; reflexivity.
  - intros r Hr Hur Hsh. exact (Hgr r Hr Hur Hsh).
Qed.

Lemma update_member_role_spec_witness :
  let db := mkDB [mkUser 1 (Some 5); mkUser 2 None] [mkHousehold 5 "Home" 1 "abc"]
    [mkMembership 6 5 1 "admin"] [mkRecipe 10 2 true [] "Soup"] [] [] [] 20 in
  wf db /\
  (exists db', HouseholdService.update_member_role 5 1 "member" db =
               (Ok (Some (mkMembership 6 5 1 "member")), db')) /\
  HouseholdService.update_member_role 5 1 "owner" db = (Raise IntegrityError, db) /\
  HouseholdService.update_member_role 5 1 "administrator-of-home" db =
    (Raise DataError, db).
Proof.
  intros db. assert (Hwf : wf db) by solve_wf.
  split; [exact Hwf|].
  destruct (update_member_role_spec db 5 1 "member" Hwf) as (_ & Hmem).
  destruct (Hmem (mkMembership 6 5 1 "admin") (or_introl eq_refl) eq_refl eq_refl)
    as (Hok & _ & _).
  destruct (Hok (or_intror eq_refl)) as (db' & Hrun & _).
  split; [exists db'; exact Hrun|].
  destruct (update_member_role_spec db 5 1 "owner" Hwf) as (_ & Hown).
  destruct (Hown (mkMembership 6 5 1 "admin") (or_introl eq_refl) eq_refl eq_refl)
    as (_ & _ & Hchk).
  split; [apply Hchk; [reflexivity|discriminate|discriminate]|].
  destruct (update_member_role_spec db 5 1 "administrator-of-home" Hwf) as (_ & Hlong).
  destruct (Hlong (mkMembership 6 5 1 "admin") (or_introl eq_refl) eq_refl eq_refl)
    as (_ & Hdat & _).
  apply Hdat. reflexivity.
Defined.

Lemma remove_member_spec_witness :
  let db := mkDB [mkUser 1 (Some 5); mkUser 2 None] [mkHousehold 5 "Home" 1 "abc"]
    [mkMembership 6 5 1 "admin"] [mkRecipe 10 2 true [] "Soup"] [] [] [] 20 in
  wf db /\ member_of db 1 5 /\
  exists db',
    HouseholdService.remove_member 5 1 db = (Ok true, db') /\
    (forall x, In x (memberships db') <->
               In x (memberships db) /\ m_user_id x <> 1) /\
    users db' =
      map (fun u => if Nat.eqb (user_id u) 1
                       && option_nat_eqb (current_household_id u) (Some 5)
                    then mkUser (user_id u) None else u) (users db) /\
    households db' = households db /\ recipes db' = recipes db /\
    accesses db' = accesses db.
Proof.
  intros db. assert (Hwf : wf db) by solve_wf.
  assert (Hm : member_of db 1 5)
    by (exists (mkMembership 6 5 1 "admin"); simpl; auto).
  split; [exact Hwf|]. split; [exact Hm|].
  exact (proj2 (remove_member_spec db 5 1 Hwf) Hm).
Defined.

Lemma join_then_members_witness :
  let db := mkDB [mkUser 1 (Some 5); mkUser 2 None] [mkHousehold 5 "Home" 1 "abc"]
    [mkMembership 6 5 1 "admin"] [mkRecipe 10 2 true [] "Soup"] [] [] [] 20 in
  let db1 := mkDB [mkUser 1 (Some 5); mkUser 2 (Some 5)] [mkHousehold 5 "Home" 1 "abc"]
    [mkMembership 6 5 1 "admin"; mkMembership 20 5 2 "member"]
    [mkRecipe 10 2 true [] "Soup"] [mkAccess 21 10 5 2] [] [] 22 in
  wf db /\
  HouseholdService.join_household 2 "abc" db =
    (Ok (Some (mkMembership 20 5 2 "member")), db1) /\
  exists before,
    HouseholdService.get_household_members 5 db = (Ok before, db) /\
    HouseholdService.get_household_members 5 db1 = (Ok (before ++ [2]), db1).
Proof.
  intros db db1. assert (Hwf : wf db) by solve_wf.
  assert (Hrun : HouseholdService.join_household 2 "abc" db =
                 (Ok (Some (mkMembership 20 5 2 "member")), db1)) by reflexivity.
  split; [exact Hwf|]. split; [exact Hrun|].
  exact (join_then_members db 2 "abc" _ db1 Hwf Hrun).
Defined.

Lemma join_then_leave_witness :
  let db := mkDB [mkUser 1 (Some 5); mkUser 2 None] [mkHousehold 5 "Home" 1 "abc"]
    [mkMembership 6 5 1 "admin"] [mkRecipe 10 2 true [] "Soup"] [] [] [] 20 in
  let db1 := mkDB [mkUser 1 (Some 5); mkUser 2 (Some 5)] [mkHousehold 5 "Home" 1 "abc"]
    [mkMembership 6 5 1 "admin"; mkMembership 20 5 2 "member"]
    [mkRecipe 10 2 true [] "Soup"] [mkAccess 21 10 5 2] [] [] 22 in
  wf db /\
  (forall x, In x (memberships db) -> membership_id x < next_id db) /\
  HouseholdService.join_household 2 "abc" db =
    (Ok (Some (mkMembership 20 5 2 "member")), db1) /\
  exists db2,
    HouseholdService.leave_household 2 db1 = (Ok true, db2) /\
    memberships db2 = memberships db /\
    users db2 = map (set_current 2 None) (users db) /\
    accesses db2 = accesses db1 /\
    (forall r, In r (recipes db) -> recipe_user_id r = 2 ->
               shared_with_household r = true -> has_grant db2 (recipe_id r) 5).
Proof.
  intros db db1. assert (Hwf : wf db) by solve_wf.
  assert (Hfr : forall x, In x (memberships db) -> membership_id x < next_id db)
    by solve_forall_in.
  assert (Hrun : HouseholdService.join_household 2 "abc" db =
                 (Ok (Some (mkMembership 20 5 2 "member")), db1)) by reflexivity.
  split; [exact Hwf|]. split; [exact Hfr|]. split; [exact Hrun|].
  exact (join_then_leave db 2 "abc" _ db1 Hwf Hfr Hrun).
Defined.

End MemberSpec.

(** ** Meal plans and shopping lists *)

Module PlanSpec.
Import ShoppingListService.

Lemma get_user_household_run db uid :
  wf db -> get_user_household uid db = (Ok (hd_error (user_household_rows db uid)), db).
Proof.
  intros Hwf. unfold get_user_household. erewrite bind_Ok by reflexivity.
  apply scalar_one_or_none_le1, user_household_rows_le1, Hwf.
Qed.

Lemma user_household_rows_nil db uid :
  ~ has_membership db uid -> user_household_rows db uid = [].
Proof.
  intros Hno. unfold user_household_rows.
  change (filter _ (memberships db)) with (membership_rows db uid).
  rewrite (proj2 (membership_rows_nil db uid) Hno). reflexivity.
Qed.

Lemma db_add_meal_plan_ok mp owner db db' :
  db_add_meal_plan mp owner db = (Ok tt, db') ->
  db' = set_meal_plans db (meal_plans db ++ [mp]) /\
  existsb (fun x => Nat.eqb (meal_plan_id x) (meal_plan_id mp)) (meal_plans db) = false.
Proof.
  unfold db_add_meal_plan, bind, get, put, raise.
  destruct (existsb _ _ || _ || _) eqn:Hc; intros H; inversion H; subst.
  split; [reflexivity|]. apply orb_false_iff in Hc as [Hc _].
  apply orb_false_iff in Hc as [Hc _]. exact Hc.
Qed.

Lemma filter_all_false_nil {A} (f : A -> bool) (l : list A) :
  (forall x, In x l -> f x = false) -> filter f l = [].
Proof.
  induction l as [|a l IH]; simpl; intros H; [reflexivity|].
  rewrite (H a (or_introl eq_refl)). apply IH. auto.
Qed.

Lemma get_meal_plan_run db mpid mp :
  NoDup (map meal_plan_id (meal_plans db)) -> In mp (meal_plans db) ->
  meal_plan_id mp = mpid -> get_meal_plan mpid db = (Ok (Some mp), db).
Proof.
  intros Hnd Hin Hid. unfold get_meal_plan. erewrite bind_Ok by reflexivity.
  assert (Hle : List.length (filter (fun x => Nat.eqb (meal_plan_id x) mpid)
                                    (meal_plans db)) <= 1).
  { apply (filter_key_le1 meal_plan_id); [exact Hnd|].
    intros x y Hx Hy. apply Nat.eqb_eq in Hx, Hy. congruence. }
  rewrite (scalar_one_or_none_le1 _ _ Hle).
  assert (Hmp : In mp (filter (fun x => Nat.eqb (meal_plan_id x) mpid) (meal_plans db)))
    by (apply filter_In; split; [exact Hin|]; now apply Nat.eqb_eq).
  destruct (filter _ (meal_plans db)) as [|x rest] eqn:E; [contradiction|].
  assert (x = mp) as -> by (eapply length_le1_In; eauto; now left). reflexivity.
Qed.

Lemma db_add_meal_plan_household mp owner db db' :
  db_add_meal_plan mp owner db = (Ok tt, db') ->
  In (mp_household_id mp) (map household_id (households db)).
Proof.
  unfold db_add_meal_plan, bind, get, put, raise.
  destruct (existsb _ _ || _ || _) eqn:Hc; intros H; inversion H; subst.
  apply orb_false_iff in Hc as [Hc _]. apply orb_false_iff in Hc as [_ Hc].
  apply negb_false_iff in Hc. now apply (existsb_nat_In household_id).
Qed.

Lemma meal_plan_rows_single db mp :
  NoDup (map meal_plan_id (meal_plans db)) -> In mp (meal_plans db) ->
  meal_plan_rows db (meal_plan_id mp) = [mp].
Proof.
  intros Hnd Hin. unfold meal_plan_rows.
  assert (Hle : List.length (filter (fun x => Nat.eqb (meal_plan_id x) (meal_plan_id mp))
                                    (meal_plans db)) <= 1).
  { apply (filter_key_le1 meal_plan_id); [exact Hnd|].
    intros x y Hx Hy. apply Nat.eqb_eq in Hx, Hy. congruence. }
  assert (Hmp : In mp (filter (fun x => Nat.eqb (meal_plan_id x) (meal_plan_id mp))
                         (meal_plans db)))
    by (apply filter_In; split; [exact Hin|]; apply Nat.eqb_refl).
  destruct (filter _ (meal_plans db)) as [|x [|y rest]] eqn:E;
    [contradiction| |simpl in Hle; lia].
  destruct Hmp as [->|[]]. reflexivity.
Qed.

(** [create_meal_plan]: a user without a household gets the [ValueError]
    and nothing is written; a member of household [hid] gets a new plan of
    that household, with the given name and no planned meals, stored after
    the existing plans. *)
Theorem create_meal_plan_spec db uid name :
  wf db ->
  (~ has_membership db uid ->
   MealPlanService.create_meal_plan uid name db =
     (Raise (ValueError "User must be in a household to create meal plans"), db)) /\
  (forall hid, member_of db uid hid ->
   (forall x, In x (meal_plans db) -> meal_plan_id x < next_id db) ->
   MealPlanService.create_meal_plan uid name db =
     (Ok (mkMealPlan (next_id db) hid name []),
      set_meal_plans (set_next_id db (S (next_id db)))
        (meal_plans db ++ [mkMealPlan (next_id db) hid name []]))).
Proof.
  intros Hwf. unfold MealPlanService.create_meal_plan.
  erewrite bind_Ok by (apply get_user_household_run, Hwf). split.
  - intros Hno. rewrite user_household_rows_nil by exact Hno. reflexivity.
  - intros hid Hmem Hfresh.
    destruct (member_of_user_household db uid hid Hwf Hmem) as (h & Hh & <-).
    rewrite Hh. apply hd_error_In, user_household_rows_In in Hh as [Hh _].
    destruct Hmem as (m & Hm & Hu & _).
    pose proof (wf_membership_user_fk db Hwf m Hm) as Huser. rewrite Hu in Huser.
    unfold db_add_meal_plan, fresh_id, bind, get, put, ret. cbn [meal_plans
      households users set_next_id meal_plan_id mp_household_id].
    replace (existsb (fun x => Nat.eqb (meal_plan_id x) (next_id db)) (meal_plans db))
      with false.
    2:{ symmetry. apply not_true_iff_false. intros Hex.
        apply existsb_exists in Hex as (x & Hx & E). apply Nat.eqb_eq in E.
        specialize (Hfresh x Hx). lia. }
    replace (existsb (fun x => Nat.eqb (household_id x) (household_id h)) (households db))
      with true.
    2:{ symmetry. apply existsb_exists. exists h. split; [exact Hh|]. apply Nat.eqb_refl. }
    replace (existsb (fun u => Nat.eqb (user_id u) uid) (users db)) with true.
    2:{ symmetry. apply existsb_exists. apply in_map_iff in Huser as (u & Hid & Hin).
        exists u. split; [exact Hin|]. now apply Nat.eqb_eq. }
    reflexivity.
Qed.

(** A plan that [create_meal_plan] has just created can be turned into a
    shopping list at once, in any session: when the user id names a user
    and the list name fits its column, [generate_shopping_list_from_meal_plan]
    finds the plan, files the list under the plan's household and, the plan
    having no planned meals yet, produces no items. *)
Theorem create_meal_plan_then_generate im db uid name mp db1 uid' :
  MealPlanService.create_meal_plan uid name db = (Ok mp, db1) ->
  In uid' (map user_id (users db1)) ->
  varchar_fits 255 (shopping_list_name mp) = true ->
  planned_meals mp = [] /\
  generate_shopping_list_from_meal_plan im uid' (meal_plan_id mp) db1 =
    (Ok (mkShoppingList (next_id db1) uid' (mp_household_id mp)
           (Some (meal_plan_id mp)) []),
     set_next_id db1 (S (next_id db1))).
Proof.
  intros Hrun Hu Hn. unfold MealPlanService.create_meal_plan in Hrun.
  apply bind_inv in Hrun as (uh & dbA & _ & Hrun).
  destruct uh as [h|]; [|discriminate].
  apply bind_inv in Hrun as (mid & dbB & Hfresh & Hrun).
  injection Hfresh as <- <-. cbv zeta in Hrun.
  apply bind_inv in Hrun as ([] & dbC & Hadd & Hret).
  injection Hret as <- <-.
  pose proof (db_add_meal_plan_household _ _ _ _ Hadd) as Hh.
  apply db_add_meal_plan_ok in Hadd as [-> Hnew]. split; [reflexivity|].
  set (mp := mkMealPlan (next_id dbA) (household_id h) name []) in *.
  set (db1 := set_meal_plans (set_next_id dbA (S (next_id dbA)))
                (meal_plans (set_next_id dbA (S (next_id dbA))) ++ [mp])) in *.
  assert (Hrows : meal_plan_rows db1 (meal_plan_id mp) = [mp]).
  { unfold meal_plan_rows, db1. cbn [meal_plans set_meal_plans].
    rewrite filter_app.
    replace (filter _ (meal_plans (set_next_id dbA (S (next_id dbA))))) with
      (@nil MealPlan).
    2:{ symmetry. apply filter_all_false_nil. intros x Hx.
        apply not_true_iff_false. intros E.
        exact (eq_true_false_abs _
                 (proj2 (existsb_exists _ _) (ex_intro _ x (conj Hx E))) Hnew). }
    cbn. rewrite Nat.eqb_refl. reflexivity. }
  exact (generate_loaded_run im db1 uid' (meal_plan_id mp) mp Hrows Hn Hu Hh
           (fun pm r Hpm _ => False_ind _ Hpm) (fun l Hl => False_ind _ Hl)
           (fun l Hl => False_ind _ Hl) (fun l Hl => False_ind _ Hl)).
Qed.

Lemma existsb_meal_plan_id id l :
  existsb (fun mp => Nat.eqb (meal_plan_id mp) id) l = true <->
  In id (map meal_plan_id l).
Proof.
  rewrite existsb_exists, in_map_iff. split.
  - intros (x & Hx & E). apply Nat.eqb_eq in E. eauto.
  - intros (x & E & Hx). exists x. split; [exact Hx|]. now apply Nat.eqb_eq.
Qed.

(** [create_shopping_list]: without a household the [ValueError] is raised
    and nothing is written; a member of household [hid] gets an empty list
    of that household, carrying the given meal plan id when that plan
    exists; a meal plan id that names no plan is refused by the foreign key
    of [shopping_lists.meal_plan_id]. *)
Theorem create_shopping_list_spec db uid mpid :
  wf db ->
  (~ has_membership db uid ->
   create_shopping_list uid mpid db =
     (Raise (ValueError "User must be in a household to create shopping lists"), db)) /\
  (forall hid, member_of db uid hid ->
   (forall id, mpid = Some id -> In id (map meal_plan_id (meal_plans db))) ->
   create_shopping_list uid mpid db =
     (Ok (mkShoppingList (next_id db) uid hid mpid []), set_next_id db (S (next_id db)))) /\
  (forall id, mpid = Some id -> ~ In id (map meal_plan_id (meal_plans db)) ->
   has_membership db uid ->
   fst (create_shopping_list uid mpid db) = Raise IntegrityError).
Proof.
  intros Hwf. unfold create_shopping_list.
  erewrite bind_Ok by (apply get_user_household_run, Hwf). split; [|split].
  - intros Hno. rewrite user_household_rows_nil by exact Hno. reflexivity.
  - intros hid Hmem Hex.
    destruct (member_of_user_household db uid hid Hwf Hmem) as (h & Hh & <-).
    rewrite Hh. unfold fresh_id, bind, get, ret, raise.
    cbn [meal_plans set_next_id next_id].
    destruct mpid as [id|]; [|reflexivity].
    rewrite (proj2 (existsb_meal_plan_id id (meal_plans db)) (Hex id eq_refl)).
    reflexivity.
  - intros id -> Hnot (m & Hm & Hu).
    destruct (member_of_user_household db uid (m_household_id m) Hwf
                (ex_intro _ m (conj Hm (conj Hu eq_refl)))) as (h & Hh & _).
    rewrite Hh. unfold fresh_id, bind, get, ret, raise.
    cbn [meal_plans set_next_id next_id].
    destruct (existsb _ (meal_plans db)) eqn:E; [|reflexivity].
    apply existsb_meal_plan_id in E. contradiction.
Qed.

(** The household check of [create_shopping_list] is not made by
    [generate_shopping_list_from_meal_plan]: for a user in no household,
    creating a list for an existing meal plan raises the [ValueError], while
    generating one from the same plan, in a session where the list row and
    its items pass their checks and every lazy load is served, succeeds and
    files the list under the plan's household. *)
Theorem generate_without_household im db uid mp :
  wf db -> NoDup (map meal_plan_id (meal_plans db)) -> In mp (meal_plans db) ->
  ~ has_membership db uid ->
  let lines := meal_lines db (planned_meals mp) in
  In uid (map user_id (users db)) ->
  varchar_fits 255 (shopping_list_name mp) = true ->
  In (mp_household_id mp) (map household_id (households db)) ->
  (forall pm r, In pm (planned_meals mp) -> load_recipe db pm = Some r ->
     In (recipe_id r) (loaded_recipe_ingredients im)) ->
  (forall l, In l lines -> In (ri_ingredient_id l) (loaded_ingredients im)) ->
  (forall l, In l lines -> In (ri_ingredient_id l) (map ingredient_id (ingredients db))) ->
  (forall l, In l lines -> decimal_10_2_fits (key_sum (ri_ingredient_id l) lines) = true) ->
  create_shopping_list uid (Some (meal_plan_id mp)) db =
    (Raise (ValueError "User must be in a household to create shopping lists"), db) /\
  exists sl db',
    generate_shopping_list_from_meal_plan im uid (meal_plan_id mp) db = (Ok sl, db') /\
    sl_user_id sl = uid /\ sl_household_id sl = mp_household_id mp.
Proof.
  intros Hwf Hnd Hin Hno lines Hu Hn Hh Hr Hl Hfk Hfit. split.
  - unfold create_shopping_list.
    erewrite bind_Ok by (apply get_user_household_run, Hwf).
    rewrite user_household_rows_nil by exact Hno. reflexivity.
  - rewrite (generate_loaded_run im db uid (meal_plan_id mp) mp
               (meal_plan_rows_single db mp Hnd Hin) Hn Hu Hh Hr Hl Hfk Hfit).
    do 2 eexists. split; [reflexivity|]. split; reflexivity.
Qed.

Lemma create_meal_plan_spec_witness :
  let db := mkDB [mkUser 1 (Some 5); mkUser 2 None] [mkHousehold 5 "Home" 1 "abc"]
    [mkMembership 6 5 1 "admin"] [] [] [] [mkMealPlan 30 5 None []] 40 in
  wf db /\ member_of db 1 5 /\
  MealPlanService.create_meal_plan 1 (Some "Week") db =
    (Ok (mkMealPlan 40 5 (Some "Week") []),
     set_meal_plans (set_next_id db 41)
       [mkMealPlan 30 5 None []; mkMealPlan 40 5 (Some "Week") []]).
Proof.
  intros db. assert (Hwf : wf db) by solve_wf.
  assert (Hm : member_of db 1 5)
    by (exists (mkMembership 6 5 1 "admin"); simpl; auto).
  assert (Hfr : forall x, In x (meal_plans db) -> meal_plan_id x < next_id db)
    by (unfold db; solve_forall_in).
  split; [exact Hwf|]. split; [exact Hm|].
  exact (proj2 (create_meal_plan_spec db 1 (Some "Week") Hwf) 5 Hm Hfr).
Defined.

Lemma create_meal_plan_then_generate_witness :
  let db := mkDB [mkUser 1 (Some 5); mkUser 2 None] [mkHousehold 5 "Home" 1 "abc"]
    [mkMembership 6 5 1 "admin"] [] [] [] [mkMealPlan 30 5 None []] 40 in
  let db1 := set_meal_plans (set_next_id db 41)
               [mkMealPlan 30 5 None []; mkMealPlan 40 5 (Some "Week") []] in
  MealPlanService.create_meal_plan 1 (Some "Week") db =
    (Ok (mkMealPlan 40 5 (Some "Week") []), db1) /\
  In 2 (map user_id (users db1)) /\
  varchar_fits 255 (shopping_list_name (mkMealPlan 40 5 (Some "Week") [])) = true /\
  planned_meals (mkMealPlan 40 5 (Some "Week") []) = [] /\
  generate_shopping_list_from_meal_plan (mkIdentityMap [] []) 2 40 db1 =
    (Ok (mkShoppingList 41 2 5 (Some 40) []), set_next_id db1 42).
Proof.
  intros db db1.
  assert (Hrun : MealPlanService.create_meal_plan 1 (Some "Week") db =
                 (Ok (mkMealPlan 40 5 (Some "Week") []), db1)) by reflexivity.
  assert (Hu : In 2 (map user_id (users db1))) by (simpl; auto).
  assert (Hn : varchar_fits 255 (shopping_list_name (mkMealPlan 40 5 (Some "Week") []))
               = true) by reflexivity.
  split; [exact Hrun|]. split; [exact Hu|]. split; [exact Hn|].
  exact (create_meal_plan_then_generate (mkIdentityMap [] []) db 1 (Some "Week") _ db1 2
           Hrun Hu Hn).
Defined.

Lemma create_shopping_list_spec_witness :
  let db := mkDB [mkUser 1 (Some 5); mkUser 2 None] [mkHousehold 5 "Home" 1 "abc"]
    [mkMembership 6 5 1 "admin"] [] [] [] [mkMealPlan 30 5 None []] 40 in
  wf db /\ member_of db 1 5 /\
  create_shopping_list 1 (Some 30) db =
    (Ok (mkShoppingList 40 1 5 (Some 30) []), set_next_id db 41).
Proof.
  intros db. assert (Hwf : wf db) by solve_wf.
  assert (Hm : member_of db 1 5)
    by (exists (mkMembership 6 5 1 "admin"); simpl; auto).
  assert (Hex : forall id, Some 30 = Some id -> In id (map meal_plan_id (meal_plans db)))
    by (intros id H; injection H as <-; simpl; auto).
  split; [exact Hwf|]. split; [exact Hm|].
  exact (proj1 (proj2 (create_shopping_list_spec db 1 (Some 30) Hwf)) 5 Hm Hex).
Defined.

Lemma generate_without_household_witness :
  let db := mkDB [mkUser 1 (Some 5); mkUser 2 None] [mkHousehold 5 "Home" 1 "abc"]
    [mkMembership 6 5 1 "admin"]
    [mkRecipe 10 1 true [mkRecipeIngredient 20 (Some 200%Z) (Some "cup")] "Bread"] []
    [mkIngredient 20 "flour" None]
    [mkMealPlan 30 5 None [mkPlannedMeal 10 false]] 40 in
  let mp := mkMealPlan 30 5 None [mkPlannedMeal 10 false] in
  let im := mkIdentityMap [10] [20] in
  wf db /\ NoDup (map meal_plan_id (meal_plans db)) /\
  In mp (meal_plans db) /\ ~ has_membership db 2 /\
  create_shopping_list 2 (Some 30) db =
    (Raise (ValueError "User must be in a household to create shopping lists"), db) /\
  generate_shopping_list_from_meal_plan im 2 30 db =
    (Ok (mkShoppingList 40 2 5 (Some 30) [mkShoppingListItem 20 200%Z (Some "cup") None]),
     set_next_id db 41) /\
  exists sl db',
    generate_shopping_list_from_meal_plan im 2 30 db = (Ok sl, db') /\
    sl_user_id sl = 2 /\ sl_household_id sl = 5.
Proof.
  intros db mp im. assert (Hwf : wf db) by solve_wf.
  assert (Hnd : NoDup (map meal_plan_id (meal_plans db))) by (simpl; solve_nodup).
  assert (Hin : In mp (meal_plans db)) by (simpl; auto).
  assert (Hno : ~ has_membership db 2)
    by (intros (m & Hm & Hu); destruct Hm as [<-|[]]; discriminate).
  split; [exact Hwf|]. split; [exact Hnd|]. split; [exact Hin|]. split; [exact Hno|].
  assert (Hlines : forall l, In l (meal_lines db (planned_meals mp)) ->
                   l = mkRecipeIngredient 20 (Some 200%Z) (Some "cup")).
  { intros l Hl. simpl in Hl. destruct Hl as [<-|[]]. reflexivity. }
  destruct (generate_without_household im db 2 mp Hwf Hnd Hin Hno)
    as [Hcreate Hgen].
  - simpl; auto.
  - reflexivity.
  - simpl; auto.
  - intros pm r Hpm Hr. simpl in Hpm. destruct Hpm as [<-|[]].
    injection Hr as <-. simpl. auto.
  - intros l Hl. rewrite (Hlines l Hl). simpl. auto.
  - intros l Hl. rewrite (Hlines l Hl). simpl. auto.
  - intros l Hl. rewrite (Hlines l Hl). reflexivity.
  - split; [exact Hcreate|]. split; [vm_compute; reflexivity|]. exact Hgen.
Defined.

End PlanSpec.

(** ** Listing recipes *)

Module ListingSpec.
Import RecipeService.

Lemma limit_offset_In {A} (limit offset : nat) (rows : list A) x :
  In x (limit_offset limit offset rows) -> In x rows.
Proof.
  unfold limit_offset. intros H.
  assert (In x (skipn offset rows)) as H'.
  { rewrite <- (firstn_skipn limit (skipn offset rows)). apply in_app_iff. now left. }
  rewrite <- (firstn_skipn offset rows). apply in_app_iff. now right.
Qed.

Lemma recipe_join_rows_In db r oa m :
  In (r, oa, m) (recipe_join_rows db) <->
  In r (recipes db) /\ In m (memberships db) /\
  exists a, oa = Some a /\ In a (accesses db) /\ ac_recipe_id a = recipe_id r /\
            ac_household_id a = m_household_id m.
Proof.
  unfold recipe_join_rows. rewrite in_flat_map. split.
  - intros (r' & Hr' & Hin). apply in_flat_map in Hin as (oa' & Houter & Hin).
    apply in_flat_map in Hin as (m' & Hm' & Hin).
    destruct oa' as [a|]; [|contradiction].
    destruct (Nat.eqb (ac_household_id a) (m_household_id m')) eqn:E;
      [|contradiction].
    destruct Hin as [Heq|[]]. injection Heq as <- <- <-.
    apply Nat.eqb_eq in E.
    assert (Ha : In a (filter (fun a => Nat.eqb (ac_recipe_id a) (recipe_id r'))
                          (accesses db))).
    { destruct (filter _ (accesses db)) as [|g gs];
        [destruct Houter as [Hx|[]]; discriminate|].
      apply in_map_iff in Houter as (a' & Ha' & Hin). injection Ha' as ->. exact Hin. }
    apply filter_In in Ha as [Ha Hid]. apply Nat.eqb_eq in Hid.
    split; [exact Hr'|]. split; [exact Hm'|]. exists a. auto.
  - intros (Hr & Hm & a & -> & Ha & Hid & Hh). exists r. split; [exact Hr|].
    apply in_flat_map. exists (Some a). split.
    + assert (Hg : In a (filter (fun a => Nat.eqb (ac_recipe_id a) (recipe_id r))
                          (accesses db)))
        by (apply filter_In; split; [exact Ha|]; now apply Nat.eqb_eq).
      destruct (filter _ (accesses db)) as [|g gs]; [contradiction|].
      now apply in_map.
    + apply in_flat_map. exists m. split; [exact Hm|].
      rewrite Hh, Nat.eqb_refl. now left.
Qed.

Lemma accessible_rows_In db uid r :
  In r (accessible_rows db uid) ->
  In r (recipes db) /\
  (recipe_user_id r = uid \/
   exists m a, In m (memberships db) /\ m_user_id m = uid /\ In a (accesses db) /\
               ac_recipe_id a = recipe_id r /\ ac_household_id a = m_household_id m) /\
  exists a, In a (accesses db) /\ ac_recipe_id a = recipe_id r.
Proof.
  unfold accessible_rows. intros H.
  apply in_map_iff in H as [[[r' oa] m] [<- H]].
  apply filter_In in H as [Hrow Hcond].
  apply recipe_join_rows_In in Hrow as (Hr & Hm & a & -> & Ha & Hid & Hh).
  split; [exact Hr|]. split; [|eauto].
  apply orb_true_iff in Hcond as [E|E]; apply Nat.eqb_eq in E; [now left|].
  right. exists m, a. auto.
Qed.

Section Listing.

Variable order_by_created_at_desc : list Recipe -> list Recipe.

(** The ordering only reorders (or drops) the selected rows. *)
Hypothesis order_sub : forall l x, In x (order_by_created_at_desc l) -> In x l.

(** Every recipe that [get_household_recipes] returns is a stored recipe
    that [can_user_access_recipe] accepts for the user. *)
Theorem get_household_recipes_sound db uid limit offset :
  wf db ->
  exists rs,
    get_household_recipes order_by_created_at_desc uid limit offset db = (Ok rs, db) /\
    forall r, In r rs ->
      In r (recipes db) /\ can_user_access_recipe (recipe_id r) uid db = (Ok true, db).
Proof.
  intros Hwf.
  assert (Hacc : forall r, In r (recipes db) ->
            (owns_recipe db (recipe_id r) uid \/
             exists hid, member_of db uid hid /\ has_grant db (recipe_id r) hid) ->
            can_user_access_recipe (recipe_id r) uid db = (Ok true, db)).
  { intros r Hr Hcond. destruct (GrantSpec.access_check_run db (recipe_id r) uid Hwf)
      as (b & Hrun & Hiff). rewrite Hrun. now rewrite (proj2 Hiff Hcond). }
  assert (Hes : exists es,
            get_accessible_recipes order_by_created_at_desc uid limit offset db =
              (Ok es, db) /\
            forall e, In e es -> In (entry_recipe e) (recipes db) /\
              can_user_access_recipe (recipe_id (entry_recipe e)) uid db = (Ok true, db)).
  { unfold get_accessible_recipes.
    rewrite (bind_Ok _ _ _ _ _ (PlanSpec.get_user_household_run db uid Hwf)).
    destruct (hd_error (user_household_rows db uid)) as [h|].
    - eexists. split; [reflexivity|]. intros e Hin.
      apply in_map_iff in Hin as (r & He & Hin).
      assert (entry_recipe e = r) as ->
        by (rewrite <- He; destruct (Nat.eqb (recipe_user_id r) uid); reflexivity).
      apply limit_offset_In, order_sub, accessible_rows_In in Hin
        as (Hr & Hcond & _).
      split; [exact Hr|]. apply Hacc; [exact Hr|].
      destruct Hcond as [Hown|(m & a & Hm & Hu & Ha & Hid & Hh)].
      + left. exists r. auto.
      + right. exists (m_household_id m). split.
        * exists m. auto.
        * exists a. auto.
    - erewrite bind_Ok by reflexivity.
      eexists. split; [reflexivity|]. intros e Hin.
      apply in_map_iff in Hin as (r & <- & Hin).
      apply limit_offset_In, order_sub, filter_In in Hin as [Hr Hu].
      apply Nat.eqb_eq in Hu. split; [exact Hr|]. apply Hacc; [exact Hr|].
      left. exists r. auto. }
  destruct Hes as (es & Hrun & Hall).
  unfold get_household_recipes. rewrite (bind_Ok _ _ _ _ _ Hrun).
  eexists. split; [reflexivity|]. intros r Hin.
  apply in_map_iff in Hin as (e & <- & He). apply Hall, He.
Qed.

(** For a user in a household, a recipe of the user's own that has no
    access grant at all is never listed by [get_accessible_recipes] (the
    inner join on the grant's household drops it), although
    [can_user_access_recipe] accepts it. *)
Theorem own_ungranted_recipe_not_listed db uid limit offset r :
  wf db -> has_membership db uid ->
  In r (recipes db) -> recipe_user_id r = uid ->
  (forall a, In a (accesses db) -> ac_recipe_id a <> recipe_id r) ->
  can_user_access_recipe (recipe_id r) uid db = (Ok true, db) /\
  exists es,
    get_accessible_recipes order_by_created_at_desc uid limit offset db = (Ok es, db) /\
    forall e, In e es -> recipe_id (entry_recipe e) <> recipe_id r.
Proof.
  intros Hwf (m & Hm & Hu) Hr Hown Hnog. split.
  - destruct (GrantSpec.access_check_run db (recipe_id r) uid Hwf) as (b & Hrun & Hiff).
    rewrite Hrun. rewrite (proj2 Hiff); [reflexivity|]. left. exists r. auto.
  - unfold get_accessible_recipes.
    rewrite (bind_Ok _ _ _ _ _ (PlanSpec.get_user_household_run db uid Hwf)).
    destruct (member_of_user_household db uid (m_household_id m) Hwf
                (ex_intro _ m (conj Hm (conj Hu eq_refl)))) as (h & Hh & _).
    rewrite Hh. eexists. split; [reflexivity|]. intros e Hin.
    apply in_map_iff in Hin as (r' & He & Hin).
    assert (entry_recipe e = r') as ->
      by (rewrite <- He; destruct (Nat.eqb (recipe_user_id r') uid); reflexivity).
    apply limit_offset_In, order_sub, accessible_rows_In in Hin
      as (_ & _ & a & Ha & Hid) .
    intros E. exact (Hnog a Ha (eq_trans Hid E)).
Qed.

End Listing.

Lemma get_household_recipes_sound_witness :
  let db := mkDB [mkUser 1 (Some 5); mkUser 2 (Some 5)] [mkHousehold 5 "Home" 1 "abc"]
    [mkMembership 6 5 1 "admin"; mkMembership 7 5 2 "member"]
    [mkRecipe 10 1 false [] "Soup"; mkRecipe 11 2 true [] "Soup"] [mkAccess 21 11 5 2] [] [] 30 in
  wf db /\ (forall (l : list Recipe) x, In x (rev l) -> In x l) /\
  exists rs,
    get_household_recipes (@rev Recipe) 1 50 0 db = (Ok rs, db) /\
    forall r, In r rs ->
      In r (recipes db) /\ can_user_access_recipe (recipe_id r) 1 db = (Ok true, db).
Proof.
  intros db. assert (Hwf : wf db) by solve_wf.
  assert (Hord : forall (l : list Recipe) x, In x (rev l) -> In x l)
    by (intros l x H; apply in_rev; exact H).
  split; [exact Hwf|]. split; [exact Hord|].
  exact (get_household_recipes_sound (@rev Recipe) Hord db 1 50 0 Hwf).
Defined.

Lemma own_ungranted_recipe_not_listed_witness :
  let db := mkDB [mkUser 1 (Some 5); mkUser 2 (Some 5)] [mkHousehold 5 "Home" 1 "abc"]
    [mkMembership 6 5 1 "admin"; mkMembership 7 5 2 "member"]
    [mkRecipe 10 1 false [] "Soup"; mkRecipe 11 2 true [] "Soup"] [mkAccess 21 11 5 2] [] [] 30 in
  wf db /\ (forall (l : list Recipe) x, In x (rev l) -> In x l) /\ has_membership db 1 /\
  In (mkRecipe 10 1 false [] "Soup") (recipes db) /\
  (forall a, In a (accesses db) -> ac_recipe_id a <> 10) /\
  can_user_access_recipe 10 1 db = (Ok true, db) /\
  exists es,
    get_accessible_recipes (@rev Recipe) 1 50 0 db = (Ok es, db) /\
    forall e, In e es -> recipe_id (entry_recipe e) <> 10.
Proof.
  intros db. assert (Hwf : wf db) by solve_wf.
  assert (Hord : forall (l : list Recipe) x, In x (rev l) -> In x l)
    by (intros l x H; apply in_rev; exact H).
  assert (Hm : has_membership db 1) by (exists (mkMembership 6 5 1 "admin"); simpl; auto).
  assert (Hr : In (mkRecipe 10 1 false [] "Soup") (recipes db)) by (simpl; auto).
  assert (Hng : forall a, In a (accesses db) -> ac_recipe_id a <> 10)
    by (intros a [<-|[]]; discriminate).
  split; [exact Hwf|]. split; [exact Hord|]. split; [exact Hm|]. split; [exact Hr|].
  split; [exact Hng|].
  exact (own_ungranted_recipe_not_listed (@rev Recipe) Hord db 1 50 0 _ Hwf Hm Hr
           eq_refl Hng).
Defined.

End ListingSpec.

(** ** Copying a recipe *)

Module CopySpec.
Import RecipeService.

Lemma get_recipe_run db rid :
  wf db ->
  get_recipe rid db =
    (Ok (hd_error (filter (fun r => Nat.eqb (recipe_id r) rid) (recipes db))), db).
Proof.
  intros Hwf. unfold get_recipe. erewrite bind_Ok by reflexivity.
  apply scalar_one_or_none_le1. apply (filter_key_le1 recipe_id); [apply Hwf|].
  intros x y Hx Hy. apply Nat.eqb_eq in Hx, Hy. congruence.
Qed.

Lemma db_add_recipe_ok r db db' :
  db_add_recipe r db = (Ok tt, db') ->
  db' = set_recipes db (recipes db ++ [r]).
Proof.
  unfold db_add_recipe, bind, get, put, raise.
  destruct (negb (varchar_fits 255 (title r))); [discriminate|].
  destruct (existsb _ _ || _) eqn:Hc; intros H; inversion H; subst. reflexivity.
Qed.

Lemma db_add_recipe_run r db :
  db_add_recipe r db =
    if negb (varchar_fits 255 (title r)) then (Raise DataError, db) else
    if existsb (fun x => Nat.eqb (recipe_id x) (recipe_id r)) (recipes db)
       || negb (existsb (fun u => Nat.eqb (user_id u) (recipe_user_id r)) (users db))
    then (Raise IntegrityError, db)
    else (Ok tt, set_recipes db (recipes db ++ [r])).
Proof.
  unfold db_add_recipe, bind, get, put, raise.
  destruct (negb (varchar_fits 255 (title r))); [reflexivity|].
  destruct (_ || _); reflexivity.
Qed.

Lemma wf_add_fresh_recipe db r :
  wf db -> (forall x, In x (recipes db) -> recipe_id x < next_id db) ->
  recipe_id r = next_id db ->
  wf (set_recipes (set_next_id db (S (next_id db))) (recipes db ++ [r])).
Proof.
  intros Hwf Hfresh Hid. destruct Hwf. constructor; simpl; auto.
  - rewrite map_app. apply NoDup_app; auto.
    + repeat constructor. intros [].
    + intros a Ha [Hr|[]]. apply in_map_iff in Ha as (x & <- & Hx).
      specialize (Hfresh x Hx). lia.
  - intros h Hh. specialize (wf_household_fresh0 h Hh). lia.
Qed.

(** [copy_recipe]: an unknown recipe id gives [None] and nothing changes;
    otherwise a fresh id is drawn and the copy, titled
    [f"{title} (Copy)"], belonging to the copying user and marked as shared
    with the household, is flushed: a title that no longer fits
    [String(255)] raises [DataError] and a user id that names no user is
    refused by the [user_id] foreign key.  Once the copy is flushed, an
    original with ingredient lines makes the line constructor raise
    [TypeError]; an original without lines gives the copy, stored after the
    existing recipes. *)
Theorem copy_recipe_spec db rid uid :
  wf db -> (forall x, In x (recipes db) -> recipe_id x < next_id db) ->
  (~ In rid (map recipe_id (recipes db)) -> copy_recipe rid uid db = (Ok None, db)) /\
  (forall orig, In orig (recipes db) -> recipe_id orig = rid ->
   let copy := mkRecipe (next_id db) uid true [] (title orig ++ " (Copy)") in
   let db1 := set_next_id db (S (next_id db)) in
   (varchar_fits 255 (title copy) = false ->
    copy_recipe rid uid db = (Raise DataError, db1)) /\
   (varchar_fits 255 (title copy) = true -> ~ In uid (map user_id (users db)) ->
    copy_recipe rid uid db = (Raise IntegrityError, db1)) /\
   (varchar_fits 255 (title copy) = true -> In uid (map user_id (users db)) ->
    recipe_ingredients orig <> [] ->
    copy_recipe rid uid db =
      (Raise (TypeError
         "'raw_ingredient_text' is an invalid keyword argument for RecipeIngredient"),
       set_recipes db1 (recipes db ++ [copy]))) /\
   (varchar_fits 255 (title copy) = true -> In uid (map user_id (users db)) ->
    recipe_ingredients orig = [] ->
    copy_recipe rid uid db = (Ok (Some copy), set_recipes db1 (recipes db ++ [copy])))).
Proof.
  intros Hwf Hfresh. unfold copy_recipe.
  rewrite (bind_Ok _ _ _ _ _ (get_recipe_run db rid Hwf)). split.
  - intros Hno.
    rewrite PlanSpec.filter_all_false_nil; [reflexivity|].
    intros x Hx. apply not_true_iff_false. intros E. apply Nat.eqb_eq in E.
    apply Hno. rewrite <- E. now apply in_map.
  - intros orig Hin Hid.
    set (copy := mkRecipe (next_id db) uid true [] (title orig ++ " (Copy)")).
    set (db1 := set_next_id db (S (next_id db))).
    assert (Hhd : hd_error (filter (fun r => Nat.eqb (recipe_id r) rid) (recipes db))
                  = Some orig).
    { assert (Ho : In orig (filter (fun r => Nat.eqb (recipe_id r) rid) (recipes db)))
        by (apply filter_In; split; [exact Hin|]; now apply Nat.eqb_eq).
      assert (Hle : List.length (filter (fun r => Nat.eqb (recipe_id r) rid)
                                   (recipes db)) <= 1).
      { apply (filter_key_le1 recipe_id); [apply Hwf|].
        intros x y Hx Hy. apply Nat.eqb_eq in Hx, Hy. congruence. }
      destruct (filter _ (recipes db)) as [|x rest]; [contradiction|].
      simpl. f_equal. eapply length_le1_In; eauto. now left. }
    assert (Hpk : existsb (fun x => Nat.eqb (recipe_id x) (recipe_id copy))
                    (recipes db1) = false).
    { apply not_true_iff_false. intros Hex.
      apply existsb_exists in Hex as (x & Hx & E). apply Nat.eqb_eq in E.
      specialize (Hfresh x Hx). simpl in E. lia. }
    assert (Huser : In uid (map user_id (users db)) ->
                    existsb (fun u => Nat.eqb (user_id u) (recipe_user_id copy))
                      (users db1) = true).
    { intros Hu. apply existsb_exists. apply in_map_iff in Hu as (u & Hid' & Hu).
      exists u. split; [exact Hu|]. now apply Nat.eqb_eq. }
    rewrite Hhd. split; [|split; [|split]].
    all: unfold fresh_id, bind at 1; cbv beta iota zeta; fold db1; fold copy;
      unfold bind at 1; rewrite db_add_recipe_run, Hpk; cbn [orb].
    + intros Hn. rewrite Hn. reflexivity.
    + intros Hn Hu. rewrite Hn.
      replace (existsb (fun u => Nat.eqb (user_id u) (recipe_user_id copy)) (users db1))
        with false; [reflexivity|].
      symmetry. apply not_true_iff_false. intros Hex.
      apply existsb_exists in Hex as (u & Hin' & E). apply Nat.eqb_eq in E.
      apply Hu. apply in_map_iff. exists u. split; [exact E|exact Hin'].
    + intros Hn Hu Hl. rewrite Hn, (Huser Hu). cbn [negb].
      destruct (recipe_ingredients orig); [contradiction|reflexivity].
    + intros Hn Hu Hl. rewrite Hn, (Huser Hu). cbn [negb].
      rewrite Hl. reflexivity.
Qed.

(** The copy is marked [shared_with_household = True], but [copy_recipe]
    grants no household access: as long as no grant names the new recipe
    id, no user other than the copier can access the copy. *)
Theorem copy_recipe_not_shared db rid uid c db1 :
  wf db -> (forall x, In x (recipes db) -> recipe_id x < next_id db) ->
  (forall a, In a (accesses db) -> ac_recipe_id a <> next_id db) ->
  copy_recipe rid uid db = (Ok (Some c), db1) ->
  shared_with_household c = true /\ recipe_user_id c = uid /\
  forall v, v <> uid -> can_user_access_recipe (recipe_id c) v db1 = (Ok false, db1).
Proof.
  intros Hwf Hfresh Hnog Hrun. unfold copy_recipe in Hrun.
  rewrite (bind_Ok _ _ _ _ _ (get_recipe_run db rid Hwf)) in Hrun.
  destruct (hd_error _) as [orig|]; [|discriminate].
  apply bind_inv in Hrun as (mid & dbB & Hf & Hrun).
  injection Hf as <- <-. cbv zeta in Hrun.
  apply bind_inv in Hrun as ([] & dbC & Hadd & Hret).
  destruct (recipe_ingredients orig); [|discriminate].
  injection Hret as <- <-. apply db_add_recipe_ok in Hadd as ->.
  split; [reflexivity|]. split; [reflexivity|]. intros v Hv.
  set (c := mkRecipe (next_id db) uid true [] (title orig ++ " (Copy)")).
  assert (Hwf1 : wf (set_recipes (set_next_id db (S (next_id db))) (recipes db ++ [c])))
    by (apply wf_add_fresh_recipe; auto).
  destruct (GrantSpec.access_check_run _ (recipe_id c) v Hwf1) as (b & Hb & Hiff).
  destruct b; [exfalso|exact Hb].
  destruct (proj1 Hiff eq_refl) as [(r & Hr & Hid & Hu)|(hid & _ & a & Ha & Hid & _)].
  - cbn [recipes set_recipes] in Hr. apply in_app_iff in Hr as [Hr|[<-|[]]].
    + specialize (Hfresh r Hr). simpl in Hid. lia.
    + simpl in Hu. congruence.
  - exact (Hnog a Ha Hid).
Qed.

Lemma copy_recipe_spec_witness :
  let db := mkDB [mkUser 1 (Some 5); mkUser 2 (Some 5)] [mkHousehold 5 "Home" 1 "abc"]
    [mkMembership 6 5 1 "admin"; mkMembership 7 5 2 "member"]
    [mkRecipe 10 1 false [mkRecipeIngredient 20 (Some 100%Z) (Some "cup")] "Bread";
     mkRecipe 11 2 true [] "Soup"] [mkAccess 21 11 5 2]
    [mkIngredient 20 "flour" None] [] 30 in
  wf db /\ (forall x, In x (recipes db) -> recipe_id x < next_id db) /\
  copy_recipe 11 1 db =
    (Ok (Some (mkRecipe 30 1 true [] "Soup (Copy)")),
     set_recipes (set_next_id db 31) (recipes db ++ [mkRecipe 30 1 true [] "Soup (Copy)"])) /\
  copy_recipe 10 1 db =
    (Raise (TypeError
       "'raw_ingredient_text' is an invalid keyword argument for RecipeIngredient"),
     set_recipes (set_next_id db 31) (recipes db ++ [mkRecipe 30 1 true [] "Bread (Copy)"])) /\
  copy_recipe 11 3 db = (Raise IntegrityError, set_next_id db 31).
Proof.
  intros db. assert (Hwf : wf db) by solve_wf.
  assert (Hfr : forall x, In x (recipes db) -> recipe_id x < next_id db)
    by (unfold db; solve_forall_in).
  split; [exact Hwf|]. split; [exact Hfr|].
  destruct (copy_recipe_spec db 11 1 Hwf Hfr) as (_ & Hsoup).
  destruct (Hsoup (mkRecipe 11 2 true [] "Soup") (or_intror (or_introl eq_refl)) eq_refl)
    as (_ & _ & _ & Hok).
  split; [apply Hok; [reflexivity|simpl; auto|reflexivity]|].
  destruct (copy_recipe_spec db 10 1 Hwf Hfr) as (_ & Hbread).
  destruct (Hbread (mkRecipe 10 1 false [mkRecipeIngredient 20 (Some 100%Z) (Some "cup")]
                      "Bread") (or_introl eq_refl) eq_refl)
    as (_ & _ & Hty & _).
  split; [apply Hty; [reflexivity|simpl; auto|discriminate]|].
  destruct (copy_recipe_spec db 11 3 Hwf Hfr) as (_ & Hnouser).
  destruct (Hnouser (mkRecipe 11 2 true [] "Soup") (or_intror (or_introl eq_refl)) eq_refl)
    as (_ & Hint & _ & _).
  apply Hint; [reflexivity|]. simpl. intros [H|[H|[]]]; discriminate.
Defined.

Lemma copy_recipe_not_shared_witness :
  let db := mkDB [mkUser 1 (Some 5); mkUser 2 (Some 5)] [mkHousehold 5 "Home" 1 "abc"]
    [mkMembership 6 5 1 "admin"; mkMembership 7 5 2 "member"]
    [mkRecipe 10 1 false [] "Soup"; mkRecipe 11 2 true [] "Soup"] [mkAccess 21 11 5 2] [] [] 30 in
  let db1 := set_recipes (set_next_id db 31)
               [mkRecipe 10 1 false [] "Soup"; mkRecipe 11 2 true [] "Soup"; mkRecipe 30 1 true [] "Soup (Copy)"] in
  wf db /\ (forall x, In x (recipes db) -> recipe_id x < next_id db) /\
  (forall a, In a (accesses db) -> ac_recipe_id a <> next_id db) /\
  copy_recipe 11 1 db = (Ok (Some (mkRecipe 30 1 true [] "Soup (Copy)")), db1) /\
  shared_with_household (mkRecipe 30 1 true [] "Soup (Copy)") = true /\
  recipe_user_id (mkRecipe 30 1 true [] "Soup (Copy)") = 1 /\
  forall v, v <> 1 -> can_user_access_recipe 30 v db1 = (Ok false, db1).
Proof.
  intros db db1. assert (Hwf : wf db) by solve_wf.
  assert (Hfr : forall x, In x (recipes db) -> recipe_id x < next_id db)
    by (unfold db; solve_forall_in).
  assert (Hng : forall a, In a (accesses db) -> ac_recipe_id a <> next_id db)
    by (intros a [<-|[]]; discriminate).
  assert (Hrun : copy_recipe 11 1 db = (Ok (Some (mkRecipe 30 1 true [] "Soup (Copy)")), db1))
    by reflexivity.
  split; [exact Hwf|]. split; [exact Hfr|]. split; [exact Hng|]. split; [exact Hrun|].
  exact (copy_recipe_not_shared db 11 1 _ db1 Hwf Hfr Hng Hrun).
Defined.

End CopySpec.

(** ** Recipe usage statistics *)

Module UsageSpec.
Import RecipeUsageService.

Lemma truthy_app xs ys : truthy (xs ++ ys) = truthy xs ++ truthy ys.
Proof. unfold truthy. apply flat_map_app. Qed.

Lemma truthy_nil xs :
  truthy xs = [] <-> forall o, In o xs -> o = None \/ o = Some 0%Z.
Proof.
  induction xs as [|o xs IH]; simpl; [split; [intros _ o []|reflexivity]|].
  destruct o as [n|]; [destruct (Z.eqb n 0) eqn:E|]; simpl.
  - apply Z.eqb_eq in E. subst n. rewrite IH. split.
    + intros H o [<-|Ho]; [now right|auto].
    + auto.
  - split; [discriminate|]. intros H.
    destruct (H (Some n) (or_introl eq_refl)) as [H'|H']; [discriminate|].
    injection H' as ->. discriminate.
  - rewrite IH. split.
    + intros H o [<-|Ho]; [now left|auto].
    + auto.
Qed.

Lemma truthy_In n xs : In n (truthy xs) -> In (Some n) xs.
Proof.
  unfold truthy. rewrite in_flat_map. intros (o & Ho & Hn).
  destruct o as [m|]; [|contradiction].
  destruct (Z.eqb m 0); [contradiction|]. destruct Hn as [<-|[]]. exact Ho.
Qed.

Lemma mean_None xs : mean xs = None <-> xs = [].
Proof. destruct xs; simpl; split; congruence. Qed.

Lemma fold_Zadd_bounds (xs : list Z) (a lo hi : Z) :
  (forall x, In x xs -> lo <= x <= hi)%Z ->
  (a + lo * Z.of_nat (List.length xs) <= fold_left Z.add xs a
   <= a + hi * Z.of_nat (List.length xs))%Z.
Proof.
  revert a. induction xs as [|x xs IH]; intros a Hx; cbn [fold_left List.length].
  - lia.
  - destruct (Hx x (or_introl eq_refl)).
    specialize (IH (a + x)%Z (fun y Hy => Hx y (or_intror Hy))).
    rewrite Nat2Z.inj_succ. nia.
Qed.

Lemma mean_bounds (xs : list Z) (lo hi : Z) (q : Q) :
  (forall x, In x xs -> lo <= x <= hi)%Z ->
  mean xs = Some q -> (inject_Z lo <= q <= inject_Z hi)%Q.
Proof.
  intros Hx Hm. destruct xs as [|x0 xs]; [discriminate|].
  injection Hm as <-.
  pose proof (fold_Zadd_bounds (x0 :: xs) 0 lo hi Hx) as [L U].
  set (k := Z.of_nat (List.length (x0 :: xs))) in *.
  assert (Hk : (0 < inject_Z k)%Q)
    by (unfold k; apply BatchSpec.inject_Z_of_nat_pos; discriminate).
  assert (L' : (lo * k <= fold_left Z.add (x0 :: xs) 0)%Z) by lia.
  assert (U' : (fold_left Z.add (x0 :: xs) 0 <= hi * k)%Z) by lia.
  split.
  - apply Qle_shift_div_l; [exact Hk|].
    rewrite <- inject_Z_mult, <- Zle_Qle. exact L'.
  - apply Qle_shift_div_r; [exact Hk|].
    rewrite <- inject_Z_mult, <- Zle_Qle. exact U'.
Qed.

(** [get_recipe_usage_stats] counts every usage row of the recipe; its
    average rating is [None] exactly when none of these rows has a rating
    other than NULL or [0], and likewise for the average cooking time. *)
Theorem get_recipe_usage_stats_spec (table : list RecipeUsage) (rid : nat) :
  let usages := filter (fun u => Nat.eqb (ru_recipe_id u) rid) table in
  let st := get_recipe_usage_stats table rid in
  usage_count st = List.length usages /\
  (average_rating st = None <->
   forall u, In u usages -> rating u = None \/ rating u = Some 0%Z) /\
  (average_cooking_time st = None <->
   forall u, In u usages ->
     cooking_time_actual u = None \/ cooking_time_actual u = Some 0%Z).
Proof.
  intros usages st. unfold st, get_recipe_usage_stats. fold usages.
  destruct usages as [|u0 us] eqn:Hu.
  - simpl. split; [reflexivity|]. split; split; auto; intros _ u [].
  - cbn [usage_count average_rating average_cooking_time].
    split; [reflexivity|]. rewrite !mean_None, !truthy_nil. split.
    + split.
      * intros H u Hin. apply H. now apply in_map.
      * intros H o Ho. apply in_map_iff in Ho as (u & <- & Hin). auto.
    + split.
      * intros H u Hin. apply H. now apply in_map.
      * intros H o Ho. apply in_map_iff in Ho as (u & <- & Hin). auto.
Qed.

(** When the stored ratings respect the [check_rating] constraint
    ([1 <= rating <= 5]), the average rating is between 1 and 5. *)
Theorem average_rating_bounds (table : list RecipeUsage) (rid : nat) (q : Q) :
  (forall u n, In u table -> rating u = Some n -> (1 <= n <= 5)%Z) ->
  average_rating (get_recipe_usage_stats table rid) = Some q ->
  (1 <= q <= 5)%Q.
Proof.
  intros Hr Havg. unfold get_recipe_usage_stats in Havg.
  destruct (filter _ table) as [|u0 us] eqn:Hu; [discriminate|].
  cbn [average_rating] in Havg.
  apply (mean_bounds _ 1 5) in Havg; [exact Havg|].
  intros n Hn. apply truthy_In, in_map_iff in Hn as (u & Hru & Hin).
  rewrite <- Hu in Hin. apply filter_In in Hin as [Hin _].
  exact (Hr u n Hin Hru).
Qed.

(** A usage row of the recipe with no rating and no cooking time (NULL or
    [0]) is counted, but leaves both averages as they were, as long as the
    recipe already had usage rows. *)
Theorem falsy_usage_ignored_in_averages (table : list RecipeUsage) (rid : nat)
  (u : RecipeUsage) :
  ru_recipe_id u = rid ->
  (rating u = None \/ rating u = Some 0%Z) ->
  (cooking_time_actual u = None \/ cooking_time_actual u = Some 0%Z) ->
  filter (fun x => Nat.eqb (ru_recipe_id x) rid) table <> [] ->
  let st := get_recipe_usage_stats table rid in
  get_recipe_usage_stats (table ++ [u]) rid =
    mkUsageStats (S (usage_count st)) (average_rating st) (average_cooking_time st).
Proof.
  intros Hid Hrat Hcook Hne st. unfold st, get_recipe_usage_stats.
  rewrite filter_app. simpl. rewrite Hid, Nat.eqb_refl.
  destruct (filter _ table) as [|u0 us]; [contradiction|].
  cbn [app usage_count average_rating average_cooking_time].
  rewrite app_comm_cons, length_app, Nat.add_comm. simpl List.length.
  rewrite !(map_app _ (u0 :: us) [u]), !truthy_app.
  assert (Hr : truthy (map rating [u]) = []) by (apply truthy_nil; intros o [<-|[]]; auto).
  assert (Hc : truthy (map cooking_time_actual [u]) = [])
    by (apply truthy_nil; intros o [<-|[]]; auto).
  rewrite Hr, Hc, !app_nil_r. reflexivity.
Qed.

Lemma average_rating_bounds_witness :
  let table := [mkRecipeUsage 1 10 (Some 4%Z) (Some 30%Z); mkRecipeUsage 2 10 (Some 5%Z) None;
       mkRecipeUsage 1 11 None (Some 10%Z)] in
  (forall u n, In u table -> rating u = Some n -> (1 <= n <= 5)%Z) /\
  average_rating (get_recipe_usage_stats table 10) = Some (9 # 2)%Q /\
  (1 <= 9 # 2 <= 5)%Q.
Proof.
  intros table.
  assert (Hr : forall u n, In u table -> rating u = Some n -> (1 <= n <= 5)%Z)
    by (intros u n Hu Hn; destruct Hu as [<-|[<-|[<-|[]]]];
        simpl in Hn; try discriminate; injection Hn as <-; lia).
  assert (Havg : average_rating (get_recipe_usage_stats table 10) = Some (9 # 2)%Q)
    by reflexivity.
  split; [exact Hr|]. split; [exact Havg|].
  exact (average_rating_bounds table 10 _ Hr Havg).
Defined.

Lemma falsy_usage_ignored_in_averages_witness :
  let table := [mkRecipeUsage 1 10 (Some 4%Z) (Some 30%Z); mkRecipeUsage 2 10 (Some 5%Z) None;
       mkRecipeUsage 1 11 None (Some 10%Z)] in
  let u := mkRecipeUsage 3 10 None (Some 0%Z) in
  filter (fun x => Nat.eqb (ru_recipe_id x) 10) table <> [] /\
  get_recipe_usage_stats (table ++ [u]) 10 =
    mkUsageStats 3 (Some (9 # 2)%Q) (Some (30 # 1)%Q).
Proof.
  intros table u.
  assert (Hne : filter (fun x => Nat.eqb (ru_recipe_id x) 10) table <> [])
    by discriminate.
  split; [exact Hne|].
  exact (falsy_usage_ignored_in_averages table 10 u eq_refl (or_introl eq_refl)
           (or_intror eq_refl) Hne).
Defined.

End UsageSpec.
